(** * Equipment lifecycle and procurement planning: a shallow embedding

    This development embeds the services of the repository
    ([degradationTracker.ts], [costCalculator.ts], [inventoryManager.ts],
    [helpers.ts], [equipmentManager.ts]) and its two stores
    ([inventoryStore.ts], [equipmentStore.ts]) as Rocq functions and proves
    properties of them.

    Conventions.
    - A TypeScript [number] is an exact rational [Q] where the property at
      hand is an ordering, a bound or a choice of branch that rounding does
      not decide; equality of numbers is then [Qeq] ([==]) and division is
      [Qdiv].  The data model asks for [maxValue > 0] and
      [degradationRate > 0], and statements that depend on a quotient carry
      the corresponding hypothesis.
    - Where rounding decides the result (the day counts of the predictions,
      the budget of the procurement plan) a [number] is a binary64 float:
      [Module Binary64] gives the operations over [SpecFloat], and
      [Module Rounded] the functions concerned over them.
    - A thrown error is a [Throw] of the monad [Exc].
      [Date.prototype.toISOString] throws a [RangeError] on an invalid
      date: [Module Raising] gives the functions that print a computed date
      with this error, and the functions of the same name outside it give
      what is returned when nothing is thrown (lemmas [*_raises]).
    - Arrays are lists, [Array.prototype.find] is [List.find], an optional
      field is an [option].
    - [new Date()], [crypto.randomUUID()] and the printing of a number in
      a template string are read from an explicit environment: a [Clock],
      a stream of identifiers, a function [showNumber].
    - Records are passed by value, except in [Module Heap], which gives the
      two transaction functions over a heap of objects and references;
      [Module HeapRefinement] relates the two. *)

From Stdlib Require Import QArith Qround Qminmax Lqa ZArith Lia List Permutation.
From Stdlib Require Import SpecFloat.
From stdpp Require Import gmap strings.
Import ListNotations.

Local Open Scope string_scope.
Local Open Scope Q_scope.

(** ** Numbers *)

Definition Qltb (x y : Q) : bool := negb (Qle_bool y x).
Definition Qgtb (x y : Q) : bool := Qltb y x.
Definition Qleb (x y : Q) : bool := Qle_bool x y.
Definition Qgeb (x y : Q) : bool := Qle_bool y x.

(** [Math.max] on two numbers. *)
Definition Math_max (x y : Q) : Q := if Qltb x y then y else x.

(** A value used as a condition: [undefined] and [0] are falsy. *)
Definition truthy (o : option Q) : bool :=
  match o with
  | Some q => negb (Qeq_bool q 0)
  | None => false
  end.

(** [x || d] on an optional number. *)
Definition or_default (o : option Q) (d : Q) : Q :=
  match o with
  | Some q => if Qeq_bool q 0 then d else q
  | None => d
  end.

(** ** Data model ([types/equipment.ts], [types/inventory.ts]) *)

Inductive EquipmentCategory := platform | payload | sensor.
Inductive DegradationType := cycles | hours | time.

Module Consumable.
Record t := mk {
  id : string;
  name : string;
  unit : string;
  costPerUnit : Q;
  stockLevel : Q;
  minimumStock : Q;
  reorderPoint : Q
}.
Definition set_stockLevel (c : t) (v : Q) : t :=
  mk (id c) (name c) (unit c) (costPerUnit c) v (minimumStock c) (reorderPoint c).
End Consumable.

Module DegradationParams.
Record t := mk {
  type : DegradationType;
  maxValue : Q;
  currentValue : Q;
  replacementCost : Q;
  degradationRate : Q;
  lastUpdated : string
}.
Definition set_currentValue (d : t) (v : Q) : t :=
  mk (type d) (maxValue d) v (replacementCost d) (degradationRate d) (lastUpdated d).
Definition set_lastUpdated (d : t) (s : string) : t :=
  mk (type d) (maxValue d) (currentValue d) (replacementCost d) (degradationRate d) s.
End DegradationParams.

Module ConsumableLink.
Record t := mk { id : string; unitsPerUse : Q }.
End ConsumableLink.

Inductive DocumentType := manual | specification | certification.

Module Document.
Record t := mk { id : string; type : DocumentType; url : string }.
End Document.

Module Equipment.
Record t := mk {
  id : string;
  category : EquipmentCategory;
  name : string;
  description : string;
  manufacturer : string;
  modelNumber : string;
  acquisitionCost : Q;
  quantity : Q;
  inUse : Q;
  consumables : list ConsumableLink.t;
  degradation : DegradationParams.t;
  personnelRequired : Q;
  dateAdded : string;
  lastUsed : option string;
  specifications : list (string * (string + Q));
  documents : list Document.t
}.
Definition set_quantity (e : t) (v : Q) : t :=
  mk (id e) (category e) (name e) (description e) (manufacturer e)
     (modelNumber e) (acquisitionCost e) v (inUse e) (consumables e)
     (degradation e) (personnelRequired e) (dateAdded e) (lastUsed e)
     (specifications e) (documents e).
Definition set_inUse (e : t) (v : Q) : t :=
  mk (id e) (category e) (name e) (description e) (manufacturer e)
     (modelNumber e) (acquisitionCost e) (quantity e) v (consumables e)
     (degradation e) (personnelRequired e) (dateAdded e) (lastUsed e)
     (specifications e) (documents e).
Definition set_degradation (e : t) (d : DegradationParams.t) : t :=
  mk (id e) (category e) (name e) (description e) (manufacturer e)
     (modelNumber e) (acquisitionCost e) (quantity e) (inUse e)
     (consumables e) d (personnelRequired e) (dateAdded e) (lastUsed e)
     (specifications e) (documents e).
End Equipment.

Module CombinationItem.
Record t := mk { id : string; quantity : Q }.
End CombinationItem.

Module EquipmentCombination.
Record t := mk {
  id : string;
  name : string;
  description : string;
  equipment : list CombinationItem.t;
  totalCost : Q;
  personnelRequired : Q;
  consumablesRequired : list CombinationItem.t;
  created : string;
  lastUsed : option string;
  usageCount : Q
}.
End EquipmentCombination.

Inductive InventoryTransactionType := acquisition | deployment | return_ | disposal.

Module InventoryTransaction.
Record t := mk {
  id : string;
  equipmentId : string;
  type : InventoryTransactionType;
  quantity : Q;
  date : string;
  notes : string;
  cost : option Q;
  personnelId : option string
}.
End InventoryTransaction.

Inductive ConsumableTransactionType := purchase | use | c_disposal.

Module ConsumableTransaction.
Record t := mk {
  id : string;
  consumableId : string;
  type : ConsumableTransactionType;
  quantity : Q;
  date : string;
  cost : option Q;
  associatedEquipmentId : option string
}.
End ConsumableTransaction.

Inductive ItemType := it_equipment | it_consumable.
Inductive Priority := high | medium | low.
Inductive NeedStatus := pending | approved | ordered | received.

Module ProcurementNeed.
Record t := mk {
  id : string;
  itemType : ItemType;
  itemId : string;
  quantity : Q;
  estimatedCost : Q;
  priority : Priority;
  reason : string;
  requestDate : string;
  status : NeedStatus
}.
End ProcurementNeed.

(** ** Environment: the clock *)

Record Clock := {
  nowISO : string;                 (* new Date().toISOString() *)
  isoAfterDays : Z -> string;      (* setDate(getDate() + n), then toISOString() *)
  isoAfterMonths : nat -> string;  (* setMonth(getMonth() + n), then toISOString() *)
  representable : Z -> bool        (* the date n days from now is a valid Date:
                                      within 100,000,000 days of the epoch *)
}.

(** ** DegradationTrackerService ([services/degradationTracker.ts]) *)

Module Usage.
Record t := mk { cycles : option Q; hours : option Q; days : option Q }.
End Usage.

Inductive HealthLevel := good | fair | poor | critical.

Module HealthStatus.
Record t := mk { status : HealthLevel; message : string; needsMaintenance : bool }.
End HealthStatus.

Module Replacement.
Record t := mk {
  daysUntilReplacement : Z;
  estimatedReplacementDate : string;
  currentHealthPercentage : Q
}.
End Replacement.

Module MaintenanceCosts.
Record t := mk { monthly : Q; yearly : Q; nextMaintenance : string }.
End MaintenanceCosts.

Section DegradationTracker.
Variable clk : Clock.

Definition calculateDegradation (equipment : Equipment.t) (usage : Usage.t)
  : DegradationParams.t :=
  let degradation := Equipment.degradation equipment in
  let newDegradation :=
    match DegradationParams.type degradation with
    | cycles =>
        if truthy (Usage.cycles usage) then
          DegradationParams.set_currentValue degradation
            (Math_max 0 (DegradationParams.currentValue degradation
                         - or_default (Usage.cycles usage) 0
                           * DegradationParams.degradationRate degradation))
        else degradation
    | hours =>
        if truthy (Usage.hours usage) then
          DegradationParams.set_currentValue degradation
            (Math_max 0 (DegradationParams.currentValue degradation
                         - or_default (Usage.hours usage) 0
                           * DegradationParams.degradationRate degradation))
        else degradation
    | time =>
        if truthy (Usage.days usage) then
          DegradationParams.set_currentValue degradation
            (Math_max 0 (DegradationParams.currentValue degradation
                         - or_default (Usage.days usage) 0
                           * DegradationParams.degradationRate degradation))
        else degradation
    end in
  DegradationParams.set_lastUpdated newDegradation (nowISO clk).

Definition dailyRate (degradation : DegradationParams.t) : Q :=
  match DegradationParams.type degradation with
  | cycles => DegradationParams.degradationRate degradation * 1
  | hours => DegradationParams.degradationRate degradation * 24
  | time => DegradationParams.degradationRate degradation
  end.

(** What [predictReplacement] returns when it returns, in exact
    arithmetic; [Raising.predictReplacement] adds the error of
    [toISOString], [Rounded.predictReplacement] is the function over
    doubles. *)
Definition predictReplacement (equipment : Equipment.t) : Replacement.t :=
  let degradation := Equipment.degradation equipment in
  let currentHealth :=
    (DegradationParams.currentValue degradation
     / DegradationParams.maxValue degradation) * 100 in
  let daysRemaining :=
    Qfloor (DegradationParams.currentValue degradation / dailyRate degradation) in
  Replacement.mk daysRemaining (isoAfterDays clk daysRemaining) currentHealth.

(** What [calculateMaintenanceCosts] returns when it returns;
    [Raising.calculateMaintenanceCosts] adds the error of [toISOString]. *)
Definition calculateMaintenanceCosts (equipment : Equipment.t) : MaintenanceCosts.t :=
  let baseMaintenanceCost := Equipment.acquisitionCost equipment * (2 # 100) in
  let degradation := Equipment.degradation equipment in
  let healthFactor :=
    DegradationParams.currentValue degradation
    / DegradationParams.maxValue degradation in
  let adjustedMonthlyCost := baseMaintenanceCost * (2 - healthFactor) in
  let daysUntilMaintenance := Qfloor (healthFactor * 90) in
  MaintenanceCosts.mk adjustedMonthlyCost (adjustedMonthlyCost * 12)
    (isoAfterDays clk daysUntilMaintenance).
End DegradationTracker.

Definition healthPercentage (equipment : Equipment.t) : Q :=
  (DegradationParams.currentValue (Equipment.degradation equipment)
   / DegradationParams.maxValue (Equipment.degradation equipment)) * 100.

Definition getHealthStatus (equipment : Equipment.t) : HealthStatus.t :=
  let healthPercentage := healthPercentage equipment in
  if Qgtb healthPercentage 75 then
    HealthStatus.mk good "Equipment is in good condition" false
  else if Qgtb healthPercentage 50 then
    HealthStatus.mk fair "Equipment is functioning adequately" false
  else if Qgtb healthPercentage 25 then
    HealthStatus.mk poor "Equipment requires attention" true
  else
    HealthStatus.mk critical "Immediate maintenance required" true.

(** ** Array.prototype.sort

    The sort is stable: elements the comparator does not order keep their
    relative position.  [cmp a b <= 0] keeps [a] before [b]. *)

Fixpoint insert_by {A} (cmp : A -> A -> Q) (x : A) (l : list A) : list A :=
  match l with
  | [] => [x]
  | y :: l' => if Qleb (cmp x y) 0 then x :: l else y :: insert_by cmp x l'
  end.

Definition sort_by {A} (cmp : A -> A -> Q) (l : list A) : list A :=
  fold_right (insert_by cmp) [] l.

(** ** InventoryManagerService ([services/inventoryManager.ts]) *)

Module InventoryStatus.
Record t := mk {
  available : Q;
  deployed : Q;
  maintenance : Q;
  degradationStatus : Q
}.
End InventoryStatus.

Module EquipmentResult.
Record t := mk {
  success : bool;
  message : string;
  updatedEquipment : option Equipment.t
}.
End EquipmentResult.

Module ConsumableResult.
Record t := mk {
  success : bool;
  message : string;
  updatedConsumable : option Consumable.t
}.
End ConsumableResult.

(** What [triggerReorder] writes to the console. *)
Module ReorderLog.
Record t := mk {
  text : string;
  currentStock : Q;
  reorderPoint : Q;
  suggestedOrderQuantity : Q
}.
End ReorderLog.

Definition getInventoryStatus (equipment : Equipment.t) : InventoryStatus.t :=
  let degradation := getHealthStatus equipment in
  let inMaintenance : Q := if HealthStatus.needsMaintenance degradation then 1 else 0 in
  InventoryStatus.mk
    (Equipment.quantity equipment - Equipment.inUse equipment - inMaintenance)
    (Equipment.inUse equipment)
    inMaintenance
    ((DegradationParams.currentValue (Equipment.degradation equipment)
      / DegradationParams.maxValue (Equipment.degradation equipment)) * 100).

Definition triggerReorder (consumable : Consumable.t) : ReorderLog.t :=
  ReorderLog.mk
    ("Reorder triggered for " ++ Consumable.name consumable ++ ":")
    (Consumable.stockLevel consumable)
    (Consumable.reorderPoint consumable)
    (Consumable.reorderPoint consumable * 2 - Consumable.stockLevel consumable).

Definition priorityOrder (p : Priority) : Q :=
  match p with high => 0 | medium => 1 | low => 2 end.

Section InventoryManager.
Variable clk : Clock.
Variable randomUUID : nat -> string.

Definition processEquipmentTransaction
    (transaction : InventoryTransaction.t) (equipment : list Equipment.t)
  : EquipmentResult.t :=
  match find (fun e => String.eqb (Equipment.id e)
                         (InventoryTransaction.equipmentId transaction)) equipment with
  | None => EquipmentResult.mk false "Equipment not found" None
  | Some equipmentItem =>
      let status := getInventoryStatus equipmentItem in
      let updatedEquipment := equipmentItem in
      let q := InventoryTransaction.quantity transaction in
      let done (u : Equipment.t) :=
        EquipmentResult.mk true "Transaction processed successfully" (Some u) in
      match InventoryTransaction.type transaction with
      | acquisition =>
          done (Equipment.set_quantity updatedEquipment
                  (Equipment.quantity updatedEquipment + q))
      | deployment =>
          if Qltb (InventoryStatus.available status) q then
            EquipmentResult.mk false "Insufficient available equipment" None
          else
            done (Equipment.set_inUse updatedEquipment
                    (Equipment.inUse updatedEquipment + q))
      | return_ =>
          if Qltb (Equipment.inUse updatedEquipment) q then
            EquipmentResult.mk false "Invalid return quantity" None
          else
            let updatedEquipment := Equipment.set_inUse updatedEquipment
                                      (Equipment.inUse updatedEquipment - q) in
            done (Equipment.set_degradation updatedEquipment
                    (calculateDegradation clk updatedEquipment
                       (Usage.mk (Some 1) None None)))
      | disposal =>
          if Qltb (Equipment.quantity updatedEquipment) q then
            EquipmentResult.mk false "Invalid disposal quantity" None
          else
            done (Equipment.set_quantity updatedEquipment
                    (Equipment.quantity updatedEquipment - q))
      end
  end.

(** The second component is the console output of the call. *)
Definition processConsumableTransaction
    (transaction : ConsumableTransaction.t) (consumables : list Consumable.t)
  : ConsumableResult.t * list ReorderLog.t :=
  match find (fun c => String.eqb (Consumable.id c)
                         (ConsumableTransaction.consumableId transaction)) consumables with
  | None => (ConsumableResult.mk false "Consumable not found" None, [])
  | Some consumable =>
      let updatedConsumable := consumable in
      let q := ConsumableTransaction.quantity transaction in
      let finish (u : Consumable.t) :=
        (ConsumableResult.mk true "Transaction processed successfully" (Some u),
         if Qleb (Consumable.stockLevel u) (Consumable.reorderPoint u)
         then [triggerReorder u] else []) in
      match ConsumableTransaction.type transaction with
      | purchase =>
          finish (Consumable.set_stockLevel updatedConsumable
                    (Consumable.stockLevel updatedConsumable + q))
      | use =>
          if Qltb (Consumable.stockLevel updatedConsumable) q then
            (ConsumableResult.mk false "Insufficient stock" None, [])
          else
            finish (Consumable.set_stockLevel updatedConsumable
                      (Consumable.stockLevel updatedConsumable - q))
      | c_disposal =>
          if Qltb (Consumable.stockLevel updatedConsumable) q then
            (ConsumableResult.mk false "Invalid disposal quantity" None, [])
          else
            finish (Consumable.set_stockLevel updatedConsumable
                      (Consumable.stockLevel updatedConsumable - q))
      end
  end.

(** One iteration of [equipment.forEach] in [generateProcurementNeeds]:
    [needs] is the array built so far; one identifier is drawn per push. *)
Definition equipmentNeedStep (needs : list ProcurementNeed.t) (eq : Equipment.t)
  : list ProcurementNeed.t :=
  let status := getInventoryStatus eq in
  let replacementPrediction := predictReplacement clk eq in
  let soon := (Replacement.daysUntilReplacement replacementPrediction <? 30)%Z in
  if Qltb (InventoryStatus.available status) 2 || soon then
    needs ++ [ProcurementNeed.mk
                (randomUUID (length needs))
                it_equipment
                (Equipment.id eq)
                (Math_max (2 - InventoryStatus.available status) 0
                 + (if soon then 1 else 0))
                (Equipment.acquisitionCost eq)
                (if Qeq_bool (InventoryStatus.available status) 0 then high else medium)
                (if Qltb (InventoryStatus.available status) 2
                 then "Low stock level" else "Upcoming replacement needed")
                (nowISO clk)
                pending]
  else needs.

(** One iteration of [consumables.forEach] in [generateProcurementNeeds]. *)
Definition consumableNeedStep (needs : list ProcurementNeed.t) (consumable : Consumable.t)
  : list ProcurementNeed.t :=
  if Qleb (Consumable.stockLevel consumable) (Consumable.reorderPoint consumable) then
    let orderQuantity :=
      Consumable.reorderPoint consumable * 2 - Consumable.stockLevel consumable in
    needs ++ [ProcurementNeed.mk
                (randomUUID (length needs))
                it_consumable
                (Consumable.id consumable)
                orderQuantity
                (orderQuantity * Consumable.costPerUnit consumable)
                (if Qleb (Consumable.stockLevel consumable)
                         (Consumable.minimumStock consumable) then high else medium)
                "Stock below reorder point"
                (nowISO clk)
                pending]
  else needs.

(** The needs [generateProcurementNeeds] returns when it returns;
    [Raising.generateProcurementNeeds] adds the error [predictReplacement]
    throws in the loop over the equipment. *)
Definition generateProcurementNeeds
    (equipment : list Equipment.t) (consumables : list Consumable.t)
  : list ProcurementNeed.t :=
  let needs := fold_left equipmentNeedStep equipment [] in
  let needs := fold_left consumableNeedStep consumables needs in
  sort_by (fun a b => priorityOrder (ProcurementNeed.priority a)
                      - priorityOrder (ProcurementNeed.priority b)) needs.
End InventoryManager.

(** ** Helpers ([utils/helpers.ts]) *)

Module UsagePattern.
Record t := mk { cyclesPerDay : option Q; hoursPerDay : option Q }.
Definition empty : t := mk None None.
End UsagePattern.

Module MaintenanceNeeds.
Record t := mk {
  daysUntilMaintenance : Z;
  maintenanceDate : string;
  estimatedCost : Q;
  priority : Priority
}.
End MaintenanceNeeds.

Definition calculateMaintenanceCost (equipment : Equipment.t) : Q :=
  let baseMaintenanceCost := Equipment.acquisitionCost equipment * (5 # 100) in
  let degradationFactor :=
    DegradationParams.currentValue (Equipment.degradation equipment)
    / DegradationParams.maxValue (Equipment.degradation equipment) in
  baseMaintenanceCost * (2 - degradationFactor).

Section Helpers.
Variable clk : Clock.
Variable randomUUID : nat -> string.
Variable showNumber : Q -> string.

(** [predictMaintenanceNeeds] in exact arithmetic, for the properties of an
    asset at or below the threshold, where the day count is at most 0
    however the quotient is rounded; [Rounded.predictMaintenanceNeeds] is
    the function over doubles.  [maintenanceDate] is a [Date] object, named
    by the text it would print. *)
Definition predictMaintenanceNeeds
    (equipment : Equipment.t) (usagePattern : UsagePattern.t)
  : MaintenanceNeeds.t :=
  let degradation := Equipment.degradation equipment in
  let remainingValue := DegradationParams.currentValue degradation in
  let threshold := DegradationParams.maxValue degradation * (25 # 100) in
  let daysUntilMaintenance :=
    match DegradationParams.type degradation with
    | cycles =>
        let cyclesPerDay := or_default (UsagePattern.cyclesPerDay usagePattern) 1 in
        Qfloor ((remainingValue - threshold)
                / (DegradationParams.degradationRate degradation * cyclesPerDay))
    | hours =>
        let hoursPerDay := or_default (UsagePattern.hoursPerDay usagePattern) 8 in
        Qfloor ((remainingValue - threshold)
                / (DegradationParams.degradationRate degradation * hoursPerDay))
    | time =>
        Qfloor ((remainingValue - threshold)
                / DegradationParams.degradationRate degradation)
    end in
  let estimatedCost := calculateMaintenanceCost equipment in
  let priority :=
    if (daysUntilMaintenance <=? 7)%Z then high
    else if (daysUntilMaintenance <=? 30)%Z then medium else low in
  MaintenanceNeeds.mk daysUntilMaintenance (isoAfterDays clk daysUntilMaintenance)
    estimatedCost priority.

(** The state of [generateProcurementPlan]: the array [needs] and
    [remainingBudget]. *)
Definition PlanState : Type := list ProcurementNeed.t * Q.

(** One step of the loop over the equipment in [generateProcurementPlan],
    in exact arithmetic; [Rounded.planEquipmentStep] is the step over
    doubles, and [Rounded.generateProcurementPlan] the whole plan. *)
Definition planEquipmentStep (st : PlanState) (eq : Equipment.t) : PlanState :=
  let '(needs, remainingBudget) := st in
  let maintenanceNeeds := predictMaintenanceNeeds eq UsagePattern.empty in
  match MaintenanceNeeds.priority maintenanceNeeds with
  | high =>
      if Qgeb remainingBudget (Equipment.acquisitionCost eq) then
        ((needs ++ [ProcurementNeed.mk
                     (randomUUID (length needs))
                     it_equipment
                     (Equipment.id eq)
                     1
                     (Equipment.acquisitionCost eq)
                     high
                     ("Critical replacement needed within "
                      ++ showNumber (inject_Z (MaintenanceNeeds.daysUntilMaintenance
                                                 maintenanceNeeds))
                      ++ " days")
                     (nowISO clk)
                     pending])%list,
         remainingBudget - Equipment.acquisitionCost eq)
      else st
  | _ => st
  end.

End Helpers.

(** ** CostCalculatorService ([services/costCalculator.ts]) *)

Module ItemizedCost.
Record t := mk { name : string; category : string; cost : Q }.
End ItemizedCost.

Module PersonnelBreakdown.
Record t := mk { count : Q; costPerPerson : Q }.
End PersonnelBreakdown.

Module ConsumableCost.
Record t := mk { id : string; units : Q; costPerUnit : Q; totalCost : Q }.
End ConsumableCost.

Module CostDetails.
Record t := mk {
  itemizedCosts : list ItemizedCost.t;
  personnelBreakdown : PersonnelBreakdown.t;
  consumablesBreakdown : list ConsumableCost.t
}.
End CostDetails.

Module CostBreakdown.
Record t := mk {
  acquisition : Q;
  operational : Q;
  maintenance : Q;
  personnel : Q;
  consumables : Q;
  total : Q;
  details : option CostDetails.t
}.
Definition zero : t := mk 0 0 0 0 0 0 None.
Definition set_total (c : t) (v : Q) : t :=
  mk (acquisition c) (operational c) (maintenance c) (personnel c)
     (consumables c) v (details c).
End CostBreakdown.

Module Projection.
Record t := mk { date : string; costs : CostBreakdown.t }.
End Projection.

Module ProjectedCosts.
Record t := mk {
  monthly : list CostBreakdown.t;
  quarterly : list CostBreakdown.t;
  yearly : CostBreakdown.t;
  projections : list Projection.t
}.
End ProjectedCosts.

Definition PERSONNEL_COST_PER_MONTH : Q := 5000.
Definition CONSUMABLE_BASE_COST : Q := 100.

Definition categoryName (c : EquipmentCategory) : string :=
  match c with platform => "platform" | payload => "payload" | sensor => "sensor" end.

Definition calculateOperationalCost (equipment : Equipment.t) : Q :=
  let baseCost := Equipment.acquisitionCost equipment * (1 # 10) in
  let degradation := getHealthStatus equipment in
  let healthFactor :=
    match HealthStatus.status degradation with
    | good => 1
    | fair => 12 # 10
    | poor => 15 # 10
    | critical => 2
    end in
  baseCost * healthFactor.

Definition calculatePersonnelCost (equipment : Equipment.t) : Q :=
  Equipment.personnelRequired equipment * PERSONNEL_COST_PER_MONTH.

Definition calculateConsumablesCost (equipment : Equipment.t) : Q :=
  fold_left (fun total consumable =>
               total + ConsumableLink.unitsPerUse consumable * CONSUMABLE_BASE_COST)
    (Equipment.consumables equipment) 0.

Definition aggregateCosts (costs : list CostBreakdown.t) : CostBreakdown.t :=
  fold_left (fun total current =>
               CostBreakdown.mk
                 (CostBreakdown.acquisition total + CostBreakdown.acquisition current)
                 (CostBreakdown.operational total + CostBreakdown.operational current)
                 (CostBreakdown.maintenance total + CostBreakdown.maintenance current)
                 (CostBreakdown.personnel total + CostBreakdown.personnel current)
                 (CostBreakdown.consumables total + CostBreakdown.consumables current)
                 (CostBreakdown.total total + CostBreakdown.total current)
                 None)
    costs CostBreakdown.zero.

Section CostCalculator.
Variable clk : Clock.

Definition calculateEquipmentCosts (equipment : Equipment.t) : CostBreakdown.t :=
  let maintenanceCosts := calculateMaintenanceCosts clk equipment in
  let operationalCost := calculateOperationalCost equipment in
  let personnelCost := calculatePersonnelCost equipment in
  let consumablesCost := calculateConsumablesCost equipment in
  CostBreakdown.mk
    (Equipment.acquisitionCost equipment)
    operationalCost
    (MaintenanceCosts.monthly maintenanceCosts)
    personnelCost
    consumablesCost
    (Equipment.acquisitionCost equipment + operationalCost
     + MaintenanceCosts.monthly maintenanceCosts + personnelCost + consumablesCost)
    (Some (CostDetails.mk
             [ItemizedCost.mk (Equipment.name equipment)
                (categoryName (Equipment.category equipment))
                (Equipment.acquisitionCost equipment)]
             (PersonnelBreakdown.mk (Equipment.personnelRequired equipment)
                PERSONNEL_COST_PER_MONTH)
             (map (fun consumable =>
                     ConsumableCost.mk (ConsumableLink.id consumable)
                       (ConsumableLink.unitsPerUse consumable)
                       CONSUMABLE_BASE_COST
                       (ConsumableLink.unitsPerUse consumable * CONSUMABLE_BASE_COST))
                (Equipment.consumables equipment)))).

(** The degradation factor [projectCosts] uses for [item] in month [index]. *)
Definition degradationFactor (item : Equipment.t) (index : nat) : Q :=
  let degradation :=
    calculateDegradation clk item
      (Usage.mk None None (Some (30 * inject_Z (Z.of_nat index)))) in
  DegradationParams.currentValue degradation / DegradationParams.maxValue degradation.

(** The body of the [reduce] over [equipment] in [projectCosts]. *)
Definition monthlyStep (index : nat) (total : CostBreakdown.t) (item : Equipment.t)
  : CostBreakdown.t :=
  let costs := calculateEquipmentCosts item in
  let degradationFactor := degradationFactor item index in
  CostBreakdown.mk
    (CostBreakdown.acquisition total + CostBreakdown.acquisition costs / 12)
    (CostBreakdown.operational total + CostBreakdown.operational costs * degradationFactor)
    (CostBreakdown.maintenance total
     + CostBreakdown.maintenance costs * (2 - degradationFactor))
    (CostBreakdown.personnel total + CostBreakdown.personnel costs)
    (CostBreakdown.consumables total + CostBreakdown.consumables costs)
    0
    None.

Definition monthlyProjection (equipment : list Equipment.t) (index : nat) : Projection.t :=
  let monthlyCosts := fold_left (monthlyStep index) equipment CostBreakdown.zero in
  let sum := 0 + CostBreakdown.acquisition monthlyCosts
             + CostBreakdown.operational monthlyCosts
             + CostBreakdown.maintenance monthlyCosts
             + CostBreakdown.personnel monthlyCosts
             + CostBreakdown.consumables monthlyCosts
             + CostBreakdown.total monthlyCosts in
  Projection.mk (isoAfterMonths clk index)
    (CostBreakdown.set_total monthlyCosts (sum - CostBreakdown.total monthlyCosts)).

Definition projectCosts (equipment : list Equipment.t) (months : nat) : ProjectedCosts.t :=
  let monthlyProjections := map (monthlyProjection equipment) (seq 0 months) in
  let quarterlyProjections :=
    map (fun index =>
           aggregateCosts
             (map Projection.costs
                (firstn 3 (skipn (index * 3) monthlyProjections))))
      (seq 0 ((months + 2) / 3)) in
  ProjectedCosts.mk
    (map Projection.costs monthlyProjections)
    quarterlyProjections
    (aggregateCosts (map Projection.costs monthlyProjections))
    monthlyProjections.
End CostCalculator.

(** ** EquipmentManagerService ([services/equipmentManager.ts]) *)

(** A computation that returns a value or throws an [Error] with a message. *)
Inductive Exc (A : Type) : Type :=
| Ok (a : A)
| Throw (message : string).
Arguments Ok {A} a.
Arguments Throw {A} message.

Definition exc_bind {A B} (m : Exc A) (k : A -> Exc B) : Exc B :=
  match m with
  | Ok a => k a
  | Throw msg => Throw msg
  end.

Notation "x <-! m ;; k" := (exc_bind m (fun x => k))
  (at level 100, m at level 99, right associativity).

Module Validation.
Record t := mk { valid : bool; message : option string }.
End Validation.

Section EquipmentManager.
(** The manager's [equipment] map. *)
Variable this_equipment : gmap string Equipment.t.
(** The text of the [TypeError] for a call of what is not a function; the
    engine chooses it. *)
Variable typeError : string.

(** [this.degradationTracker.getDegradation(id)]: the tracker is the
    [DegradationTrackerService] of [services/degradationTracker.ts], which
    has no method of this name, so the call throws a [TypeError]. *)
Definition getDegradation (id : string) : Exc DegradationParams.t :=
  Throw typeError.

Definition getEquipment (id : string) : Exc Equipment.t :=
  match this_equipment !! id with
  | Some e => Ok e
  | None => Throw ("Equipment with ID " ++ id ++ " not found")
  end.

(** The [for ... of] loop of [validateCombination], with its early returns. *)
Fixpoint validateItems (items : list CombinationItem.t) : Exc Validation.t :=
  match items with
  | [] => Ok (Validation.mk true None)
  | eq :: rest =>
      equipment <-! getEquipment (CombinationItem.id eq) ;;
      let available := Equipment.quantity equipment - Equipment.inUse equipment in
      if Qltb available (CombinationItem.quantity eq) then
        Ok (Validation.mk false
              (Some ("Insufficient quantity of " ++ Equipment.name equipment
                     ++ " available")))
      else
        degradation <-! getDegradation (CombinationItem.id eq) ;;
        if Qltb (DegradationParams.currentValue degradation) 25 then
          Ok (Validation.mk false
                (Some (Equipment.name equipment ++ " requires maintenance before use")))
        else validateItems rest
  end.

Definition validateCombination (combination : EquipmentCombination.t) : Validation.t :=
  match validateItems (EquipmentCombination.equipment combination) with
  | Ok r => r
  | Throw msg => Validation.mk false (Some msg)
  end.
End EquipmentManager.

(** ** The transactions over a heap of objects

    The functions above pass records by value.  To speak about what a
    transaction writes, the same two functions are given here over a heap:
    an object is a finite map from field names to values, a value of object
    type is a reference, [{ ...o }] allocates a new object with the fields
    of [o] (nested objects stay shared), and an assignment [o.f = v] or
    [o.f += v] writes field [f] of the object [o] refers to.  A computation
    is stuck ([None]) on a dangling reference or a field of the wrong type. *)

Module Heap.

Abbreviation loc := positive (only parsing).

Inductive value :=
| VUndef
| VNum (q : Q)
| VStr (s : string)
| VRef (l : loc).

Inductive cell :=
| Obj (fields : gmap string value)
| Arr (items : list value).

Abbreviation heap := (gmap positive cell) (only parsing).

Definition M (A : Type) : Type := heap -> option (A * heap).

Definition ret {A} (a : A) : M A := fun h => Some (a, h).

Definition bind {A B} (m : M A) (k : A -> M B) : M B :=
  fun h => match m h with
           | Some (a, h') => k a h'
           | None => None
           end.

Definition stuck {A} : M A := fun _ => None.

Notation "x <- m ;; k" := (bind m (fun x => k))
  (at level 100, m at level 99, right associativity).
Notation "m ;;; k" := (bind m (fun _ => k))
  (at level 100, right associativity).

Definition getField (l : loc) (f : string) : M value :=
  fun h => match h !! l with
           | Some (Obj o) => Some (default VUndef (o !! f), h)
           | _ => None
           end.

Definition getNum (l : loc) (f : string) : M Q :=
  v <- getField l f ;;
  match v with VNum q => ret q | _ => stuck end.

Definition getStr (l : loc) (f : string) : M string :=
  v <- getField l f ;;
  match v with VStr s => ret s | _ => stuck end.

Definition getRef (l : loc) (f : string) : M loc :=
  v <- getField l f ;;
  match v with VRef r => ret r | _ => stuck end.

(** [o.f = v] *)
Definition setField (l : loc) (f : string) (v : value) : M unit :=
  fun h => match h !! l with
           | Some (Obj o) => Some (tt, <[l := Obj (<[f := v]> o)]> h)
           | _ => None
           end.

(** [{ ...o }] *)
Definition spread (l : loc) : M loc :=
  fun h => match h !! l with
           | Some (Obj o) =>
               let l' := fresh (dom h) in Some (l', <[l' := Obj o]> h)
           | _ => None
           end.

Definition readArr (l : loc) : M (list value) :=
  fun h => match h !! l with
           | Some (Arr items) => Some (items, h)
           | _ => None
           end.

(** [array.find(x => x.id === id)] *)
Fixpoint findById (items : list value) (id : string) : M (option loc) :=
  match items with
  | [] => ret None
  | VRef l :: rest =>
      i <- getStr l "id" ;;
      if String.eqb i id then ret (Some l) else findById rest id
  | _ :: _ => stuck
  end.

Module Result.
Record t := mk {
  success : bool;
  message : string;
  updated : option loc   (* updatedEquipment / updatedConsumable *)
}.
End Result.

Definition getHealthStatus (equipment : loc) : M HealthStatus.t :=
  degradation <- getRef equipment "degradation" ;;
  currentValue <- getNum degradation "currentValue" ;;
  maxValue <- getNum degradation "maxValue" ;;
  let healthPercentage := (currentValue / maxValue) * 100 in
  ret (if Qgtb healthPercentage 75 then
         HealthStatus.mk good "Equipment is in good condition" false
       else if Qgtb healthPercentage 50 then
         HealthStatus.mk fair "Equipment is functioning adequately" false
       else if Qgtb healthPercentage 25 then
         HealthStatus.mk poor "Equipment requires attention" true
       else
         HealthStatus.mk critical "Immediate maintenance required" true).

Definition getInventoryStatus (equipment : loc) : M InventoryStatus.t :=
  degradation <- getHealthStatus equipment ;;
  let inMaintenance : Q := if HealthStatus.needsMaintenance degradation then 1 else 0 in
  quantity <- getNum equipment "quantity" ;;
  inUse <- getNum equipment "inUse" ;;
  d <- getRef equipment "degradation" ;;
  currentValue <- getNum d "currentValue" ;;
  maxValue <- getNum d "maxValue" ;;
  ret (InventoryStatus.mk (quantity - inUse - inMaintenance) inUse inMaintenance
         ((currentValue / maxValue) * 100)).

Section Transactions.
Variable clk : Clock.

(** One [case] of the [switch] in [calculateDegradation]: if the usage
    [amount] of the axis is truthy, it is charged to the copy. *)
Definition degrade (degradation newDegradation : loc) (amount : option Q) : M unit :=
  if truthy amount then
    currentValue <- getNum degradation "currentValue" ;;
    degradationRate <- getNum degradation "degradationRate" ;;
    setField newDegradation "currentValue"
      (VNum (Math_max 0 (currentValue - or_default amount 0 * degradationRate)))
  else ret tt.

Definition calculateDegradation (equipment : loc) (usage : Usage.t) : M loc :=
  degradation <- getRef equipment "degradation" ;;
  newDegradation <- spread degradation ;;
  type <- getStr degradation "type" ;;
  (if String.eqb type "cycles" then degrade degradation newDegradation (Usage.cycles usage)
   else if String.eqb type "hours" then degrade degradation newDegradation (Usage.hours usage)
   else if String.eqb type "time" then degrade degradation newDegradation (Usage.days usage)
   else ret tt) ;;;
  setField newDegradation "lastUpdated" (VStr (nowISO clk)) ;;;
  ret newDegradation.

Definition processEquipmentTransaction
    (transaction : InventoryTransaction.t) (equipment : loc) : M Result.t :=
  items <- readArr equipment ;;
  found <- findById items (InventoryTransaction.equipmentId transaction) ;;
  match found with
  | None => ret (Result.mk false "Equipment not found" None)
  | Some equipmentItem =>
      status <- getInventoryStatus equipmentItem ;;
      updatedEquipment <- spread equipmentItem ;;
      let q := InventoryTransaction.quantity transaction in
      let done := ret (Result.mk true "Transaction processed successfully"
                         (Some updatedEquipment)) in
      match InventoryTransaction.type transaction with
      | acquisition =>
          quantity <- getNum updatedEquipment "quantity" ;;
          setField updatedEquipment "quantity" (VNum (quantity + q)) ;;;
          done
      | deployment =>
          if Qltb (InventoryStatus.available status) q then
            ret (Result.mk false "Insufficient available equipment" None)
          else
            inUse <- getNum updatedEquipment "inUse" ;;
            setField updatedEquipment "inUse" (VNum (inUse + q)) ;;;
            done
      | return_ =>
          inUse <- getNum updatedEquipment "inUse" ;;
          if Qltb inUse q then
            ret (Result.mk false "Invalid return quantity" None)
          else
            setField updatedEquipment "inUse" (VNum (inUse - q)) ;;;
            d <- calculateDegradation updatedEquipment (Usage.mk (Some 1) None None) ;;
            setField updatedEquipment "degradation" (VRef d) ;;;
            done
      | disposal =>
          quantity <- getNum updatedEquipment "quantity" ;;
          if Qltb quantity q then
            ret (Result.mk false "Invalid disposal quantity" None)
          else
            setField updatedEquipment "quantity" (VNum (quantity - q)) ;;;
            done
      end
  end.

Definition triggerReorder (consumable : loc) : M ReorderLog.t :=
  name <- getStr consumable "name" ;;
  stockLevel <- getNum consumable "stockLevel" ;;
  reorderPoint <- getNum consumable "reorderPoint" ;;
  ret (ReorderLog.mk ("Reorder triggered for " ++ name ++ ":")
         stockLevel reorderPoint (reorderPoint * 2 - stockLevel)).

Definition finishConsumable (updatedConsumable : loc) : M (Result.t * list ReorderLog.t) :=
  stockLevel <- getNum updatedConsumable "stockLevel" ;;
  reorderPoint <- getNum updatedConsumable "reorderPoint" ;;
  log <- (if Qleb stockLevel reorderPoint
          then (l <- triggerReorder updatedConsumable ;; ret [l])
          else ret []) ;;
  ret (Result.mk true "Transaction processed successfully" (Some updatedConsumable), log).

Definition processConsumableTransaction
    (transaction : ConsumableTransaction.t) (consumables : loc)
  : M (Result.t * list ReorderLog.t) :=
  items <- readArr consumables ;;
  found <- findById items (ConsumableTransaction.consumableId transaction) ;;
  match found with
  | None => ret (Result.mk false "Consumable not found" None, [])
  | Some consumable =>
      updatedConsumable <- spread consumable ;;
      let q := ConsumableTransaction.quantity transaction in
      stockLevel <- getNum updatedConsumable "stockLevel" ;;
      match ConsumableTransaction.type transaction with
      | purchase =>
          setField updatedConsumable "stockLevel" (VNum (stockLevel + q)) ;;;
          finishConsumable updatedConsumable
      | use =>
          if Qltb stockLevel q then
            ret (Result.mk false "Insufficient stock" None, [])
          else
            setField updatedConsumable "stockLevel" (VNum (stockLevel - q)) ;;;
            finishConsumable updatedConsumable
      | c_disposal =>
          if Qltb stockLevel q then
            ret (Result.mk false "Invalid disposal quantity" None, [])
          else
            setField updatedConsumable "stockLevel" (VNum (stockLevel - q)) ;;;
            finishConsumable updatedConsumable
      end
  end.
End Transactions.

(** A Hoare triple for heap computations: what holds of every run. *)
Definition hoare {A} (P : heap -> Prop) (m : M A) (Q : A -> heap -> Prop) : Prop :=
  forall h a h', P h -> m h = Some (a, h') -> Q a h'.

Definition readonly {A} (m : M A) : Prop :=
  forall h a h', m h = Some (a, h') -> h' = h.

(** Relative to the heap [h0] at the call: every cell of [h0] is as it
    was, and the locations of [L] are objects allocated since. *)
Definition owned (h0 : heap) (L : list loc) (h : heap) : Prop :=
  (forall l c, h0 !! l = Some c -> h !! l = Some c)
  /\ Forall (fun l => h0 !! l = None /\ exists o, h !! l = Some (Obj o)) L.

(** What a transaction leaves behind: the heap at the call is intact and
    the updated record, if there is one, is an object allocated since. *)
Definition writesFresh (h0 : heap) (r : Result.t) (h' : heap) : Prop :=
  (forall l c, h0 !! l = Some c -> h' !! l = Some c)
  /\ (forall lu, Result.updated r = Some lu ->
                 h0 !! lu = None /\ exists o, h' !! lu = Some (Obj o))
  /\ (Result.success r = false -> Result.updated r = None).

(** *** How heap objects represent records

    The fields the transactions read or write; a nested object is reached
    through its reference. *)

Definition typeName (t : DegradationType) : string :=
  match t with cycles => "cycles" | hours => "hours" | time => "time" end.

Definition degradationFields (d : DegradationParams.t) (o : gmap string value) : Prop :=
  o !! "type" = Some (VStr (typeName (DegradationParams.type d)))
  /\ o !! "maxValue" = Some (VNum (DegradationParams.maxValue d))
  /\ o !! "currentValue" = Some (VNum (DegradationParams.currentValue d))
  /\ o !! "replacementCost" = Some (VNum (DegradationParams.replacementCost d))
  /\ o !! "degradationRate" = Some (VNum (DegradationParams.degradationRate d))
  /\ o !! "lastUpdated" = Some (VStr (DegradationParams.lastUpdated d)).

Definition repDegradation (h : heap) (l : loc) (d : DegradationParams.t) : Prop :=
  exists o, h !! l = Some (Obj o) /\ degradationFields d o.

Definition equipmentFields (e : Equipment.t) (ld : loc) (o : gmap string value) : Prop :=
  o !! "id" = Some (VStr (Equipment.id e))
  /\ o !! "quantity" = Some (VNum (Equipment.quantity e))
  /\ o !! "inUse" = Some (VNum (Equipment.inUse e))
  /\ o !! "degradation" = Some (VRef ld).

Definition repEquipment (h : heap) (l : loc) (e : Equipment.t) : Prop :=
  exists o ld, h !! l = Some (Obj o) /\ equipmentFields e ld o
               /\ repDegradation h ld (Equipment.degradation e).

Definition repEquipmentArray (h : heap) (arr : loc) (es : list Equipment.t) : Prop :=
  exists items, h !! arr = Some (Arr items)
                /\ Forall2 (fun v e => exists l, v = VRef l /\ repEquipment h l e) items es.

Definition consumableFields (c : Consumable.t) (o : gmap string value) : Prop :=
  o !! "id" = Some (VStr (Consumable.id c))
  /\ o !! "name" = Some (VStr (Consumable.name c))
  /\ o !! "unit" = Some (VStr (Consumable.unit c))
  /\ o !! "costPerUnit" = Some (VNum (Consumable.costPerUnit c))
  /\ o !! "stockLevel" = Some (VNum (Consumable.stockLevel c))
  /\ o !! "minimumStock" = Some (VNum (Consumable.minimumStock c))
  /\ o !! "reorderPoint" = Some (VNum (Consumable.reorderPoint c)).

Definition repConsumable (h : heap) (l : loc) (c : Consumable.t) : Prop :=
  exists o, h !! l = Some (Obj o) /\ consumableFields c o.

Definition repConsumableArray (h : heap) (arr : loc) (cs : list Consumable.t) : Prop :=
  exists items, h !! arr = Some (Arr items)
                /\ Forall2 (fun v c => exists l, v = VRef l /\ repConsumable h l c) items cs.

(** A sample heap: the collection at 1 holds the asset at 2, whose
    degradation state is the object at 3. *)
Definition sampleDegradationObject : gmap string value :=
  {[ "type" := VStr "cycles"; "maxValue" := VNum 100; "currentValue" := VNum 100;
     "replacementCost" := VNum 0; "degradationRate" := VNum 1;
     "lastUpdated" := VStr "2024-01-01T00:00:00.000Z" ]}.

Definition sampleEquipmentObject : gmap string value :=
  {[ "id" := VStr "e1"; "name" := VStr "Platform A"; "acquisitionCost" := VNum 1000;
     "quantity" := VNum 5; "inUse" := VNum 2; "degradation" := VRef 3%positive ]}.

Definition sampleHeap : heap :=
  {[ 1%positive := Arr [VRef 2%positive];
     2%positive := Obj sampleEquipmentObject;
     3%positive := Obj sampleDegradationObject ]}.

End Heap.

(** ** Properties stated below: vocabulary *)

(** The quantity invariant of an asset. *)
Definition inventoryInvariant (e : Equipment.t) : Prop :=
  0 <= Equipment.inUse e /\ Equipment.inUse e <= Equipment.quantity e.

(** The health fraction [currentValue / maxValue]. *)
Definition healthFraction (d : DegradationParams.t) : Q :=
  DegradationParams.currentValue d / DegradationParams.maxValue d.

(** [available] as the ledger defines it. *)
Definition availableUnits (e : Equipment.t) : Q :=
  Equipment.quantity e - Equipment.inUse e
  - (if HealthStatus.needsMaintenance (getHealthStatus e) then 1 else 0).

Definition findEquipment (id : string) (equipment : list Equipment.t) : option Equipment.t :=
  find (fun e => String.eqb (Equipment.id e) id) equipment.

(** What a need asks for, without its identifier, date and texts. *)
Definition needKey (n : ProcurementNeed.t) : ItemType * string * Q * Priority :=
  (ProcurementNeed.itemType n, ProcurementNeed.itemId n,
   ProcurementNeed.quantity n, ProcurementNeed.priority n).

Definition isConsumableNeed (k : ItemType * string * Q * Priority) : bool :=
  match k with (it_consumable, _, _, _) => true | _ => false end.

Definition consumableNeedKey (c : Consumable.t) : ItemType * string * Q * Priority :=
  (it_consumable, Consumable.id c,
   Consumable.reorderPoint c * 2 - Consumable.stockLevel c,
   if Qleb (Consumable.stockLevel c) (Consumable.minimumStock c) then high else medium).

(** How the store applies a transaction to an asset
    ([inventoryStore.processTransaction]): the updated asset of an accepted
    transaction replaces the asset, a rejected transaction leaves it. *)
Definition applyTransaction (clk : Clock) (e : Equipment.t) (tx : InventoryTransaction.t)
  : Equipment.t :=
  match EquipmentResult.updatedEquipment (processEquipmentTransaction clk tx [e]) with
  | Some e' => e'
  | None => e
  end.

Definition applyTransactions (clk : Clock) (e : Equipment.t)
    (txs : list InventoryTransaction.t) : Equipment.t :=
  fold_left (applyTransaction clk) txs e.

(** A transaction that keeps the quantity invariant: a non-negative
    quantity, and a disposal takes only units that are not in use. *)
Definition keepsUnitsInUse (e : Equipment.t) (tx : InventoryTransaction.t) : Prop :=
  0 <= InventoryTransaction.quantity tx
  /\ (InventoryTransaction.type tx = disposal ->
      InventoryTransaction.quantity tx <= Equipment.quantity e - Equipment.inUse e).

Definition sampleCombination (items : list CombinationItem.t) : EquipmentCombination.t :=
  EquipmentCombination.mk "k1" "Kit" "" items 0 0 [] "2024-01-01T00:00:00.000Z" None 0.

(** ** Sample records *)

Definition sampleClock : Clock :=
  {| nowISO := "2024-06-01T00:00:00.000Z";
     isoAfterDays := fun _ => "2024-06-01T00:00:00.000Z";
     isoAfterMonths := fun _ => "2024-06-01T00:00:00.000Z";
     representable := fun n => (Z.abs (19875 + n) <=? 100000000)%Z |}.

Definition sampleDegradation (ty : DegradationType) (maxValue currentValue rate : Q)
  : DegradationParams.t :=
  DegradationParams.mk ty maxValue currentValue 0 rate "2024-01-01T00:00:00.000Z".

Definition sampleEquipment (id : string) (quantity inUse : Q) (d : DegradationParams.t)
  : Equipment.t :=
  Equipment.mk id platform "Platform A" "" "" "" 1000 quantity inUse [] d 2
    "2024-01-01T00:00:00.000Z" None [] [].

Definition sampleTransaction (ty : InventoryTransactionType) (id : string) (q : Q)
  : InventoryTransaction.t :=
  InventoryTransaction.mk "t1" id ty q "2024-06-01T00:00:00.000Z" "" None None.

Definition sampleConsumable (id : string) (stockLevel minimumStock reorderPoint : Q)
  : Consumable.t :=
  Consumable.mk id "Helium" "litre" 2 stockLevel minimumStock reorderPoint.

(** The asset of the specification's scenarios: five units, none in use,
    full health. *)
Definition scenarioAsset : Equipment.t :=
  sampleEquipment "e1" 5 0 (sampleDegradation cycles 100 100 1).

(** ** More of DegradationTrackerService and of the helpers *)

Module MaintenanceReport.
Record t := mk {
  status : string;
  lastMaintenance : string;
  nextMaintenance : string;
  estimatedCosts : Q;
  recommendations : list string
}.
End MaintenanceReport.

Definition healthLevelName (s : HealthLevel) : string :=
  match s with
  | good => "good"
  | fair => "fair"
  | poor => "poor"
  | critical => "critical"
  end.

(** The report [generateMaintenanceReport] returns when it returns;
    [Raising.generateMaintenanceReport] adds the errors of the two calls
    that print a date. *)
Definition generateMaintenanceReport (clk : Clock) (equipment : Equipment.t)
  : MaintenanceReport.t :=
  let healthStatus := getHealthStatus equipment in
  let maintenanceCosts := calculateMaintenanceCosts clk equipment in
  let replacementPrediction := predictReplacement clk equipment in
  let recommendations : list string := [] in
  let recommendations :=
    if HealthStatus.needsMaintenance healthStatus
    then (recommendations ++ ["Schedule immediate maintenance check"])%list
    else recommendations in
  let recommendations :=
    if (Replacement.daysUntilReplacement replacementPrediction <? 30)%Z
    then (recommendations ++ ["Plan for equipment replacement within 30 days"])%list
    else recommendations in
  let recommendations :=
    if Qltb (DegradationParams.currentValue (Equipment.degradation equipment))
            (DegradationParams.maxValue (Equipment.degradation equipment) * (5 # 10))
    then (recommendations
          ++ ["Consider preventive maintenance to extend equipment life"])%list
    else recommendations in
  MaintenanceReport.mk
    (healthLevelName (HealthStatus.status healthStatus))
    (DegradationParams.lastUpdated (Equipment.degradation equipment))
    (MaintenanceCosts.nextMaintenance maintenanceCosts)
    (MaintenanceCosts.monthly maintenanceCosts)
    recommendations.

(** [calculateDegradationRate] of [utils/helpers.ts]. *)
Definition calculateDegradationRate (equipment : Equipment.t) (usage : Usage.t) : Q :=
  let degradationRate := DegradationParams.degradationRate (Equipment.degradation equipment) in
  match DegradationParams.type (Equipment.degradation equipment) with
  | cycles => or_default (Usage.cycles usage) 0 * degradationRate
  | hours => or_default (Usage.hours usage) 0 * degradationRate
  | time => or_default (Usage.days usage) 0 * degradationRate
  end.

(** The field of a usage record that counts for a degradation type. *)
Definition ownAxis (ty : DegradationType) (u : Usage.t) : option Q :=
  match ty with
  | cycles => Usage.cycles u
  | hours => Usage.hours u
  | time => Usage.days u
  end.

Definition usageNonNegative (u : Usage.t) : Prop :=
  0 <= or_default (Usage.cycles u) 0
  /\ 0 <= or_default (Usage.hours u) 0
  /\ 0 <= or_default (Usage.days u) 0.

(** The degradation state as the data model wants it. *)
Definition degradationValid (d : DegradationParams.t) : Prop :=
  0 < DegradationParams.maxValue d
  /\ 0 <= DegradationParams.currentValue d
  /\ DegradationParams.currentValue d <= DegradationParams.maxValue d
  /\ 0 < DegradationParams.degradationRate d.

(** ** More of CostCalculatorService *)

(** An entry of [itemizedCosts] in [calculateCombinationCosts]: the cost
    breakdown of the asset with [quantity] added and [total] replaced.  It
    has no [id] field. *)
Module ItemCost.
Record t := mk {
  acquisition : Q;
  operational : Q;
  maintenance : Q;
  personnel : Q;
  consumables : Q;
  total : Q;
  details : option CostDetails.t;
  quantity : Q
}.
End ItemCost.

(** [array.map(f)] where [f] may throw: the first exception ends the map. *)
Fixpoint map_exc {A B} (f : A -> Exc B) (l : list A) : Exc (list B) :=
  match l with
  | [] => Ok []
  | x :: rest =>
      y <-! f x ;;
      ys <-! map_exc f rest ;;
      Ok (y :: ys)
  end.

(** [e.id === x] for a value [x] that may be [undefined]. *)
Definition idEquals (id : string) (x : option string) : bool :=
  match x with
  | Some s => String.eqb id s
  | None => false
  end.

(** [s || d] on a string that may be [undefined]: the empty string is falsy. *)
Definition string_or (s : option string) (d : string) : string :=
  match s with
  | Some EmptyString => d
  | Some s => s
  | None => d
  end.

(** The [Map] of [calculateCombinationConsumables], in insertion order:
    consumable id, units, cost per unit. *)
Definition ConsumableUnits : Type := list (string * (Q * Q)).

Fixpoint units_get (m : ConsumableUnits) (id : string) : option (Q * Q) :=
  match m with
  | [] => None
  | (k, v) :: rest => if String.eqb k id then Some v else units_get rest id
  end.

(** [existing.units += units] on the entry of [id]. *)
Fixpoint units_add (m : ConsumableUnits) (id : string) (units : Q) : ConsumableUnits :=
  match m with
  | [] => []
  | (k, (u, c)) :: rest =>
      if String.eqb k id then (k, (u + units, c)) :: rest
      else (k, (u, c)) :: units_add rest id units
  end.

Definition consumableUnitsStep (quantity : Q) (m : ConsumableUnits)
    (consumable : ConsumableLink.t) : ConsumableUnits :=
  let units := ConsumableLink.unitsPerUse consumable * quantity in
  match units_get m (ConsumableLink.id consumable) with
  | Some _ => units_add m (ConsumableLink.id consumable) units
  | None => (m ++ [(ConsumableLink.id consumable, (units, CONSUMABLE_BASE_COST))])%list
  end.

Definition combinationConsumableUnits
    (combination : EquipmentCombination.t) (equipment : list Equipment.t)
  : ConsumableUnits :=
  fold_left
    (fun m item =>
       match findEquipment (CombinationItem.id item) equipment with
       | None => m
       | Some equipmentItem =>
           fold_left (consumableUnitsStep (CombinationItem.quantity item))
             (Equipment.consumables equipmentItem) m
       end)
    (EquipmentCombination.equipment combination) [].

Definition calculateCombinationConsumables
    (combination : EquipmentCombination.t) (equipment : list Equipment.t)
  : list ConsumableCost.t :=
  map (fun '(id, (units, costPerUnit)) =>
         ConsumableCost.mk id units costPerUnit (units * costPerUnit))
    (combinationConsumableUnits combination equipment).

Section CombinationCosts.
Variable clk : Clock.

Definition combinationItemCost (equipment : list Equipment.t) (item : CombinationItem.t)
  : Exc ItemCost.t :=
  match findEquipment (CombinationItem.id item) equipment with
  | None => Throw ("Equipment " ++ CombinationItem.id item ++ " not found")
  | Some equipmentItem =>
      let costs := calculateEquipmentCosts clk equipmentItem in
      Ok (ItemCost.mk
            (CostBreakdown.acquisition costs)
            (CostBreakdown.operational costs)
            (CostBreakdown.maintenance costs)
            (CostBreakdown.personnel costs)
            (CostBreakdown.consumables costs)
            (CostBreakdown.total costs * CombinationItem.quantity item)
            (CostBreakdown.details costs)
            (CombinationItem.quantity item))
  end.

Definition combinationTotalsStep (totals : CostBreakdown.t) (item : ItemCost.t)
  : CostBreakdown.t :=
  CostBreakdown.mk
    (CostBreakdown.acquisition totals + ItemCost.acquisition item * ItemCost.quantity item)
    (CostBreakdown.operational totals + ItemCost.operational item * ItemCost.quantity item)
    (CostBreakdown.maintenance totals + ItemCost.maintenance item * ItemCost.quantity item)
    (CostBreakdown.personnel totals + ItemCost.personnel item * ItemCost.quantity item)
    (CostBreakdown.consumables totals + ItemCost.consumables item * ItemCost.quantity item)
    (CostBreakdown.total totals + ItemCost.total item)
    None.

Definition calculateCombinationCosts
    (combination : EquipmentCombination.t) (equipment : list Equipment.t)
  : Exc CostBreakdown.t :=
  itemizedCosts <-! map_exc (combinationItemCost equipment)
                      (EquipmentCombination.equipment combination) ;;
  let totalCosts := fold_left combinationTotalsStep itemizedCosts CostBreakdown.zero in
  Ok (CostBreakdown.mk
        (CostBreakdown.acquisition totalCosts)
        (CostBreakdown.operational totalCosts)
        (CostBreakdown.maintenance totalCosts)
        (CostBreakdown.personnel totalCosts)
        (CostBreakdown.consumables totalCosts)
        (CostBreakdown.total totalCosts)
        (Some (CostDetails.mk
                 (map (fun cost : ItemCost.t =>
                         (* [cost.id] is [undefined]: an entry has no [id] *)
                         let costId : option string := None in
                         let found :=
                           find (fun e => idEquals (Equipment.id e) costId) equipment in
                         ItemizedCost.mk
                           (string_or (option_map Equipment.name found) "Unknown")
                           (string_or
                              (option_map (fun e => categoryName (Equipment.category e))
                                 found) "unknown")
                           (ItemCost.total cost))
                    itemizedCosts)
                 (PersonnelBreakdown.mk
                    (fold_left
                       (fun total item =>
                          let equipmentItem :=
                            findEquipment (CombinationItem.id item) equipment in
                          total
                          + or_default (option_map Equipment.personnelRequired equipmentItem) 0
                            * CombinationItem.quantity item)
                       (EquipmentCombination.equipment combination) 0)
                    PERSONNEL_COST_PER_MONTH)
                 (calculateCombinationConsumables combination equipment)))).
End CombinationCosts.

(** Sums used in the statements. *)
Definition sumQ (l : list Q) : Q := fold_right Qplus 0 l.

(** The units of consumable [id] a combination needs: over the resolved
    line items, the links to [id] times the item's quantity. *)
Definition requiredUnits (id : string) (equipment : list Equipment.t)
    (items : list CombinationItem.t) : Q :=
  sumQ (map (fun item =>
               match findEquipment (CombinationItem.id item) equipment with
               | None => 0
               | Some e =>
                   sumQ (map (fun c => ConsumableLink.unitsPerUse c
                                       * CombinationItem.quantity item)
                           (List.filter (fun c => String.eqb (ConsumableLink.id c) id)
                              (Equipment.consumables e)))
               end) items).

Definition resolves (equipment : list Equipment.t) (item : CombinationItem.t) : Prop :=
  findEquipment (CombinationItem.id item) equipment <> None.

(** The units recorded for [id] in the map, 0 when [id] is absent. *)
Definition units_of (m : ConsumableUnits) (id : string) : Q :=
  match units_get m id with
  | Some (u, _) => u
  | None => 0
  end.

(** What the steps keep: no id twice, every entry at the base cost. *)
Definition unitsWellFormed (m : ConsumableUnits) : Prop :=
  List.NoDup (map fst m) /\ Forall (fun kv => snd (snd kv) = CONSUMABLE_BASE_COST) m.



(** ** More of InventoryManagerService *)

Inductive AlertType := low_stock | maintenance_needed | replacement_needed.

Module Alert.
Record t := mk {
  type : AlertType;
  severity : Priority;
  message : string;
  itemId : string
}.
End Alert.

Module EquipmentEntry.
Record t := mk {
  equipment : Equipment.t;
  available : Q;
  deployed : Q;
  maintenance : Q;
  degradationStatus : Q
}.
End EquipmentEntry.

Module ConsumableEntry.
Record t := mk {
  consumable : Consumable.t;
  currentStock : Q;
  pendingOrders : Q;
  projectedUsage : Q
}.
End ConsumableEntry.

Module InventoryReport.
Record t := mk {
  date : string;
  equipment : list EquipmentEntry.t;
  consumables : list ConsumableEntry.t;
  alerts : list Alert.t
}.
End InventoryReport.

Definition calculateProjectedConsumableUsage
    (consumableId : string) (equipment : list Equipment.t) : Q :=
  fold_left
    (fun total eq =>
       match find (fun c => String.eqb (ConsumableLink.id c) consumableId)
               (Equipment.consumables eq) with
       | None => total
       | Some consumable =>
           let monthlyUsage :=
             ConsumableLink.unitsPerUse consumable * 4 * Equipment.inUse eq in
           total + monthlyUsage
       end)
    equipment 0.

(** The callback of [equipment.map] in [generateInventoryReport]: it
    pushes onto [alerts] and returns the entry of the asset. *)
Definition reportEquipmentStep
    (st : list Alert.t * list EquipmentEntry.t) (eq : Equipment.t)
  : list Alert.t * list EquipmentEntry.t :=
  let '(alerts, entries) := st in
  let status := getInventoryStatus eq in
  let healthStatus := getHealthStatus eq in
  let alerts :=
    if Qltb (InventoryStatus.available status) 2 then
      (alerts ++ [Alert.mk low_stock
                    (if Qeq_bool (InventoryStatus.available status) 0
                     then high else medium)
                    ("Low stock for " ++ Equipment.name eq)
                    (Equipment.id eq)])%list
    else alerts in
  let alerts :=
    if HealthStatus.needsMaintenance healthStatus then
      (alerts ++ [Alert.mk maintenance_needed
                    (match HealthStatus.status healthStatus with
                     | critical => high
                     | _ => medium
                     end)
                    ("Maintenance required for " ++ Equipment.name eq)
                    (Equipment.id eq)])%list
    else alerts in
  (alerts,
   (entries ++ [EquipmentEntry.mk eq
                  (InventoryStatus.available status)
                  (InventoryStatus.deployed status)
                  (InventoryStatus.maintenance status)
                  (InventoryStatus.degradationStatus status)])%list).

(** The callback of [consumables.map] in [generateInventoryReport]. *)
Definition reportConsumableStep (equipment : list Equipment.t)
    (st : list Alert.t * list ConsumableEntry.t) (consumable : Consumable.t)
  : list Alert.t * list ConsumableEntry.t :=
  let '(alerts, entries) := st in
  let alerts :=
    if Qleb (Consumable.stockLevel consumable) (Consumable.minimumStock consumable) then
      (alerts ++ [Alert.mk low_stock
                    (if Qeq_bool (Consumable.stockLevel consumable) 0
                     then high else medium)
                    ("Low stock for consumable " ++ Consumable.name consumable)
                    (Consumable.id consumable)])%list
    else alerts in
  (alerts,
   (entries ++ [ConsumableEntry.mk consumable
                  (Consumable.stockLevel consumable)
                  0
                  (calculateProjectedConsumableUsage (Consumable.id consumable)
                     equipment)])%list).

Definition generateInventoryReport (clk : Clock)
    (equipment : list Equipment.t) (consumables : list Consumable.t)
  : InventoryReport.t :=
  let '(alerts, equipmentStatus) := fold_left reportEquipmentStep equipment ([], []) in
  let '(alerts, consumablesStatus) :=
    fold_left (reportConsumableStep equipment) consumables (alerts, []) in
  InventoryReport.mk (nowISO clk) equipmentStatus consumablesStatus alerts.

Module MissingEquipment.
Record t := mk {
  id : string;
  name : string;
  required : Q;
  available : Q
}.
End MissingEquipment.

Module Availability.
Record t := mk {
  available : bool;
  missingEquipment : list MissingEquipment.t
}.
End Availability.

(** The body of the [for ... of] loop of [validateCombinationAvailability]. *)
Definition availabilityStep (equipment : list Equipment.t)
    (missingEquipment : list MissingEquipment.t) (item : CombinationItem.t)
  : list MissingEquipment.t :=
  match findEquipment (CombinationItem.id item) equipment with
  | None =>
      (missingEquipment
       ++ [MissingEquipment.mk (CombinationItem.id item) "Unknown Equipment"
             (CombinationItem.quantity item) 0])%list
  | Some equipmentItem =>
      let status := getInventoryStatus equipmentItem in
      if Qltb (InventoryStatus.available status) (CombinationItem.quantity item) then
        (missingEquipment
         ++ [MissingEquipment.mk (CombinationItem.id item) (Equipment.name equipmentItem)
               (CombinationItem.quantity item) (InventoryStatus.available status)])%list
      else missingEquipment
  end.

Definition validateCombinationAvailability
    (combination : EquipmentCombination.t) (equipment : list Equipment.t)
  : Availability.t :=
  let missingEquipment :=
    fold_left (availabilityStep equipment)
      (EquipmentCombination.equipment combination) [] in
  Availability.mk (Nat.eqb (length missingEquipment) 0) missingEquipment.

(** A line item the ledger can serve: its asset is known and has the
    requested units available. *)
Definition servable (equipment : list Equipment.t) (item : CombinationItem.t) : bool :=
  match findEquipment (CombinationItem.id item) equipment with
  | Some e => Qleb (CombinationItem.quantity item) (availableUnits e)
  | None => false
  end.

Definition countIf {A} (f : A -> bool) (l : list A) : nat := length (List.filter f l).

Definition isAlert (ty : AlertType) (a : Alert.t) : bool :=
  match Alert.type a, ty with
  | low_stock, low_stock => true
  | maintenance_needed, maintenance_needed => true
  | replacement_needed, replacement_needed => true
  | _, _ => false
  end.

(** What an equipment need asks for, read off the asset. *)
Definition needsProcurement (clk : Clock) (eq : Equipment.t) : bool :=
  Qltb (availableUnits eq) 2
  || (Replacement.daysUntilReplacement (predictReplacement clk eq) <? 30)%Z.

Definition equipmentNeedKey (clk : Clock) (eq : Equipment.t)
  : ItemType * string * Q * Priority :=
  (it_equipment, Equipment.id eq,
   Math_max (2 - availableUnits eq) 0
   + (if (Replacement.daysUntilReplacement (predictReplacement clk eq) <? 30)%Z
      then 1 else 0),
   if Qeq_bool (availableUnits eq) 0 then high else medium).

(** ** Vocabulary of the procurement and transaction properties *)

Definition keyItemId (k : ItemType * string * Q * Priority) : string :=
  snd (fst (fst k)).

Definition hasPriority (p : Priority) (k : ItemType * string * Q * Priority) : bool :=
  match snd k, p with
  | high, high => true
  | medium, medium => true
  | low, low => true
  | _, _ => false
  end.

(** The keys of all needs [generateProcurementNeeds] raises, in the order
    of the two loops: assets first, consumables second. *)
Definition raisedNeedKeys (clk : Clock)
    (equipment : list Equipment.t) (consumables : list Consumable.t)
  : list (ItemType * string * Q * Priority) :=
  (map (equipmentNeedKey clk) (List.filter (needsProcurement clk) equipment)
   ++ map consumableNeedKey
        (List.filter (fun c => Qleb (Consumable.stockLevel c) (Consumable.reorderPoint c))
           consumables))%list.

Definition findConsumable (id : string) (consumables : list Consumable.t)
  : option Consumable.t :=
  find (fun c => String.eqb (Consumable.id c) id) consumables.

Definition sampleConsumableTransaction
    (ty : ConsumableTransactionType) (id : string) (q : Q) : ConsumableTransaction.t :=
  ConsumableTransaction.mk "t1" id ty q "2024-01-01T00:00:00.000Z" None None.

Definition needHasPriority (p : Priority) (n : ProcurementNeed.t) : bool :=
  hasPriority p (needKey n).

(** Where a need comes from, and how its cost was estimated: the price of
    one unit for an asset, quantity times unit cost for a consumable. *)
Definition raisedFrom (equipment : list Equipment.t) (consumables : list Consumable.t)
    (n : ProcurementNeed.t) : Prop :=
  (ProcurementNeed.itemType n = it_equipment
   /\ exists eq, In eq equipment
                 /\ ProcurementNeed.itemId n = Equipment.id eq
                 /\ ProcurementNeed.estimatedCost n = Equipment.acquisitionCost eq)
  \/ (ProcurementNeed.itemType n = it_consumable
      /\ exists c, In c consumables
                   /\ ProcurementNeed.itemId n = Consumable.id c
                   /\ ProcurementNeed.estimatedCost n
                      = ProcurementNeed.quantity n * Consumable.costPerUnit c).

Definition soundNeed (equipment : list Equipment.t) (consumables : list Consumable.t)
    (n : ProcurementNeed.t) : Prop :=
  0 < ProcurementNeed.quantity n
  /\ ProcurementNeed.status n = pending
  /\ raisedFrom equipment consumables n.

(** ** The exceptions of the date arithmetic

    [Date.prototype.toISOString] throws a [RangeError] on an invalid date,
    and [d.setDate(d.getDate() + n)] leaves [d] invalid when [n] is not
    finite or the day is outside the range of [Date].  The definitions of
    [predictReplacement], [calculateMaintenanceCosts],
    [generateProcurementNeeds] and [generateMaintenanceReport] above give
    what these functions return when they return; the definitions of this
    module are the same functions with the exception, and nothing in the
    services catches it. *)

(** The text of the [RangeError]; the engine chooses it. *)
Definition invalidTimeValue : string := "Invalid time value".

(** [Math.floor(x / y)]: a whole number, unless [y] is 0 and the quotient
    is an infinity or not a number. *)
Definition floorOfQuotient (x y : Q) : option Z :=
  if Qeq_bool y 0 then None else Some (Qfloor (x / y)).

(** [d = new Date(); d.setDate(d.getDate() + n); d.toISOString()]. *)
Definition toISOStringAfterDays (clk : Clock) (n : option Z) : Exc string :=
  match n with
  | Some n =>
      if representable clk n then Ok (isoAfterDays clk n) else Throw invalidTimeValue
  | None => Throw invalidTimeValue
  end.

(** [array.forEach] with a callback that can throw. *)
Fixpoint forEach {A S} (f : S -> A -> Exc S) (l : list A) (s : S) : Exc S :=
  match l with
  | [] => Ok s
  | a :: l => s <-! f s a ;; forEach f l s
  end.

Module Raising.
Section Dates.
Variable clk : Clock.
Variable randomUUID : nat -> string.

Definition predictReplacement (equipment : Equipment.t) : Exc Replacement.t :=
  let degradation := Equipment.degradation equipment in
  let currentHealth :=
    (DegradationParams.currentValue degradation
     / DegradationParams.maxValue degradation) * 100 in
  let daysRemaining :=
    floorOfQuotient (DegradationParams.currentValue degradation) (dailyRate degradation) in
  estimatedReplacementDate <-! toISOStringAfterDays clk daysRemaining ;;
  match daysRemaining with
  | Some daysRemaining =>
      Ok (Replacement.mk daysRemaining estimatedReplacementDate currentHealth)
  | None => Throw invalidTimeValue
  end.

Definition calculateMaintenanceCosts (equipment : Equipment.t) : Exc MaintenanceCosts.t :=
  let baseMaintenanceCost := Equipment.acquisitionCost equipment * (2 # 100) in
  let degradation := Equipment.degradation equipment in
  let healthFactor :=
    DegradationParams.currentValue degradation
    / DegradationParams.maxValue degradation in
  let adjustedMonthlyCost := baseMaintenanceCost * (2 - healthFactor) in
  let daysUntilMaintenance :=
    if Qeq_bool (DegradationParams.maxValue degradation) 0 then None
    else Some (Qfloor (healthFactor * 90)) in
  nextMaintenance <-! toISOStringAfterDays clk daysUntilMaintenance ;;
  Ok (MaintenanceCosts.mk adjustedMonthlyCost (adjustedMonthlyCost * 12) nextMaintenance).

Definition generateMaintenanceReport (equipment : Equipment.t) : Exc MaintenanceReport.t :=
  let healthStatus := getHealthStatus equipment in
  maintenanceCosts <-! calculateMaintenanceCosts equipment ;;
  replacementPrediction <-! predictReplacement equipment ;;
  let recommendations : list string := [] in
  let recommendations :=
    if HealthStatus.needsMaintenance healthStatus
    then (recommendations ++ ["Schedule immediate maintenance check"])%list
    else recommendations in
  let recommendations :=
    if (Replacement.daysUntilReplacement replacementPrediction <? 30)%Z
    then (recommendations ++ ["Plan for equipment replacement within 30 days"])%list
    else recommendations in
  let recommendations :=
    if Qltb (DegradationParams.currentValue (Equipment.degradation equipment))
            (DegradationParams.maxValue (Equipment.degradation equipment) * (5 # 10))
    then (recommendations
          ++ ["Consider preventive maintenance to extend equipment life"])%list
    else recommendations in
  Ok (MaintenanceReport.mk
        (healthLevelName (HealthStatus.status healthStatus))
        (DegradationParams.lastUpdated (Equipment.degradation equipment))
        (MaintenanceCosts.nextMaintenance maintenanceCosts)
        (MaintenanceCosts.monthly maintenanceCosts)
        recommendations).

(** One iteration of [equipment.forEach] in [generateProcurementNeeds]. *)
Definition equipmentNeedStep (needs : list ProcurementNeed.t) (eq : Equipment.t)
  : Exc (list ProcurementNeed.t) :=
  let status := getInventoryStatus eq in
  replacementPrediction <-! predictReplacement eq ;;
  let soon := (Replacement.daysUntilReplacement replacementPrediction <? 30)%Z in
  if Qltb (InventoryStatus.available status) 2 || soon then
    Ok (needs ++ [ProcurementNeed.mk
                    (randomUUID (length needs))
                    it_equipment
                    (Equipment.id eq)
                    (Math_max (2 - InventoryStatus.available status) 0
                     + (if soon then 1 else 0))
                    (Equipment.acquisitionCost eq)
                    (if Qeq_bool (InventoryStatus.available status) 0 then high else medium)
                    (if Qltb (InventoryStatus.available status) 2
                     then "Low stock level" else "Upcoming replacement needed")
                    (nowISO clk)
                    pending])%list
  else Ok needs.

Definition generateProcurementNeeds
    (equipment : list Equipment.t) (consumables : list Consumable.t)
  : Exc (list ProcurementNeed.t) :=
  needs <-! forEach equipmentNeedStep equipment [] ;;
  let needs := fold_left (consumableNeedStep clk randomUUID) consumables needs in
  Ok (sort_by (fun a b => priorityOrder (ProcurementNeed.priority a)
                          - priorityOrder (ProcurementNeed.priority b)) needs).
End Dates.
End Raising.

(** The replacement date of an asset is a valid date: the daily rate is
    not 0 and the predicted day is within the range of [Date]. *)
Definition replacementDated (clk : Clock) (e : Equipment.t) : bool :=
  negb (Qeq_bool (dailyRate (Equipment.degradation e)) 0)
  && representable clk (Replacement.daysUntilReplacement (predictReplacement clk e)).

(** The date of the next maintenance is a valid date. *)
Definition maintenanceDated (clk : Clock) (e : Equipment.t) : bool :=
  negb (Qeq_bool (DegradationParams.maxValue (Equipment.degradation e)) 0)
  && representable clk
       (Qfloor (DegradationParams.currentValue (Equipment.degradation e)
                / DegradationParams.maxValue (Equipment.degradation e) * 90)).

(** An asset whose replacement lies 400,000,000 days ahead. *)
Definition farFutureAsset : Equipment.t :=
  sampleEquipment "e9" 5 0 (sampleDegradation cycles 100 40 (1 # 10000000)).

(** ** Numbers as the program has them: binary64

    A [number] of the program is an IEEE 754 double.  The sections above
    take it as the rational it stands for and compute exactly; where a
    result is decided by how the program rounds, the functions are given
    again below over doubles.  Addition, subtraction, multiplication and
    division are those of [SpecFloat] for binary64: correctly rounded, to
    nearest, ties to even.  Comparison is by value. *)

Module Binary64.
Definition double : Type := spec_float.
Definition prec : Z := 53.
Definition emax : Z := 1024.

Definition add : double -> double -> double := SFadd prec emax.
Definition sub : double -> double -> double := SFsub prec emax.
Definition mul : double -> double -> double := SFmul prec emax.
Definition div : double -> double -> double := SFdiv prec emax.

Definition zero : double := S754_zero false.

(** The double of a whole number (exact below [2^53]). *)
Definition ofZ (z : Z) : double := binary_normalize prec emax z 0 false.

(** The double a decimal literal denotes, the literal being [n / d]:
    [0.25] is [lit 25 100], [5237.7] is [lit 52377 10]. *)
Definition lit (n d : Z) : double := div (ofZ n) (ofZ d).

Definition isFinite (x : double) : bool :=
  match x with
  | S754_zero _ | S754_finite _ _ _ => true
  | _ => false
  end.

(** The rational a finite double stands for. *)
Definition toQ (x : double) : Q :=
  match x with
  | S754_finite s m e => (if s then -1 else 1) * inject_Z (Zpos m) * Qpower 2 e
  | _ => 0
  end.

(** [None] when one side is not a number. *)
Definition compare (x y : double) : option comparison :=
  match x, y with
  | S754_nan, _ | _, S754_nan => None
  | S754_infinity s1, S754_infinity s2 =>
      Some (match s1, s2 with
            | true, true | false, false => Eq
            | true, false => Lt
            | false, true => Gt
            end)
  | S754_infinity s, _ => Some (if s then Lt else Gt)
  | _, S754_infinity s => Some (if s then Gt else Lt)
  | _, _ => Some (toQ x ?= toQ y)
  end.

Definition ltb (x y : double) : bool :=
  match compare x y with Some Lt => true | _ => false end.
Definition leb (x y : double) : bool :=
  match compare x y with Some (Lt | Eq) => true | _ => false end.
Definition gtb (x y : double) : bool := ltb y x.
Definition geb (x y : double) : bool := leb y x.
(** [x === y] on numbers. *)
Definition eqb (x y : double) : bool :=
  match compare x y with Some Eq => true | _ => false end.

(** [Math.floor] and [Math.ceil]: a whole number between [-1] and [1]
    that is 0 keeps the sign of the argument. *)
Definition floor (x : double) : double :=
  match x with
  | S754_finite s _ _ =>
      let z := Qfloor (toQ x) in
      if (z =? 0)%Z then S754_zero s else ofZ z
  | _ => x
  end.

Definition ceil (x : double) : double :=
  match x with
  | S754_finite s _ _ =>
      let z := Qceiling (toQ x) in
      if (z =? 0)%Z then S754_zero s else ofZ z
  | _ => x
  end.

(** [Math.max] of two numbers. *)
Definition max (x y : double) : double :=
  match compare x y with
  | None => S754_nan
  | Some Lt => y
  | Some Gt => x
  | Some Eq => match x with S754_zero true => y | _ => x end
  end.

(** A number used as a condition: [0], [-0] and [NaN] are falsy. *)
Definition truthy (x : double) : bool :=
  match x with
  | S754_zero _ | S754_nan => false
  | _ => true
  end.

(** [x || d] on an optional number. *)
Definition or_default (o : option double) (d : double) : double :=
  match o with
  | Some x => if truthy x then x else d
  | None => d
  end.

(** The whole number of days a number stands for in [setDate]; there is
    none for an infinity or [NaN]. *)
Definition wholeDays (x : double) : option Z :=
  if isFinite x then Some (Qfloor (toQ x)) else None.
End Binary64.

Declare Scope double_scope.
Delimit Scope double_scope with double.
Infix "+" := Binary64.add : double_scope.
Infix "-" := Binary64.sub : double_scope.
Infix "*" := Binary64.mul : double_scope.
Infix "/" := Binary64.div : double_scope.
Infix "<=?" := Binary64.leb : double_scope.
Infix ">=?" := Binary64.geb (at level 70) : double_scope.

(** ** The predictions and the budgeted plan over doubles
    ([services/degradationTracker.ts], [utils/helpers.ts]) *)

Module Rounded.
Local Open Scope double_scope.
Abbreviation double := Binary64.double (only parsing).

Module DegradationParams.
Record t := mk {
  type : DegradationType;
  maxValue : double;
  currentValue : double;
  replacementCost : double;
  degradationRate : double;
  lastUpdated : string
}.
End DegradationParams.

Module ConsumableLink.
Record t := mk { id : string; unitsPerUse : double }.
End ConsumableLink.

Module Equipment.
Record t := mk {
  id : string;
  category : EquipmentCategory;
  name : string;
  description : string;
  manufacturer : string;
  modelNumber : string;
  acquisitionCost : double;
  quantity : double;
  inUse : double;
  consumables : list ConsumableLink.t;
  degradation : DegradationParams.t;
  personnelRequired : double;
  dateAdded : string;
  lastUsed : option string;
  specifications : list (string * (string + double));
  documents : list Document.t
}.
End Equipment.

Module Consumable.
Record t := mk {
  id : string;
  name : string;
  unit : string;
  costPerUnit : double;
  stockLevel : double;
  minimumStock : double;
  reorderPoint : double
}.
End Consumable.

Module ProcurementNeed.
Record t := mk {
  id : string;
  itemType : ItemType;
  itemId : string;
  quantity : double;
  estimatedCost : double;
  priority : Priority;
  reason : string;
  requestDate : string;
  status : NeedStatus
}.
End ProcurementNeed.

Module Replacement.
Record t := mk {
  daysUntilReplacement : double;
  estimatedReplacementDate : string;
  currentHealthPercentage : double
}.
End Replacement.

Module UsagePattern.
Record t := mk { cyclesPerDay : option double; hoursPerDay : option double }.
Definition empty : t := mk None None.
End UsagePattern.

(** [maintenanceDate] is a [Date]: [None] is the invalid date. *)
Module MaintenanceNeeds.
Record t := mk {
  daysUntilMaintenance : double;
  maintenanceDate : option string;
  estimatedCost : double;
  priority : Priority
}.
End MaintenanceNeeds.

Section Functions.
Variable clk : Clock.
Variable randomUUID : nat -> string.
Variable showNumber : double -> string.

(** [d = new Date(); d.setDate(d.getDate() + n)]. *)
Definition dateAfterDays (n : double) : option string :=
  match Binary64.wholeDays n with
  | Some n => if representable clk n then Some (isoAfterDays clk n) else None
  | None => None
  end.

(** [d.toISOString()]. *)
Definition toISOString (d : option string) : Exc string :=
  match d with
  | Some s => Ok s
  | None => Throw invalidTimeValue
  end.

Definition predictReplacement (equipment : Equipment.t) : Exc Replacement.t :=
  let degradation := Equipment.degradation equipment in
  let currentHealth :=
    (DegradationParams.currentValue degradation
     / DegradationParams.maxValue degradation) * Binary64.ofZ 100 in
  let dailyRate :=
    match DegradationParams.type degradation with
    | cycles => DegradationParams.degradationRate degradation * Binary64.ofZ 1
    | hours => DegradationParams.degradationRate degradation * Binary64.ofZ 24
    | time => DegradationParams.degradationRate degradation
    end in
  let daysRemaining :=
    Binary64.floor (DegradationParams.currentValue degradation / dailyRate) in
  let replacementDate := dateAfterDays daysRemaining in
  estimatedReplacementDate <-! toISOString replacementDate ;;
  Ok (Replacement.mk daysRemaining estimatedReplacementDate currentHealth).

Definition calculateMaintenanceCost (equipment : Equipment.t) : double :=
  let baseMaintenanceCost := Equipment.acquisitionCost equipment * Binary64.lit 5 100 in
  let degradationFactor :=
    DegradationParams.currentValue (Equipment.degradation equipment)
    / DegradationParams.maxValue (Equipment.degradation equipment) in
  baseMaintenanceCost * (Binary64.ofZ 2 - degradationFactor).

Definition predictMaintenanceNeeds
    (equipment : Equipment.t) (usagePattern : UsagePattern.t)
  : MaintenanceNeeds.t :=
  let degradation := Equipment.degradation equipment in
  let remainingValue := DegradationParams.currentValue degradation in
  let threshold := DegradationParams.maxValue degradation * Binary64.lit 25 100 in
  let daysUntilMaintenance :=
    match DegradationParams.type degradation with
    | cycles =>
        let cyclesPerDay :=
          Binary64.or_default (UsagePattern.cyclesPerDay usagePattern) (Binary64.ofZ 1) in
        Binary64.floor ((remainingValue - threshold)
                        / (DegradationParams.degradationRate degradation * cyclesPerDay))
    | hours =>
        let hoursPerDay :=
          Binary64.or_default (UsagePattern.hoursPerDay usagePattern) (Binary64.ofZ 8) in
        Binary64.floor ((remainingValue - threshold)
                        / (DegradationParams.degradationRate degradation * hoursPerDay))
    | time =>
        Binary64.floor ((remainingValue - threshold)
                        / DegradationParams.degradationRate degradation)
    end in
  let maintenanceDate := dateAfterDays daysUntilMaintenance in
  let estimatedCost := calculateMaintenanceCost equipment in
  let priority :=
    if daysUntilMaintenance <=? Binary64.ofZ 7 then high
    else if daysUntilMaintenance <=? Binary64.ofZ 30 then medium else low in
  MaintenanceNeeds.mk daysUntilMaintenance maintenanceDate estimatedCost priority.

(** The state of [generateProcurementPlan]: the array [needs] and
    [remainingBudget]. *)
Definition PlanState : Type := list ProcurementNeed.t * double.

Definition planEquipmentStep (st : PlanState) (eq : Equipment.t) : PlanState :=
  let '(needs, remainingBudget) := st in
  let maintenanceNeeds := predictMaintenanceNeeds eq UsagePattern.empty in
  match MaintenanceNeeds.priority maintenanceNeeds with
  | high =>
      if remainingBudget >=? Equipment.acquisitionCost eq then
        ((needs ++ [ProcurementNeed.mk
                     (randomUUID (length needs))
                     it_equipment
                     (Equipment.id eq)
                     (Binary64.ofZ 1)
                     (Equipment.acquisitionCost eq)
                     high
                     ("Critical replacement needed within "
                      ++ showNumber (MaintenanceNeeds.daysUntilMaintenance maintenanceNeeds)
                      ++ " days")
                     (nowISO clk)
                     pending])%list,
         remainingBudget - Equipment.acquisitionCost eq)
      else st
  | _ => st
  end.

Definition consumableOrderQuantity (c : Consumable.t) : double :=
  Binary64.max (Consumable.reorderPoint c - Consumable.stockLevel c)
               (Binary64.ceil (Consumable.minimumStock c * Binary64.lit 15 10)).

Definition planConsumableStep (st : PlanState) (c : Consumable.t) : PlanState :=
  let '(needs, remainingBudget) := st in
  let orderQuantity := consumableOrderQuantity c in
  let cost := orderQuantity * Consumable.costPerUnit c in
  if remainingBudget >=? cost then
    ((needs ++ [ProcurementNeed.mk
                 (randomUUID (length needs))
                 it_consumable
                 (Consumable.id c)
                 orderQuantity
                 cost
                 (if Binary64.eqb (Consumable.stockLevel c) Binary64.zero
                  then high else medium)
                 ("Stock level below minimum ("
                  ++ showNumber (Consumable.stockLevel c) ++ "/"
                  ++ showNumber (Consumable.minimumStock c) ++ ")")
                 (nowISO clk)
                 pending])%list,
     remainingBudget - cost)
  else st.

(** [Array.prototype.sort] with a comparator that returns a number: a
    result that is not a number counts as [+0], and [a] stays before [b]
    unless the result is positive; the sort is stable.  Where the results
    are not those of one order of the elements, as they need not be when a
    key is not a number, the language leaves the order to the engine: it
    is here the order of insertion, from the last element to the first. *)
Definition keepsBefore (v : double) : bool :=
  match Binary64.compare v Binary64.zero with
  | Some Gt => false
  | _ => true
  end.

Fixpoint insert_by {A} (cmp : A -> A -> double) (x : A) (l : list A) : list A :=
  match l with
  | [] => [x]
  | y :: l' => if keepsBefore (cmp x y) then x :: l else y :: insert_by cmp x l'
  end.

Definition sort_by {A} (cmp : A -> A -> double) (l : list A) : list A :=
  fold_right (insert_by cmp) [] l.

Definition depletedConsumables (consumables : list Consumable.t) : list Consumable.t :=
  sort_by (fun a b => Consumable.stockLevel a / Consumable.minimumStock a
                      - Consumable.stockLevel b / Consumable.minimumStock b)
    (List.filter (fun c => Consumable.stockLevel c <=? Consumable.minimumStock c)
       consumables).

Definition runProcurementPlan
    (equipment : list Equipment.t) (consumables : list Consumable.t) (budget : double)
  : PlanState :=
  let st := fold_left planEquipmentStep equipment ([], budget) in
  fold_left planConsumableStep (depletedConsumables consumables) st.

Definition generateProcurementPlan
    (equipment : list Equipment.t) (consumables : list Consumable.t) (budget : double)
  : list ProcurementNeed.t :=
  fst (runProcurementPlan equipment consumables budget).
End Functions.

(** *** Vocabulary of the properties of the predictions and the plan *)

(** The prediction as the specification words it: a daily rate by type,
    then the floor of the distance to the threshold over that rate. *)
Definition specDailyRate (d : DegradationParams.t) (cyclesPerDay hoursPerDay : double)
  : double :=
  match DegradationParams.type d with
  | cycles => DegradationParams.degradationRate d * cyclesPerDay
  | hours => DegradationParams.degradationRate d * hoursPerDay
  | time => DegradationParams.degradationRate d
  end.

Definition specDaysRemaining
    (d : DegradationParams.t) (cyclesPerDay hoursPerDay threshold : double) : double :=
  Binary64.floor ((DegradationParams.currentValue d - threshold)
                  / specDailyRate d cyclesPerDay hoursPerDay).

(** The costs taken in order from a budget: each is at most what is left
    at its turn, and what is left is reduced by it, rounded. *)
Inductive funded : double -> list double -> double -> Prop :=
| funded_nil remaining : funded remaining [] remaining
| funded_cons remaining cost costs left :
    (cost <=? remaining) = true ->
    funded (remaining - cost) costs left ->
    funded remaining (cost :: costs) left.

(** No subtraction from the remaining budget is rounded. *)
Fixpoint subtractionsExact (remaining : double) (costs : list double) : Prop :=
  match costs with
  | [] => True
  | cost :: costs =>
      Binary64.isFinite (remaining - cost) = true
      /\ (Binary64.toQ (Binary64.sub remaining cost)
          == Binary64.toQ remaining - Binary64.toQ cost)%Q
      /\ subtractionsExact (remaining - cost) costs
  end.

(** A need of the plan is a whole need of one of the given items: one
    unit of an asset at its acquisition cost, or the order quantity of a
    consumable at its full cost. *)
Definition wholeNeed (equipment : list Equipment.t) (consumables : list Consumable.t)
    (n : ProcurementNeed.t) : Prop :=
  (ProcurementNeed.itemType n = it_equipment
   /\ exists eq, In eq equipment
                 /\ ProcurementNeed.itemId n = Equipment.id eq
                 /\ ProcurementNeed.quantity n = Binary64.ofZ 1
                 /\ ProcurementNeed.estimatedCost n = Equipment.acquisitionCost eq)
  \/ (ProcurementNeed.itemType n = it_consumable
      /\ exists c, In c consumables
                   /\ ProcurementNeed.itemId n = Consumable.id c
                   /\ ProcurementNeed.quantity n = consumableOrderQuantity c
                   /\ ProcurementNeed.estimatedCost n
                      = consumableOrderQuantity c * Consumable.costPerUnit c).

Definition sampleDegradation (ty : DegradationType) (maxValue currentValue rate : double)
  : DegradationParams.t :=
  DegradationParams.mk ty maxValue currentValue Binary64.zero rate
    "2024-01-01T00:00:00.000Z".

Definition sampleEquipment (id : string) (acquisitionCost : double)
    (d : DegradationParams.t) : Equipment.t :=
  Equipment.mk id platform "Platform A" "" "" "" acquisitionCost
    (Binary64.ofZ 5) Binary64.zero [] d (Binary64.ofZ 2)
    "2024-01-01T00:00:00.000Z" None [] [].

Definition sampleConsumable (id : string) (costPerUnit stockLevel minimumStock reorderPoint : double)
  : Consumable.t :=
  Consumable.mk id "Helium" "litre" costPerUnit stockLevel minimumStock reorderPoint.
End Rounded.

(** ** Stores ([stores/inventoryStore.ts], [stores/equipmentStore.ts])

    Each store is a record of its state fields; an action is a function
    on the state, [set] merging the fields it is given.  The inventory
    store reads and writes the equipment store, so its actions run on the
    pair of both.  [await] waits for values that are already there: the
    actions run to completion in the order written. *)

(** An entry of [transactions]: [OfEquipment] carries [equipmentId],
    [OfConsumable] carries [consumableId]. *)
Inductive Transaction :=
| OfEquipment (t : InventoryTransaction.t)
| OfConsumable (t : ConsumableTransaction.t).

Definition transactionId (t : Transaction) : string :=
  match t with
  | OfEquipment t => InventoryTransaction.id t
  | OfConsumable t => ConsumableTransaction.id t
  end.

Module EquipmentState.
Record t := mk {
  equipment : list Equipment.t;
  combinations : list EquipmentCombination.t;
  selectedEquipment : option Equipment.t;
  selectedCombination : option EquipmentCombination.t;
  loading : bool;
  error : option string
}.
End EquipmentState.

Module InventoryState.
Record t := mk {
  consumables : list Consumable.t;
  transactions : list Transaction;
  procurementNeeds : list ProcurementNeed.t;
  selectedTransaction : option Transaction;
  loading : bool;
  error : option string
}.
Definition set_error (s : t) (e : option string) : t :=
  mk (consumables s) (transactions s) (procurementNeeds s) (selectedTransaction s)
     (loading s) e.
Definition set_loading (s : t) (b : bool) : t :=
  mk (consumables s) (transactions s) (procurementNeeds s) (selectedTransaction s)
     b (error s).
End InventoryState.

Module Stores.
Record t := mk {
  equipmentStore : EquipmentState.t;
  inventoryStore : InventoryState.t
}.
Definition set_inventoryStore (w : t) (s : InventoryState.t) : t :=
  mk (equipmentStore w) s.
Definition set_equipmentStore (w : t) (s : EquipmentState.t) : t :=
  mk s (inventoryStore w).
End Stores.

Inductive StatusFilter := sf_available | sf_deployed | sf_maintenance.
Inductive StockChange := increment | decrement.

Module EquipmentStore.
Section Actions.
Variable clk : Clock.

Definition updateEquipment (updatedEquipment : Equipment.t) (state : EquipmentState.t)
  : EquipmentState.t :=
  EquipmentState.mk
    (map (fun eq => if String.eqb (Equipment.id eq) (Equipment.id updatedEquipment)
                    then updatedEquipment else eq)
       (EquipmentState.equipment state))
    (EquipmentState.combinations state)
    (match EquipmentState.selectedEquipment state with
     | Some selected =>
         if String.eqb (Equipment.id selected) (Equipment.id updatedEquipment)
         then Some updatedEquipment else Some selected
     | None => None
     end)
    (EquipmentState.selectedCombination state)
    (EquipmentState.loading state)
    None.

Definition removeEquipment (id : string) (state : EquipmentState.t) : EquipmentState.t :=
  EquipmentState.mk
    (List.filter (fun eq => negb (String.eqb (Equipment.id eq) id))
       (EquipmentState.equipment state))
    (map (fun combo =>
            EquipmentCombination.mk
              (EquipmentCombination.id combo) (EquipmentCombination.name combo)
              (EquipmentCombination.description combo)
              (List.filter (fun eq => negb (String.eqb (CombinationItem.id eq) id))
                 (EquipmentCombination.equipment combo))
              (EquipmentCombination.totalCost combo)
              (EquipmentCombination.personnelRequired combo)
              (EquipmentCombination.consumablesRequired combo)
              (EquipmentCombination.created combo)
              (EquipmentCombination.lastUsed combo)
              (EquipmentCombination.usageCount combo))
       (EquipmentState.combinations state))
    (match EquipmentState.selectedEquipment state with
     | Some selected =>
         if String.eqb (Equipment.id selected) id then None else Some selected
     | None => None
     end)
    (EquipmentState.selectedCombination state)
    (EquipmentState.loading state)
    None.

Definition updateDegradation (usage : Usage.t) (state : EquipmentState.t)
  : EquipmentState.t :=
  EquipmentState.mk
    (map (fun eq => Equipment.set_degradation eq (calculateDegradation clk eq usage))
       (EquipmentState.equipment state))
    (EquipmentState.combinations state)
    (EquipmentState.selectedEquipment state)
    (EquipmentState.selectedCombination state)
    (EquipmentState.loading state)
    None.

Definition filterEquipmentByStatus (status : StatusFilter) (state : EquipmentState.t)
  : list Equipment.t :=
  List.filter
    (fun eq =>
       let inUse := Qgtb (Equipment.inUse eq) 0 in
       let needsMaintenance := HealthStatus.needsMaintenance (getHealthStatus eq) in
       match status with
       | sf_deployed => inUse
       | sf_maintenance => needsMaintenance
       | sf_available => negb inUse && negb needsMaintenance
       end)
    (EquipmentState.equipment state).
End Actions.
End EquipmentStore.

Module InventoryStore.
Section Actions.
Variable clk : Clock.
(** The identifiers drawn for procurement needs and for transaction
    records, by the position of the record. *)
Variable randomUUID : nat -> string.
Variable transactionUUID : nat -> string.

Definition setError (message : string) (w : Stores.t) : Stores.t :=
  Stores.set_inventoryStore w
    (InventoryState.set_error (Stores.inventoryStore w) (Some message)).

Definition updateConsumable (updatedConsumable : Consumable.t) (w : Stores.t) : Stores.t :=
  let state := Stores.inventoryStore w in
  Stores.set_inventoryStore w
    (InventoryState.mk
       (map (fun c => if String.eqb (Consumable.id c) (Consumable.id updatedConsumable)
                      then updatedConsumable else c)
          (InventoryState.consumables state))
       (InventoryState.transactions state)
       (InventoryState.procurementNeeds state)
       (InventoryState.selectedTransaction state)
       (InventoryState.loading state)
       None).

Definition removeConsumable (id : string) (w : Stores.t) : Stores.t :=
  let state := Stores.inventoryStore w in
  Stores.set_inventoryStore w
    (InventoryState.mk
       (List.filter (fun c => negb (String.eqb (Consumable.id c) id))
          (InventoryState.consumables state))
       (List.filter
          (fun t => match t with
                    | OfConsumable t =>
                        negb (String.eqb (ConsumableTransaction.consumableId t) id)
                    | OfEquipment _ => false
                    end)
          (InventoryState.transactions state))
       (List.filter (fun need => negb (String.eqb (ProcurementNeed.itemId need) id))
          (InventoryState.procurementNeeds state))
       (InventoryState.selectedTransaction state)
       (InventoryState.loading state)
       None).

(** The store action [generateProcurementNeeds]: it catches what the
    service throws and stores a message of its own, leaving the needs. *)
Definition refreshProcurementNeeds (w : Stores.t) : Stores.t :=
  let equipment := EquipmentState.equipment (Stores.equipmentStore w) in
  let state := Stores.inventoryStore w in
  match Raising.generateProcurementNeeds clk randomUUID equipment
          (InventoryState.consumables state) with
  | Ok needs =>
      Stores.set_inventoryStore w
        (InventoryState.mk
           (InventoryState.consumables state)
           (InventoryState.transactions state)
           needs
           (InventoryState.selectedTransaction state)
           (InventoryState.loading state)
           None)
  | Throw _ => setError "Failed to generate procurement needs" w
  end.

(** A [throw] inside the [set] callback leaves the state as it was and
    stores the message; the needs are then not regenerated. *)
Definition updateStock (id : string) (quantity : Q) (type : StockChange) (w : Stores.t)
  : Stores.t :=
  let state := Stores.inventoryStore w in
  match find (fun c => String.eqb (Consumable.id c) id)
          (InventoryState.consumables state) with
  | None => setError "Consumable not found" w
  | Some consumable =>
      let newStock :=
        match type with
        | increment => Consumable.stockLevel consumable + quantity
        | decrement => Consumable.stockLevel consumable - quantity
        end in
      if Qltb newStock 0 then setError "Insufficient stock" w
      else
        let updatedConsumable := Consumable.set_stockLevel consumable newStock in
        let transaction :=
          ConsumableTransaction.mk
            (transactionUUID (length (InventoryState.transactions state)))
            id
            (match type with increment => purchase | decrement => use end)
            quantity
            (nowISO clk)
            None None in
        refreshProcurementNeeds
          (Stores.set_inventoryStore w
             (InventoryState.mk
                (map (fun c => if String.eqb (Consumable.id c) id
                               then updatedConsumable else c)
                   (InventoryState.consumables state))
                (InventoryState.transactions state ++ [OfConsumable transaction])
                (InventoryState.procurementNeeds state)
                (InventoryState.selectedTransaction state)
                (InventoryState.loading state)
                None))
  end.

(** The console output of [processConsumableTransaction] is not part of
    the stores and is dropped here. *)
Definition processTransaction (transaction : Transaction) (w : Stores.t)
  : bool * Stores.t :=
  let equipment := EquipmentState.equipment (Stores.equipmentStore w) in
  let state := Stores.inventoryStore w in
  match transaction with
  | OfConsumable transaction =>
      let result :=
        fst (processConsumableTransaction transaction
               (InventoryState.consumables state)) in
      match ConsumableResult.success result,
            ConsumableResult.updatedConsumable result with
      | true, Some updatedConsumable => (true, updateConsumable updatedConsumable w)
      | _, _ => (false, w)
      end
  | OfEquipment transaction =>
      let result := processEquipmentTransaction clk transaction equipment in
      match EquipmentResult.success result,
            EquipmentResult.updatedEquipment result with
      | true, Some updatedEquipment =>
          (true,
           Stores.set_equipmentStore w
             (EquipmentStore.updateEquipment updatedEquipment (Stores.equipmentStore w)))
      | _, _ => (false, w)
      end
  end.

Definition setLoading (loading : bool) (w : Stores.t) : Stores.t :=
  Stores.set_inventoryStore w
    (InventoryState.set_loading (Stores.inventoryStore w) loading).

Definition addTransaction (transaction : Transaction) (w : Stores.t) : Stores.t :=
  let w := setLoading true w in
  let '(success, w) := processTransaction transaction w in
  let w :=
    if success then
      let state := Stores.inventoryStore w in
      Stores.set_inventoryStore w
        (InventoryState.mk
           (InventoryState.consumables state)
           (InventoryState.transactions state ++ [transaction])
           (InventoryState.procurementNeeds state)
           (InventoryState.selectedTransaction state)
           (InventoryState.loading state)
           None)
    else w in
  setLoading false w.

Definition fulfillProcurement (id : string) (w : Stores.t) : Stores.t :=
  let state := Stores.inventoryStore w in
  match find (fun n => String.eqb (ProcurementNeed.id n) id)
          (InventoryState.procurementNeeds state) with
  | None => setError "Failed to fulfill procurement" w
  | Some need =>
      let w :=
        match ProcurementNeed.itemType need with
        | it_consumable =>
            updateStock (ProcurementNeed.itemId need) (ProcurementNeed.quantity need)
              increment w
        | it_equipment => w
        end in
      let state := Stores.inventoryStore w in
      Stores.set_inventoryStore w
        (InventoryState.mk
           (InventoryState.consumables state)
           (InventoryState.transactions state)
           (map (fun n =>
                   if String.eqb (ProcurementNeed.id n) id then
                     ProcurementNeed.mk
                       (ProcurementNeed.id n) (ProcurementNeed.itemType n)
                       (ProcurementNeed.itemId n) (ProcurementNeed.quantity n)
                       (ProcurementNeed.estimatedCost n) (ProcurementNeed.priority n)
                       (ProcurementNeed.reason n) (ProcurementNeed.requestDate n)
                       received
                   else n)
              (InventoryState.procurementNeeds state))
           (InventoryState.selectedTransaction state)
           (InventoryState.loading state)
           None)
  end.

Definition syncInventory (w : Stores.t) : Stores.t :=
  let equipment := EquipmentState.equipment (Stores.equipmentStore w) in
  let state := Stores.inventoryStore w in
  let report := generateInventoryReport clk equipment (InventoryState.consumables state) in
  refreshProcurementNeeds
    (Stores.set_inventoryStore w
       (InventoryState.mk
          (map ConsumableEntry.consumable (InventoryReport.consumables report))
          (InventoryState.transactions state)
          (InventoryState.procurementNeeds state)
          (InventoryState.selectedTransaction state)
          (InventoryState.loading state)
          None)).

Definition getConsumableStock (id : string) (w : Stores.t) : Q :=
  match find (fun c => String.eqb (Consumable.id c) id)
          (InventoryState.consumables (Stores.inventoryStore w)) with
  | Some consumable => Consumable.stockLevel consumable
  | None => 0
  end.

Definition getLowStockConsumables (w : Stores.t) : list Consumable.t :=
  List.filter (fun c => Qleb (Consumable.stockLevel c) (Consumable.minimumStock c))
    (InventoryState.consumables (Stores.inventoryStore w)).
End Actions.
End InventoryStore.

(** *** Vocabulary of the store properties *)

Definition storedConsumables (w : Stores.t) : list Consumable.t :=
  InventoryState.consumables (Stores.inventoryStore w).

Definition storedTransactions (w : Stores.t) : list Transaction :=
  InventoryState.transactions (Stores.inventoryStore w).

Definition storedNeeds (w : Stores.t) : list ProcurementNeed.t :=
  InventoryState.procurementNeeds (Stores.inventoryStore w).

Definition storedEquipment (w : Stores.t) : list Equipment.t :=
  EquipmentState.equipment (Stores.equipmentStore w).

Definition storeError (w : Stores.t) : option string :=
  InventoryState.error (Stores.inventoryStore w).

Definition stocksNonNegative (consumables : list Consumable.t) : Prop :=
  Forall (fun c => 0 <= Consumable.stockLevel c) consumables.

Definition sampleStores (equipment : list Equipment.t) (consumables : list Consumable.t)
    (transactions : list Transaction) (needs : list ProcurementNeed.t) : Stores.t :=
  Stores.mk
    (EquipmentState.mk equipment [] None None false None)
    (InventoryState.mk consumables transactions needs None false None).

(** ** More of the helpers ([utils/helpers.ts]) *)

Module Helpers.
Definition calculateTotalCost (equipment : list Equipment.t) : Q :=
  fold_left (fun total item => total + Equipment.acquisitionCost item) equipment 0.

Definition calculateOperationalCost (equipment : Equipment.t) : Q :=
  let baseOperationalCost := Equipment.acquisitionCost equipment * (1 # 10) in
  let degradationFactor :=
    DegradationParams.currentValue (Equipment.degradation equipment)
    / DegradationParams.maxValue (Equipment.degradation equipment) in
  baseOperationalCost * (2 - degradationFactor).

Definition calculateTotalPersonnelCost (equipment : list Equipment.t) : Q :=
  let totalPersonnel :=
    fold_left (fun sum eq => sum + Equipment.personnelRequired eq) equipment 0 in
  totalPersonnel * 5000.

Definition calculateVariance (numbers : list Q) : Q :=
  let mean :=
    fold_left (fun sum num => sum + num) numbers 0
    / inject_Z (Z.of_nat (length numbers)) in
  let squareDiffs := map (fun num => (num - mean) ^ 2) numbers in
  fold_left (fun sum diff => sum + diff) squareDiffs 0
  / inject_Z (Z.of_nat (length numbers)).

Definition calculateEfficiencyScore (equipment : Equipment.t) : Q :=
  let utilizationScore := Equipment.inUse equipment / Equipment.quantity equipment * 100 in
  let healthScore :=
    DegradationParams.currentValue (Equipment.degradation equipment)
    / DegradationParams.maxValue (Equipment.degradation equipment) * 100 in
  let costScore :=
    Math_max 0 (100 - calculateOperationalCost equipment
                      / Equipment.acquisitionCost equipment * 100) in
  (utilizationScore + healthScore + costScore) / 3.
End Helpers.

(** * Properties *)

Lemma Qltb_lt x y : Qltb x y = true <-> x < y.
Proof.
  unfold Qltb. rewrite negb_true_iff, <- not_true_iff_false, Qle_bool_iff.
  split; [apply Qnot_le_lt | apply Qlt_not_le].
Qed.

Lemma Qltb_ge x y : Qltb x y = false <-> y <= x.
Proof. unfold Qltb. rewrite negb_false_iff. apply Qle_bool_iff. Qed.

Lemma Qgtb_gt x y : Qgtb x y = true <-> y < x.
Proof. apply Qltb_lt. Qed.

Lemma Qgtb_le x y : Qgtb x y = false <-> x <= y.
Proof. apply Qltb_ge. Qed.

Lemma Qleb_le x y : Qleb x y = true <-> x <= y.
Proof. apply Qle_bool_iff. Qed.

Lemma Qleb_gt x y : Qleb x y = false <-> y < x.
Proof.
  unfold Qleb. rewrite <- not_true_iff_false, Qle_bool_iff.
  split; [apply Qnot_le_lt | apply Qlt_not_le].
Qed.

Lemma Math_max_spec x y : x <= Math_max x y /\ y <= Math_max x y.
Proof.
  unfold Math_max. destruct (Qltb x y) eqn:E.
  - apply Qltb_lt in E. split; lra.
  - apply Qltb_ge in E. split; lra.
Qed.

(** ** Health status *)

Lemma healthPercentage_fraction (e : Equipment.t) :
  healthPercentage e = healthFraction (Equipment.degradation e) * 100.
Proof. reflexivity. Qed.

Lemma getHealthStatus_cases (e : Equipment.t) :
  let p := healthPercentage e in
  (75 < p /\ getHealthStatus e = HealthStatus.mk good "Equipment is in good condition" false)
  \/ (50 < p <= 75
      /\ getHealthStatus e = HealthStatus.mk fair "Equipment is functioning adequately" false)
  \/ (25 < p <= 50
      /\ getHealthStatus e = HealthStatus.mk poor "Equipment requires attention" true)
  \/ (p <= 25
      /\ getHealthStatus e = HealthStatus.mk critical "Immediate maintenance required" true).
Proof.
  intros p. unfold getHealthStatus. fold p.
  destruct (Qgtb p 75) eqn:E1; [apply Qgtb_gt in E1; auto | apply Qgtb_le in E1].
  destruct (Qgtb p 50) eqn:E2; [apply Qgtb_gt in E2; auto | apply Qgtb_le in E2].
  destruct (Qgtb p 25) eqn:E3; [apply Qgtb_gt in E3 | apply Qgtb_le in E3].
  - right; right; left. auto.
  - right; right; right. auto.
Qed.

(** C3 (amended).  The health status is determined by the health fraction
    [currentValue / maxValue]: above 0.75 it is [good], above 0.50 [fair],
    above 0.25 [poor], otherwise [critical].  Each test is strict, so a
    boundary value belongs to the lower band: a fraction of exactly 0.75
    is [fair], exactly 0.50 is [poor], exactly 0.25 is [critical].
    [needsMaintenance] holds exactly for [poor] and [critical]. *)
Theorem C3_healthStatus_bands (e : Equipment.t) :
  0 < DegradationParams.maxValue (Equipment.degradation e) ->
  let r := healthFraction (Equipment.degradation e) in
  let s := HealthStatus.status (getHealthStatus e) in
  ((s = good <-> 75 # 100 < r) /\
   (s = fair <-> 50 # 100 < r /\ r <= 75 # 100) /\
   (s = poor <-> 25 # 100 < r /\ r <= 50 # 100) /\
   (s = critical <-> r <= 25 # 100)) /\
  ((r == 75 # 100 -> s = fair) /\
   (r == 50 # 100 -> s = poor) /\
   (r == 25 # 100 -> s = critical)) /\
  (HealthStatus.needsMaintenance (getHealthStatus e) = true
   <-> s = poor \/ s = critical) /\
  (forall e', 0 < DegradationParams.maxValue (Equipment.degradation e') ->
              healthFraction (Equipment.degradation e') == r ->
              getHealthStatus e' = getHealthStatus e).
Proof.
  intros Hmax r s.
  assert (Hbands :
    forall e0, let r0 := healthFraction (Equipment.degradation e0) in
      (75 # 100 < r0 /\ getHealthStatus e0
         = HealthStatus.mk good "Equipment is in good condition" false)
      \/ (50 # 100 < r0 /\ r0 <= 75 # 100 /\ getHealthStatus e0
         = HealthStatus.mk fair "Equipment is functioning adequately" false)
      \/ (25 # 100 < r0 /\ r0 <= 50 # 100 /\ getHealthStatus e0
         = HealthStatus.mk poor "Equipment requires attention" true)
      \/ (r0 <= 25 # 100 /\ getHealthStatus e0
         = HealthStatus.mk critical "Immediate maintenance required" true)).
  { intros e0 r0. pose proof (getHealthStatus_cases e0) as H.
    cbv zeta in H. rewrite healthPercentage_fraction in H. fold r0 in H.
    destruct H as [[H1 H2]|[[H1 H2]|[[H1 H2]|[H1 H2]]]].
    - left. split; [lra | exact H2].
    - right; left. repeat split; [lra | lra | exact H2].
    - right; right; left. repeat split; [lra | lra | exact H2].
    - right; right; right. split; [lra | exact H2]. }
  pose proof (Hbands e) as He. cbv zeta in He. fold r in He.
  assert (Hs : s = HealthStatus.status (getHealthStatus e)) by reflexivity.
  split; [| split; [| split]].
  - destruct He as [[H1 H2]|[[H1 [H1' H2]]|[[H1 [H1' H2]]|[H1 H2]]]];
      rewrite H2 in Hs; simpl in Hs; rewrite Hs;
      repeat split; intros; try discriminate; try lra; try reflexivity;
      try (exfalso; lra).
  - destruct He as [[H1 H2]|[[H1 [H1' H2]]|[[H1 [H1' H2]]|[H1 H2]]]];
      rewrite H2 in Hs; simpl in Hs; rewrite Hs;
      repeat split; intros; try reflexivity; exfalso; lra.
  - destruct He as [[H1 H2]|[[H1 [H1' H2]]|[[H1 [H1' H2]]|[H1 H2]]]];
      rewrite H2 in Hs |- *; simpl in Hs |- *; rewrite Hs;
      split; intros; try discriminate; auto;
      match goal with H : _ \/ _ |- _ => destruct H; discriminate end.
  - intros e' _ Hr. pose proof (Hbands e') as He'. cbv zeta in He'.
    destruct He as [[H1 H2]|[[H1 [H1' H2]]|[[H1 [H1' H2]]|[H1 H2]]]];
      destruct He' as [[K1 K2]|[[K1 [K1' K2]]|[[K1 [K1' K2]]|[K1 K2]]]];
      rewrite H2, K2; try reflexivity; exfalso; lra.
Qed.

Lemma C3_healthStatus_bands_witness :
  let e := sampleEquipment "e1" 5 0 (sampleDegradation cycles 100 75 1) in
  0 < DegradationParams.maxValue (Equipment.degradation e)
  /\ HealthStatus.status (getHealthStatus e) = fair.
Proof.
  intros e.
  assert (H : 0 < DegradationParams.maxValue (Equipment.degradation e))
    by (vm_compute; reflexivity).
  split; [exact H |].
  destruct (C3_healthStatus_bands e H) as [_ [[Hb _] _]].
  apply Hb. vm_compute. split; intros; discriminate.
Defined.

(** C3 as stated fails at the boundary: an asset at exactly 75% of its
    maximum value is [fair], not [good]; at exactly 50% it is [poor], at
    exactly 25% it is [critical]. *)
Lemma C3_boundary_counterexample :
  let at_ v := sampleEquipment "e1" 5 0 (sampleDegradation cycles 100 v 1) in
  (healthFraction (Equipment.degradation (at_ 75)) == 75 # 100
   /\ HealthStatus.status (getHealthStatus (at_ 75)) <> good)
  /\ (healthFraction (Equipment.degradation (at_ 50)) == 50 # 100
      /\ HealthStatus.status (getHealthStatus (at_ 50)) <> fair)
  /\ (healthFraction (Equipment.degradation (at_ 25)) == 25 # 100
      /\ HealthStatus.status (getHealthStatus (at_ 25)) <> poor).
Proof.
  cbv zeta. repeat split; try (vm_compute; reflexivity); vm_compute; discriminate.
Qed.

(** ** Equipment transactions *)

Lemma processEquipmentTransaction_found clk tx equipment e :
  findEquipment (InventoryTransaction.equipmentId tx) equipment = Some e ->
  processEquipmentTransaction clk tx equipment
  = processEquipmentTransaction clk tx [e].
Proof.
  unfold findEquipment, processEquipmentTransaction. intros H. rewrite H.
  pose proof (find_some _ _ H) as [_ Hid]. simpl. rewrite Hid. reflexivity.
Qed.

Lemma getInventoryStatus_available e :
  InventoryStatus.available (getInventoryStatus e) = availableUnits e.
Proof. reflexivity. Qed.

(** C4.  A deployment against a resolved asset succeeds exactly when the
    requested quantity is at most [available = quantity - inUse -
    (1 if needsMaintenance else 0)].  When it fails the result carries the
    message of insufficient available equipment and no updated asset; when
    it succeeds the updated asset is the asset with [inUse] increased by
    the requested quantity and every other field as before. *)
Theorem C4_deployment_iff_available
    (clk : Clock) (tx : InventoryTransaction.t)
    (equipment : list Equipment.t) (e : Equipment.t) :
  InventoryTransaction.type tx = deployment ->
  findEquipment (InventoryTransaction.equipmentId tx) equipment = Some e ->
  let r := processEquipmentTransaction clk tx equipment in
  let q := InventoryTransaction.quantity tx in
  (EquipmentResult.success r = true <-> q <= availableUnits e) /\
  (EquipmentResult.success r = false ->
     EquipmentResult.message r = "Insufficient available equipment"
     /\ EquipmentResult.updatedEquipment r = None) /\
  (EquipmentResult.success r = true ->
     EquipmentResult.updatedEquipment r
     = Some (Equipment.set_inUse e (Equipment.inUse e + q))).
Proof.
  intros Hty Hfind r q. subst r.
  unfold processEquipmentTransaction. unfold findEquipment in Hfind.
  rewrite Hfind, Hty. rewrite getInventoryStatus_available. fold q.
  destruct (Qltb (availableUnits e) q) eqn:E; simpl.
  - apply Qltb_lt in E. repeat split; intros; try discriminate; auto.
    exfalso; lra.
  - apply Qltb_ge in E. repeat split; intros; try discriminate; auto.
Qed.

(** The scenario of C4: six units requested from five available. *)
Lemma C4_deployment_witness :
  let tx := sampleTransaction deployment "e1" 6 in
  let r := processEquipmentTransaction sampleClock tx [scenarioAsset] in
  availableUnits scenarioAsset == 5
  /\ EquipmentResult.success r = false
  /\ EquipmentResult.message r = "Insufficient available equipment"
  /\ EquipmentResult.updatedEquipment r = None.
Proof.
  intros tx r.
  pose proof (C4_deployment_iff_available sampleClock tx [scenarioAsset]
                scenarioAsset eq_refl eq_refl) as [Hiff [Hfail _]].
  assert (Hs : EquipmentResult.success r = false).
  { destruct (EquipmentResult.success r) eqn:E; [| reflexivity].
    apply Hiff in E. vm_compute in E. exfalso. apply E. reflexivity. }
  split; [vm_compute; reflexivity |].
  split; [exact Hs |]. exact (Hfail Hs).
Defined.

Lemma availableUnits_le e : availableUnits e <= Equipment.quantity e - Equipment.inUse e.
Proof.
  unfold availableUnits.
  destruct (HealthStatus.needsMaintenance (getHealthStatus e)); lra.
Qed.

(** Acquisitions, deployments and returns of a non-negative quantity, and
    disposals of units that are not in use, keep [0 <= inUse <= quantity]. *)
Lemma inventoryInvariant_step clk e tx :
  inventoryInvariant e ->
  keepsUnitsInUse e tx ->
  inventoryInvariant (applyTransaction clk e tx).
Proof.
  intros [H0 H1] [Hq Hd]. unfold applyTransaction, processEquipmentTransaction.
  cbn [find]. destruct (String.eqb _ _); [| split; assumption].
  rewrite getInventoryStatus_available.
  pose proof (availableUnits_le e) as Ha.
  destruct (InventoryTransaction.type tx) eqn:Hty; simpl.
  - split; simpl; lra.
  - destruct (Qltb _ _) eqn:E; simpl; [split; assumption |].
    apply Qltb_ge in E. split; simpl; lra.
  - destruct (Qltb _ _) eqn:E; simpl; [split; assumption |].
    apply Qltb_ge in E. split; simpl; lra.
  - specialize (Hd eq_refl).
    destruct (Qltb _ _) eqn:E; simpl; [split; assumption |].
    split; simpl; lra.
Qed.

(** C1, at the failing input.  The claim asks that every accepted
    transaction keeps [0 <= inUse <= quantity]; [validateEquipment] rejects
    an asset whose in-use count exceeds its quantity, and deployment guards
    it.  Disposal only compares the requested quantity with [quantity]:
    disposing of four units of an asset with five units, three of them in
    use, is accepted and leaves [inUse = 3 > quantity = 1]. *)
Theorem C1_disposal_breaks_invariant :
  let e := sampleEquipment "e1" 5 3 (sampleDegradation cycles 100 100 1) in
  let tx := sampleTransaction disposal "e1" 4 in
  let r := processEquipmentTransaction sampleClock tx [e] in
  inventoryInvariant e
  /\ EquipmentResult.success r = true
  /\ EquipmentResult.updatedEquipment r = Some (Equipment.set_quantity e (5 - 4))
  /\ ~ inventoryInvariant (applyTransactions sampleClock e [tx]).
Proof.
  cbv zeta. split; [| split; [| split]].
  - split; vm_compute; discriminate.
  - reflexivity.
  - reflexivity.
  - intros [_ H]. vm_compute in H. apply H. reflexivity.
Qed.

Lemma calculateDegradation_one_cycle clk e :
  DegradationParams.currentValue
    (calculateDegradation clk e (Usage.mk (Some 1) None None))
  = match DegradationParams.type (Equipment.degradation e) with
    | cycles =>
        Math_max 0 (DegradationParams.currentValue (Equipment.degradation e)
                    - 1 * DegradationParams.degradationRate (Equipment.degradation e))
    | _ => DegradationParams.currentValue (Equipment.degradation e)
    end.
Proof.
  unfold calculateDegradation.
  destruct (DegradationParams.type (Equipment.degradation e)); reflexivity.
Qed.

(** C8.  If a deployment of [q] is accepted for an asset and a return of
    [q] is then accepted for the asset it produced, [inUse] is back at its
    value before the deployment and [quantity] is as before.  The return
    applies one cycle of usage: the current value of an asset that degrades
    by cycles becomes [max 0 (currentValue - degradationRate)], that of any
    other asset is unchanged; in both cases it does not increase. *)
Theorem C8_deploy_return_roundtrip
    (clk : Clock) (q : Q) (tx1 tx2 : InventoryTransaction.t)
    (equipment1 equipment2 : list Equipment.t) (e e1 e2 : Equipment.t) :
  InventoryTransaction.type tx1 = deployment ->
  InventoryTransaction.quantity tx1 = q ->
  InventoryTransaction.type tx2 = return_ ->
  InventoryTransaction.quantity tx2 = q ->
  findEquipment (InventoryTransaction.equipmentId tx1) equipment1 = Some e ->
  EquipmentResult.updatedEquipment (processEquipmentTransaction clk tx1 equipment1)
    = Some e1 ->
  findEquipment (InventoryTransaction.equipmentId tx2) equipment2 = Some e1 ->
  EquipmentResult.updatedEquipment (processEquipmentTransaction clk tx2 equipment2)
    = Some e2 ->
  Equipment.inUse e2 == Equipment.inUse e
  /\ Equipment.quantity e2 = Equipment.quantity e
  /\ DegradationParams.currentValue (Equipment.degradation e2)
     = match DegradationParams.type (Equipment.degradation e) with
       | cycles =>
           Math_max 0 (DegradationParams.currentValue (Equipment.degradation e)
                       - 1 * DegradationParams.degradationRate (Equipment.degradation e))
       | _ => DegradationParams.currentValue (Equipment.degradation e)
       end
  /\ (0 <= DegradationParams.currentValue (Equipment.degradation e) ->
      0 <= DegradationParams.degradationRate (Equipment.degradation e) ->
      DegradationParams.currentValue (Equipment.degradation e2)
      <= DegradationParams.currentValue (Equipment.degradation e)).
Proof.
  intros Ht1 Hq1 Ht2 Hq2 Hf1 Hr1 Hf2 Hr2.
  unfold processEquipmentTransaction, findEquipment in *.
  rewrite Hf1, Ht1, Hq1 in Hr1. rewrite Hf2, Ht2, Hq2 in Hr2.
  destruct (Qltb (InventoryStatus.available (getInventoryStatus e)) q);
    [discriminate |].
  simpl in Hr1. injection Hr1 as <-.
  destruct (Qltb _ q); [discriminate |].
  simpl in Hr2. injection Hr2 as <-.
  split; [simpl; ring |]. split; [reflexivity |].
  cbn [Equipment.degradation Equipment.set_degradation].
  rewrite calculateDegradation_one_cycle.
  cbn [Equipment.degradation Equipment.set_inUse].
  split; [reflexivity |].
  intros Hc Hrate.
  destruct (DegradationParams.type (Equipment.degradation e)); try lra.
  unfold Math_max. destruct (Qltb _ _) eqn:E; lra.
Qed.

Lemma C8_deploy_return_roundtrip_witness :
  let tx1 := sampleTransaction deployment "e1" 2 in
  let tx2 := sampleTransaction return_ "e1" 2 in
  let e1 := Equipment.set_inUse scenarioAsset (0 + 2) in
  let e2 := applyTransaction sampleClock e1 tx2 in
  Equipment.inUse e2 == Equipment.inUse scenarioAsset
  /\ DegradationParams.currentValue (Equipment.degradation e2) == 99.
Proof.
  intros tx1 tx2 e1 e2.
  pose proof (C8_deploy_return_roundtrip sampleClock 2 tx1 tx2
                [scenarioAsset] [e1] scenarioAsset e1 e2
                eq_refl eq_refl eq_refl eq_refl eq_refl eq_refl eq_refl eq_refl)
    as [H1 [_ [H3 _]]].
  split; [exact H1 |]. rewrite H3. vm_compute. reflexivity.
Defined.

(** ** Predictions *)

Lemma Binary64_sub_zero (x : Binary64.double) : Binary64.sub x Binary64.zero = x.
Proof. destruct x as [[] | [] | | [] m e]; reflexivity. Qed.

Lemma Binary64_mul_comm (x y : Binary64.double) : Binary64.mul x y = Binary64.mul y x.
Proof.
  unfold Binary64.mul.
  destruct x as [sx | sx | | sx mx ex], y as [sy | sy | | sy my ey];
    cbn [SFmul]; rewrite ?(xorb_comm sy sx); try reflexivity.
  rewrite (Pos.mul_comm my mx), (Z.add_comm ey ex). reflexivity.
Qed.

(** [predictReplacement] returns exactly when the predicted number of days
    is finite and that day is within the range of [Date]. *)
Lemma Rounded_predictReplacement_returns clk e :
  let d := Rounded.Equipment.degradation e in
  let days := Rounded.specDaysRemaining d (Binary64.ofZ 1) (Binary64.ofZ 24) Binary64.zero in
  Rounded.predictReplacement clk e
  = match Rounded.dateAfterDays clk days with
    | Some date =>
        Ok (Rounded.Replacement.mk days date
              (Binary64.mul
                 (Binary64.div (Rounded.DegradationParams.currentValue d)
                    (Rounded.DegradationParams.maxValue d))
                 (Binary64.ofZ 100)))
    | None => Throw invalidTimeValue
    end.
Proof.
  intros d days. subst days.
  unfold Rounded.predictReplacement, Rounded.specDaysRemaining, Rounded.specDailyRate.
  cbv zeta. fold d. rewrite Binary64_sub_zero.
  destruct (Rounded.DegradationParams.type d);
    destruct (Rounded.dateAfterDays clk _); reflexivity.
Qed.

(** C2 (amended).  With every operation that of doubles,
    [predictMaintenanceNeeds] turns the rate into a daily rate by type
    (cycles: rate x cyclesPerDay, 1 when absent, zero or not a number;
    hours: rate x hoursPerDay, 8 likewise; time: the rate itself) and
    returns [floor ((currentValue - 0.25 * maxValue) / dailyRate)].
    [predictReplacement], the time to replacement, takes one cycle and 24
    hours a day and the threshold 0: when it returns, it returns
    [floor (currentValue / dailyRate)]; it returns exactly when that number
    is finite and the day lies within the range of [Date], and throws
    otherwise. *)
Theorem C2_predictions
    (clk : Clock) (e : Rounded.Equipment.t) (usagePattern : Rounded.UsagePattern.t) :
  let d := Rounded.Equipment.degradation e in
  let days := Rounded.specDaysRemaining d (Binary64.ofZ 1) (Binary64.ofZ 24) Binary64.zero in
  Rounded.MaintenanceNeeds.daysUntilMaintenance
    (Rounded.predictMaintenanceNeeds clk e usagePattern)
  = Rounded.specDaysRemaining d
      (Binary64.or_default (Rounded.UsagePattern.cyclesPerDay usagePattern) (Binary64.ofZ 1))
      (Binary64.or_default (Rounded.UsagePattern.hoursPerDay usagePattern) (Binary64.ofZ 8))
      (Binary64.mul (Binary64.lit 25 100) (Rounded.DegradationParams.maxValue d))
  /\ (forall r,
        Rounded.predictReplacement clk e = Ok r ->
        Rounded.Replacement.daysUntilReplacement r = days)
  /\ ((exists r, Rounded.predictReplacement clk e = Ok r)
      <-> exists n, Binary64.wholeDays days = Some n /\ representable clk n = true).
Proof.
  intros d days. split; [| split].
  - unfold Rounded.predictMaintenanceNeeds, Rounded.specDaysRemaining,
      Rounded.specDailyRate.
    cbn [Rounded.MaintenanceNeeds.daysUntilMaintenance]. fold d.
    rewrite (Binary64_mul_comm (Binary64.lit 25 100)).
    destruct (Rounded.DegradationParams.type d); reflexivity.
  - intros r. rewrite Rounded_predictReplacement_returns. cbv zeta. fold d days.
    destruct (Rounded.dateAfterDays clk days); [| discriminate].
    intros [= <-]. reflexivity.
  - rewrite Rounded_predictReplacement_returns. cbv zeta. fold d days.
    unfold Rounded.dateAfterDays.
    destruct (Binary64.wholeDays days) as [n |].
    + destruct (representable clk n) eqn:E; split.
      * intros _. exists n. split; [reflexivity | exact E].
      * intros _. eexists. reflexivity.
      * intros [r H]. discriminate H.
      * intros (n' & [= <-] & H). congruence.
    + split; [intros [r H]; discriminate H | intros (n & H & _); discriminate H].
Qed.

Lemma C2_predictions_witness :
  let e := Rounded.sampleEquipment "e1" (Binary64.ofZ 1000)
             (Rounded.sampleDegradation hours (Binary64.ofZ 100) (Binary64.ofZ 72)
                (Binary64.lit 1 10)) in
  exists r,
    Rounded.predictReplacement sampleClock e = Ok r
    /\ Rounded.Replacement.daysUntilReplacement r = Binary64.ofZ 29
    /\ Rounded.MaintenanceNeeds.daysUntilMaintenance
         (Rounded.predictMaintenanceNeeds sampleClock e Rounded.UsagePattern.empty)
       = Binary64.ofZ 58.
Proof.
  intros e.
  destruct (C2_predictions sampleClock e Rounded.UsagePattern.empty) as (Ha & Hb & Hc).
  destruct (proj2 Hc) as [r Hr].
  { exists 29%Z. split; vm_compute; reflexivity. }
  exists r. split; [exact Hr |]. split.
  - rewrite (Hb r Hr). vm_compute. reflexivity.
  - rewrite Ha. vm_compute. reflexivity.
Defined.

(** C2 as stated fails for the time-to-replacement prediction: for an
    asset wearing by cycles, with maximum and current value 100 and rate 1,
    [predictReplacement] returns 100 days, where the distance to the
    threshold [0.25 * maxValue] over the daily rate is 75 days. *)
Lemma C2_replacement_counterexample :
  let d := Rounded.sampleDegradation cycles (Binary64.ofZ 100) (Binary64.ofZ 100)
             (Binary64.ofZ 1) in
  let e := Rounded.sampleEquipment "e1" (Binary64.ofZ 1000) d in
  (Binary64.ltb Binary64.zero (Rounded.DegradationParams.degradationRate d) = true
   /\ Binary64.leb Binary64.zero (Rounded.DegradationParams.currentValue d) = true
   /\ Binary64.leb (Rounded.DegradationParams.currentValue d)
        (Rounded.DegradationParams.maxValue d) = true)
  /\ (exists r,
         Rounded.predictReplacement sampleClock e = Ok r
         /\ Rounded.Replacement.daysUntilReplacement r = Binary64.ofZ 100)
  /\ Rounded.specDaysRemaining d (Binary64.ofZ 1) (Binary64.ofZ 24)
       (Binary64.mul (Binary64.lit 25 100) (Rounded.DegradationParams.maxValue d))
     = Binary64.ofZ 75
  /\ Binary64.eqb (Binary64.ofZ 100) (Binary64.ofZ 75) = false.
Proof.
  cbv zeta. split; [repeat split |].
  split; [eexists; split; vm_compute; reflexivity |].
  split; vm_compute; reflexivity.
Qed.

(** How the program rounds decides the day: an asset wearing by hours at
    rate 0.1 with 72 left is given 29 days, where the exact quotient
    [72 / (0.1 * 24)] is 30; one wearing by time at rate 0.1 with 100 of
    100 left is due for maintenance in 750 days. *)
Lemma predictions_as_rounded :
  Rounded.specDaysRemaining
    (Rounded.sampleDegradation hours (Binary64.ofZ 100) (Binary64.ofZ 72)
       (Binary64.lit 1 10))
    (Binary64.ofZ 1) (Binary64.ofZ 24) Binary64.zero
  = Binary64.ofZ 29
  /\ Qfloor (72 / ((1 # 10) * 24)) = 30%Z
  /\ Rounded.MaintenanceNeeds.daysUntilMaintenance
       (Rounded.predictMaintenanceNeeds sampleClock
          (Rounded.sampleEquipment "e1" (Binary64.ofZ 1000)
             (Rounded.sampleDegradation time (Binary64.ofZ 100) (Binary64.ofZ 100)
                (Binary64.lit 1 10)))
          Rounded.UsagePattern.empty)
     = Binary64.ofZ 750.
Proof. repeat split; vm_compute; reflexivity. Qed.

(** ** Cost projection *)

Lemma calculateDegradation_days_other_axis clk item (days : option Q) :
  DegradationParams.type (Equipment.degradation item) <> time ->
  calculateDegradation clk item (Usage.mk None None days)
  = DegradationParams.set_lastUpdated (Equipment.degradation item) (nowISO clk).
Proof.
  intros Hty. unfold calculateDegradation.
  destruct (DegradationParams.type (Equipment.degradation item));
    [reflexivity | reflexivity | contradiction].
Qed.

Lemma degradationFactor_other_axis clk item index :
  DegradationParams.type (Equipment.degradation item) <> time ->
  degradationFactor clk item index = healthFraction (Equipment.degradation item).
Proof.
  intros Hty. unfold degradationFactor.
  rewrite calculateDegradation_days_other_axis by exact Hty. reflexivity.
Qed.

(** A projection over assets that all degrade by cycles or hours is the
    same in every month. *)
Lemma monthlyCosts_constant clk (equipment : list Equipment.t) i j :
  Forall (fun item => DegradationParams.type (Equipment.degradation item) <> time)
    equipment ->
  Projection.costs (monthlyProjection clk equipment i)
  = Projection.costs (monthlyProjection clk equipment j).
Proof.
  intros Hall. unfold monthlyProjection. cbn [Projection.costs].
  assert (H : forall total,
             fold_left (monthlyStep clk i) equipment total
             = fold_left (monthlyStep clk j) equipment total).
  { induction Hall as [| item l Hty _ IH]; intros total; [reflexivity |].
    cbn [fold_left]. rewrite IH. f_equal. unfold monthlyStep.
    rewrite !degradationFactor_other_axis by exact Hty. reflexivity. }
  rewrite H. reflexivity.
Qed.

(** C10.  [projectCosts] passes the simulated usage of month [i] as
    [days = 30 * i] only.  For an asset that degrades by cycles or hours
    the degradation factor of every month is the asset's present health
    fraction, and what the asset adds to the month's costs, operational
    and maintenance included, is the same in every month; an asset whose
    contribution differs between two months degrades by time. *)
Theorem C10_projection_ignores_cycles_hours
    (clk : Clock) (item : Equipment.t) (i j : nat) (total : CostBreakdown.t) :
  DegradationParams.type (Equipment.degradation item) <> time ->
  degradationFactor clk item i = healthFraction (Equipment.degradation item)
  /\ degradationFactor clk item i = degradationFactor clk item j
  /\ monthlyStep clk i total item = monthlyStep clk j total item
  /\ (forall item' : Equipment.t,
        monthlyStep clk i total item' <> monthlyStep clk j total item' ->
        DegradationParams.type (Equipment.degradation item') = time).
Proof.
  intros Hty. split; [| split; [| split]].
  - apply degradationFactor_other_axis, Hty.
  - rewrite !degradationFactor_other_axis by exact Hty. reflexivity.
  - unfold monthlyStep. rewrite !degradationFactor_other_axis by exact Hty.
    reflexivity.
  - intros item' Hne.
    destruct (DegradationParams.type (Equipment.degradation item')) eqn:E;
      [exfalso | exfalso | reflexivity]; apply Hne; unfold monthlyStep;
      rewrite !degradationFactor_other_axis by (rewrite E; discriminate);
      reflexivity.
Qed.

Lemma C10_projection_witness :
  let byCycles := sampleEquipment "e1" 5 0 (sampleDegradation cycles 100 80 1) in
  let byTime := sampleEquipment "e2" 5 0 (sampleDegradation time 100 80 1) in
  monthlyStep sampleClock 0 CostBreakdown.zero byCycles
  = monthlyStep sampleClock 1 CostBreakdown.zero byCycles
  /\ CostBreakdown.operational (monthlyStep sampleClock 0 CostBreakdown.zero byTime) == 80
  /\ CostBreakdown.operational (monthlyStep sampleClock 1 CostBreakdown.zero byTime) == 50.
Proof.
  intros byCycles byTime.
  assert (H : DegradationParams.type (Equipment.degradation byCycles) <> time)
    by discriminate.
  destruct (C10_projection_ignores_cycles_hours sampleClock byCycles 0 1
              CostBreakdown.zero H) as [_ [_ [Hstep _]]].
  split; [exact Hstep |]. split; vm_compute; reflexivity.
Defined.

(** ** Sorting *)

Lemma insert_by_perm {A} (cmp : A -> A -> Q) x l :
  Permutation (insert_by cmp x l) (x :: l).
Proof.
  induction l as [| y l IH]; simpl; [reflexivity |].
  destruct (Qleb (cmp x y) 0); [reflexivity |].
  rewrite IH. apply perm_swap.
Qed.

Lemma sort_by_perm {A} (cmp : A -> A -> Q) l : Permutation (sort_by cmp l) l.
Proof.
  induction l as [| x l IH]; simpl; [reflexivity |].
  rewrite insert_by_perm. apply perm_skip, IH.
Qed.

Lemma filter_perm {A} (f : A -> bool) l l' :
  Permutation l l' -> Permutation (List.filter f l) (List.filter f l').
Proof.
  induction 1 as [| x l l' _ IH | x y l | l l' l'' _ IH1 _ IH2]; simpl.
  - reflexivity.
  - destruct (f x); [apply perm_skip |]; exact IH.
  - destruct (f x), (f y); try reflexivity. apply perm_swap.
  - etransitivity; eassumption.
Qed.

(** ** The exceptions of the date arithmetic *)

Lemma forallb_true_Forall {A} (f : A -> bool) (l : list A) :
  forallb f l = true <-> Forall (fun x => f x = true) l.
Proof.
  rewrite forallb_forall, List.Forall_forall. reflexivity.
Qed.

Lemma predictReplacement_raises clk e :
  Raising.predictReplacement clk e
  = if replacementDated clk e then Ok (predictReplacement clk e)
    else Throw invalidTimeValue.
Proof.
  unfold Raising.predictReplacement, replacementDated, predictReplacement,
    floorOfQuotient. cbv zeta.
  destruct (Qeq_bool (dailyRate (Equipment.degradation e)) 0); cbn; [reflexivity |].
  destruct (representable clk _); reflexivity.
Qed.

Lemma equipmentNeedStep_raises clk uuid needs e :
  Raising.equipmentNeedStep clk uuid needs e
  = if replacementDated clk e then Ok (equipmentNeedStep clk uuid needs e)
    else Throw invalidTimeValue.
Proof.
  unfold Raising.equipmentNeedStep, equipmentNeedStep. cbv zeta.
  rewrite predictReplacement_raises.
  destruct (replacementDated clk e); cbn [exc_bind]; [| reflexivity].
  destruct (_ || _); reflexivity.
Qed.

Lemma forEach_equipmentNeedStep clk uuid equipment :
  forall needs,
    forEach (Raising.equipmentNeedStep clk uuid) equipment needs
    = if forallb (replacementDated clk) equipment
      then Ok (fold_left (equipmentNeedStep clk uuid) equipment needs)
      else Throw invalidTimeValue.
Proof.
  induction equipment as [| e l IH]; intros needs; cbn [forEach forallb fold_left];
    [reflexivity |].
  rewrite equipmentNeedStep_raises.
  destruct (replacementDated clk e); cbn [exc_bind andb]; [apply IH | reflexivity].
Qed.

(** [generateProcurementNeeds] returns exactly when the replacement date of
    every asset is a valid date, and then what the definition without the
    exception gives; otherwise it throws the [RangeError]. *)
Lemma generateProcurementNeeds_raises clk uuid equipment consumables :
  Raising.generateProcurementNeeds clk uuid equipment consumables
  = if forallb (replacementDated clk) equipment
    then Ok (generateProcurementNeeds clk uuid equipment consumables)
    else Throw invalidTimeValue.
Proof.
  unfold Raising.generateProcurementNeeds, generateProcurementNeeds.
  rewrite forEach_equipmentNeedStep.
  destruct (forallb _ equipment); reflexivity.
Qed.

Lemma calculateMaintenanceCosts_raises clk e :
  Raising.calculateMaintenanceCosts clk e
  = if maintenanceDated clk e then Ok (calculateMaintenanceCosts clk e)
    else Throw invalidTimeValue.
Proof.
  unfold Raising.calculateMaintenanceCosts, maintenanceDated, calculateMaintenanceCosts.
  cbv zeta.
  destruct (Qeq_bool (DegradationParams.maxValue (Equipment.degradation e)) 0); cbn;
    [reflexivity |].
  destruct (representable clk _); reflexivity.
Qed.

Lemma generateMaintenanceReport_raises clk e :
  Raising.generateMaintenanceReport clk e
  = if maintenanceDated clk e && replacementDated clk e
    then Ok (generateMaintenanceReport clk e)
    else Throw invalidTimeValue.
Proof.
  unfold Raising.generateMaintenanceReport, generateMaintenanceReport. cbv zeta.
  rewrite calculateMaintenanceCosts_raises, predictReplacement_raises.
  destruct (maintenanceDated clk e); cbn [exc_bind andb]; [| reflexivity].
  destruct (replacementDated clk e); reflexivity.
Qed.

(** ** Procurement needs *)

Lemma consumableNeedStep_keys clk uuid (consumables : list Consumable.t) :
  forall needs,
    map needKey (fold_left (consumableNeedStep clk uuid) consumables needs)
    = (map needKey needs
       ++ map consumableNeedKey
            (List.filter (fun c => Qleb (Consumable.stockLevel c) (Consumable.reorderPoint c))
               consumables))%list.
Proof.
  induction consumables as [| c l IH]; intros needs; simpl.
  - rewrite app_nil_r. reflexivity.
  - rewrite IH. unfold consumableNeedStep.
    destruct (Qleb (Consumable.stockLevel c) (Consumable.reorderPoint c)).
    + rewrite map_app, <- app_assoc. reflexivity.
    + reflexivity.
Qed.

Lemma equipmentNeedStep_keys clk uuid (equipment : list Equipment.t) :
  forall needs,
    List.filter isConsumableNeed
      (map needKey (fold_left (equipmentNeedStep clk uuid) equipment needs))
    = List.filter isConsumableNeed (map needKey needs).
Proof.
  induction equipment as [| e l IH]; intros needs; simpl; [reflexivity |].
  rewrite IH. unfold equipmentNeedStep.
  destruct (_ || _); [| reflexivity].
  rewrite map_app, List.filter_app. simpl. apply app_nil_r.
Qed.

Lemma filter_consumableNeedKey (l : list Consumable.t) :
  List.filter isConsumableNeed (map consumableNeedKey l) = map consumableNeedKey l.
Proof.
  induction l as [| c l IH]; simpl; [reflexivity |]. rewrite IH. reflexivity.
Qed.

(** C5 (amended).  [generateProcurementNeeds] returns exactly when the replacement
    date of every asset is a valid date.  The consumable needs it then
    returns are, up to their order in the sorted result, one need for each
    consumable with [stockLevel <= reorderPoint] and none for any other
    consumable; the need of consumable [c] has quantity
    [2 * reorderPoint - stockLevel] and priority [high] if
    [stockLevel <= minimumStock], [medium] otherwise.  A consumable with
    stock 5, minimum 10 and reorder point 20 gives quantity 35 and priority
    [high]; one with stock above the reorder point gives no need. *)
Theorem C5_returned_consumable_needs
    (clk : Clock) (randomUUID : nat -> string)
    (equipment : list Equipment.t) (consumables : list Consumable.t) :
  ((exists needs,
       Raising.generateProcurementNeeds clk randomUUID equipment consumables = Ok needs)
   <-> Forall (fun e => replacementDated clk e = true) equipment)
  /\ (forall needs,
        Raising.generateProcurementNeeds clk randomUUID equipment consumables = Ok needs ->
        Permutation
          (List.filter isConsumableNeed (map needKey needs))
          (map consumableNeedKey
             (List.filter
                (fun c => Qleb (Consumable.stockLevel c) (Consumable.reorderPoint c))
                consumables)))
  /\ (forall c : Consumable.t,
        snd (fst (consumableNeedKey c))
        == 2 * Consumable.reorderPoint c - Consumable.stockLevel c)
  /\ option_map (map needKey)
       (match Raising.generateProcurementNeeds clk randomUUID []
                [sampleConsumable "c1" 5 10 20] with
        | Ok needs => Some needs
        | Throw _ => None
        end)
     = Some [(it_consumable, "c1", 35, high)]
  /\ Raising.generateProcurementNeeds clk randomUUID [] [sampleConsumable "c1" 21 10 20]
     = Ok [].
Proof.
  rewrite generateProcurementNeeds_raises.
  split; [| split; [| split; [| split]]].
  - rewrite <- (forallb_true_Forall (replacementDated clk)).
    destruct (forallb (replacementDated clk) equipment); split; try congruence.
    + intros _. eexists. reflexivity.
    + intros [needs H]. discriminate H.
  - intros needs H.
    destruct (forallb (replacementDated clk) equipment); [| discriminate].
    injection H as <-. unfold generateProcurementNeeds.
    etransitivity.
    { apply filter_perm, Permutation_map, sort_by_perm. }
    rewrite consumableNeedStep_keys, List.filter_app, equipmentNeedStep_keys.
    simpl. rewrite filter_consumableNeedKey. reflexivity.
  - intros c. simpl. ring.
  - reflexivity.
  - reflexivity.
Qed.

Lemma C5_returned_consumable_needs_witness :
  let needs := generateProcurementNeeds sampleClock (fun _ => "id") [scenarioAsset]
                 [sampleConsumable "c1" 5 10 20; sampleConsumable "c2" 21 10 20] in
  Raising.generateProcurementNeeds sampleClock (fun _ => "id") [scenarioAsset]
    [sampleConsumable "c1" 5 10 20; sampleConsumable "c2" 21 10 20] = Ok needs
  /\ Permutation
       (List.filter isConsumableNeed (map needKey needs))
       [(it_consumable, "c1", 35, high)].
Proof.
  intros needs.
  assert (H : Raising.generateProcurementNeeds sampleClock (fun _ => "id") [scenarioAsset]
                [sampleConsumable "c1" 5 10 20; sampleConsumable "c2" 21 10 20]
              = Ok needs) by reflexivity.
  split; [exact H |].
  destruct (C5_returned_consumable_needs sampleClock (fun _ => "id") [scenarioAsset]
              [sampleConsumable "c1" 5 10 20; sampleConsumable "c2" 21 10 20])
    as (_ & Hperm & _).
  exact (Hperm needs H).
Defined.

(** C5 as stated fails where the call throws: with an asset whose
    replacement lies 400,000,000 days ahead, past the last valid date,
    [generateProcurementNeeds] throws in its loop over the equipment, and
    the consumable at stock 5 with reorder point 20 gets no need. *)
Lemma C5_far_future_counterexample :
  Qleb (Consumable.stockLevel (sampleConsumable "c1" 5 10 20))
       (Consumable.reorderPoint (sampleConsumable "c1" 5 10 20)) = true
  /\ Replacement.daysUntilReplacement (predictReplacement sampleClock farFutureAsset)
     = 400000000%Z
  /\ Raising.generateProcurementNeeds sampleClock (fun _ => "id") [farFutureAsset]
       [sampleConsumable "c1" 5 10 20]
     = Throw invalidTimeValue.
Proof. repeat split. Qed.

(** ** Budgeted procurement plan *)

Lemma fold_left_invariant {A S} (P : S -> Prop) (f : S -> A -> S) (l : list A) :
  (forall s a, P s -> P (f s a)) -> forall s, P s -> P (fold_left f l s).
Proof.
  intros Hstep. induction l as [| a l IH]; intros s Hs; simpl; [exact Hs |].
  apply IH, Hstep, Hs.
Qed.

Lemma fold_left_invariant_in {A S} (P : S -> Prop) (f : S -> A -> S) (l0 l : list A) :
  (forall s a, In a l0 -> P s -> P (f s a)) ->
  (forall a, In a l -> In a l0) ->
  forall s, P s -> P (fold_left f l s).
Proof.
  intros Hstep. induction l as [| a l IH]; intros Hsub s Hs; simpl; [exact Hs |].
  apply IH.
  - intros b Hb. apply Hsub. right. exact Hb.
  - apply Hstep; [apply Hsub; left; reflexivity | exact Hs].
Qed.

Lemma funded_snoc budget costs remaining cost :
  Rounded.funded budget costs remaining ->
  Binary64.leb cost remaining = true ->
  Rounded.funded budget (costs ++ [cost]) (Binary64.sub remaining cost).
Proof.
  induction 1 as [remaining | remaining c costs left Hc _ IH]; intros Hcost; cbn [app].
  - apply Rounded.funded_cons; [exact Hcost | apply Rounded.funded_nil].
  - apply Rounded.funded_cons; [exact Hc | apply IH, Hcost].
Qed.

(** What a plan state keeps: the costs of the needs taken so far were
    funded from the budget, leaving the remaining budget. *)
Lemma planEquipmentStep_funded clk uuid show budget st eq :
  Rounded.funded budget (map Rounded.ProcurementNeed.estimatedCost (fst st)) (snd st) ->
  let st' := Rounded.planEquipmentStep clk uuid show st eq in
  Rounded.funded budget (map Rounded.ProcurementNeed.estimatedCost (fst st')) (snd st').
Proof.
  destruct st as [needs remaining]. cbn [fst snd]. intros H.
  unfold Rounded.planEquipmentStep.
  destruct (Rounded.MaintenanceNeeds.priority _); try exact H.
  destruct (Binary64.geb remaining (Rounded.Equipment.acquisitionCost eq)) eqn:E;
    [| exact H].
  cbn [fst snd]. rewrite map_app. cbn [map Rounded.ProcurementNeed.estimatedCost].
  apply funded_snoc; assumption.
Qed.

Lemma planConsumableStep_funded clk uuid show budget st c :
  Rounded.funded budget (map Rounded.ProcurementNeed.estimatedCost (fst st)) (snd st) ->
  let st' := Rounded.planConsumableStep clk uuid show st c in
  Rounded.funded budget (map Rounded.ProcurementNeed.estimatedCost (fst st')) (snd st').
Proof.
  destruct st as [needs remaining]. cbn [fst snd]. intros H.
  unfold Rounded.planConsumableStep. cbv zeta.
  destruct (Binary64.geb remaining _) eqn:E; [| exact H].
  cbn [fst snd]. rewrite map_app. cbn [map Rounded.ProcurementNeed.estimatedCost].
  apply funded_snoc; assumption.
Qed.

Lemma planEquipmentStep_whole clk uuid show equipment consumables st eq :
  In eq equipment ->
  Forall (Rounded.wholeNeed equipment consumables) (fst st) ->
  Forall (Rounded.wholeNeed equipment consumables)
    (fst (Rounded.planEquipmentStep clk uuid show st eq)).
Proof.
  destruct st as [needs remaining]. intros Hin Hall. unfold Rounded.planEquipmentStep.
  destruct (Rounded.MaintenanceNeeds.priority _); try exact Hall.
  destruct (Binary64.geb remaining _); [| exact Hall].
  cbn [fst] in *. apply Forall_app. split; [exact Hall |].
  constructor; [| constructor]. left. split; [reflexivity |].
  exists eq. repeat split. exact Hin.
Qed.

Lemma planConsumableStep_whole clk uuid show equipment consumables st c :
  In c consumables ->
  Forall (Rounded.wholeNeed equipment consumables) (fst st) ->
  Forall (Rounded.wholeNeed equipment consumables)
    (fst (Rounded.planConsumableStep clk uuid show st c)).
Proof.
  destruct st as [needs remaining]. intros Hin Hall. unfold Rounded.planConsumableStep.
  cbv zeta. destruct (Binary64.geb remaining _); [| exact Hall].
  cbn [fst] in *. apply Forall_app. split; [exact Hall |].
  constructor; [| constructor]. right. split; [reflexivity |].
  exists c. repeat split. exact Hin.
Qed.

Lemma Rounded_insert_by_in {A} (cmp : A -> A -> Binary64.double) x y l :
  In x (Rounded.insert_by cmp y l) -> x = y \/ In x l.
Proof.
  induction l as [| z l IH]; cbn [Rounded.insert_by].
  - intros [H | []]. left. congruence.
  - destruct (Rounded.keepsBefore (cmp y z)).
    + intros [H | H]; [left; congruence | right; exact H].
    + intros [H | H]; [right; left; exact H |].
      destruct (IH H) as [H' | H']; [left; exact H' | right; right; exact H'].
Qed.

Lemma depletedConsumables_in consumables c :
  In c (Rounded.depletedConsumables consumables) -> In c consumables.
Proof.
  unfold Rounded.depletedConsumables, Rounded.sort_by.
  induction consumables as [| c' l IH]; cbn [List.filter fold_right]; [tauto |].
  destruct (Binary64.leb _ _); cbn [fold_right].
  - intros H. apply Rounded_insert_by_in in H.
    destruct H as [-> | H]; [left; reflexivity | right; apply IH, H].
  - intros H. right. apply IH, H.
Qed.

Lemma Binary64_leb_toQ x y :
  Binary64.leb x y = true ->
  Binary64.isFinite x = true -> Binary64.isFinite y = true ->
  Binary64.toQ x <= Binary64.toQ y.
Proof.
  unfold Binary64.leb, Binary64.compare.
  destruct x as [sx | sx | | sx mx ex], y as [sy | sy | | sy my ey];
    try discriminate; intros H _ _;
    apply Qle_alt; intros Hgt; rewrite Hgt in H; discriminate H.
Qed.

Lemma Binary64_sub_finite x y :
  Binary64.isFinite (Binary64.sub x y) = true ->
  Binary64.isFinite x = true ->
  Binary64.isFinite y = true.
Proof.
  destruct y as [sy | sy | | sy my ey]; try reflexivity;
    destruct x as [sx | sx | | sx mx ex]; discriminate.
Qed.

(** When no subtraction is rounded, the costs taken and what is left add
    up to the budget, and what is left is not negative. *)
Lemma funded_exact budget costs left :
  Rounded.funded budget costs left ->
  Binary64.isFinite budget = true ->
  0 <= Binary64.toQ budget ->
  Rounded.subtractionsExact budget costs ->
  sumQ (map Binary64.toQ costs) + Binary64.toQ left == Binary64.toQ budget
  /\ 0 <= Binary64.toQ left.
Proof.
  induction 1 as [remaining | remaining cost costs left Hcost _ IH];
    intros Hfin Hpos Hexact.
  - cbn [map sumQ fold_right]. split; [ring | exact Hpos].
  - destruct Hexact as (Hfin' & Hsub & Hrest).
    pose proof (Binary64_leb_toQ _ _ Hcost
                  (Binary64_sub_finite _ _ Hfin' Hfin) Hfin) as Hle.
    destruct (IH Hfin') as [Hsum Hleft]; [lra | exact Hrest |].
    split; [| exact Hleft].
    cbn [map]. change (sumQ (?x :: ?l)) with (x + sumQ l). lra.
Qed.




(** A consumable with minimum stock 0 has a sort key that is not a
    number: the comparator then orders nothing and the consumables keep
    the order they came in. *)
Lemma depletedConsumables_without_minimum :
  let c1 := Rounded.sampleConsumable "c1" (Binary64.ofZ 2) (Binary64.ofZ 1)
              (Binary64.ofZ 10) (Binary64.ofZ 20) in
  let c2 := Rounded.sampleConsumable "c2" (Binary64.ofZ 2) Binary64.zero
              Binary64.zero (Binary64.ofZ 20) in
  map Rounded.Consumable.id (Rounded.depletedConsumables [c1; c2]) = ["c1"; "c2"]
  /\ map Rounded.Consumable.id (Rounded.depletedConsumables [c2; c1]) = ["c2"; "c1"].
Proof. split; vm_compute; reflexivity. Qed.

(** ** Combination validation *)

(** The first line item decides the result: the manager does not hold the
    asset, or too few units are free, or the call of the method the
    tracker does not have throws; in each case the check fails. *)
Lemma validateCombination_first_item m typeError combination item rest :
  EquipmentCombination.equipment combination = item :: rest ->
  validateCombination m typeError combination
  = Validation.mk false
      (Some (match m !! CombinationItem.id item with
             | None => "Equipment with ID " ++ CombinationItem.id item ++ " not found"
             | Some e =>
                 if Qltb (Equipment.quantity e - Equipment.inUse e)
                         (CombinationItem.quantity item)
                 then "Insufficient quantity of " ++ Equipment.name e ++ " available"
                 else typeError
             end)).
Proof.
  intros Hitems. unfold validateCombination. rewrite Hitems.
  cbn [validateItems]. unfold getEquipment.
  destruct (m !! CombinationItem.id item) as [e |]; cbn [exc_bind]; [| reflexivity].
  destruct (Qltb _ _); reflexivity.
Qed.



(** ** The heap functions compute what the functions on records compute *)

Module HeapRefinement.
Import Heap(loc, heap, M, value(..), cell(..), bind, ret, getField, getNum, getStr, getRef, setField,
            spread, readArr, findById, degrade, finishConsumable, typeName,
            degradationFields, repDegradation, equipmentFields, repEquipment,
            repEquipmentArray, consumableFields, repConsumable, repConsumableArray).

Lemma bind_eq {A B} (m : M A) (k : A -> M B) h a h1 :
  m h = Some (a, h1) -> bind m k h = k a h1.
Proof. intros E. unfold bind. rewrite E. reflexivity. Qed.

Lemma getField_eq h l o f :
  h !! l = Some (Obj o) -> getField l f h = Some (default VUndef (o !! f), h).
Proof. intros E. unfold getField. rewrite E. reflexivity. Qed.

Lemma getNum_eq h l o f q :
  h !! l = Some (Obj o) -> o !! f = Some (VNum q) -> getNum l f h = Some (q, h).
Proof.
  intros E F. unfold getNum. erewrite bind_eq by (apply getField_eq, E).
  rewrite F. reflexivity.
Qed.

Lemma getStr_eq h l o f s :
  h !! l = Some (Obj o) -> o !! f = Some (VStr s) -> getStr l f h = Some (s, h).
Proof.
  intros E F. unfold getStr. erewrite bind_eq by (apply getField_eq, E).
  rewrite F. reflexivity.
Qed.

Lemma getRef_eq h l o f r :
  h !! l = Some (Obj o) -> o !! f = Some (VRef r) -> getRef l f h = Some (r, h).
Proof.
  intros E F. unfold getRef. erewrite bind_eq by (apply getField_eq, E).
  rewrite F. reflexivity.
Qed.

Lemma setField_eq h l o f v :
  h !! l = Some (Obj o) -> setField l f v h = Some (tt, <[l := Obj (<[f := v]> o)]> h).
Proof. intros E. unfold setField. rewrite E. reflexivity. Qed.

Lemma spread_eq h l o :
  h !! l = Some (Obj o) ->
  spread l h = Some (fresh (dom h), <[fresh (dom h) := Obj o]> h).
Proof. intros E. unfold spread. rewrite E. reflexivity. Qed.

Lemma fresh_lookup (h : heap) : h !! fresh (dom h) = None.
Proof. apply not_elem_of_dom, is_fresh. Qed.

Lemma fresh_ne (h : heap) l c : h !! l = Some c -> fresh (dom h) <> l.
Proof. intros E <-. rewrite fresh_lookup in E. discriminate. Qed.

Lemma getHealthStatus_eq h l e :
  repEquipment h l e -> Heap.getHealthStatus l h = Some (getHealthStatus e, h).
Proof.
  intros (o & ld & Hl & (_ & _ & _ & Hd) & (od & Hld & (_ & Hmax & Hcur & _))).
  unfold Heap.getHealthStatus.
  erewrite bind_eq by (eapply getRef_eq; eassumption).
  erewrite bind_eq by (eapply getNum_eq; eassumption).
  erewrite bind_eq by (eapply getNum_eq; eassumption).
  reflexivity.
Qed.

Lemma getInventoryStatus_eq h l e :
  repEquipment h l e ->
  Heap.getInventoryStatus l h = Some (getInventoryStatus e, h).
Proof.
  intros Hrep. unfold Heap.getInventoryStatus.
  erewrite bind_eq by (apply getHealthStatus_eq, Hrep).
  destruct Hrep as (o & ld & Hl & (_ & Hq & Hu & Hd) & (od & Hld & (_ & Hmax & Hcur & _))).
  erewrite bind_eq by (eapply getNum_eq; eassumption).
  erewrite bind_eq by (eapply getNum_eq; eassumption).
  erewrite bind_eq by (eapply getRef_eq; eassumption).
  erewrite bind_eq by (eapply getNum_eq; eassumption).
  erewrite bind_eq by (eapply getNum_eq; eassumption).
  reflexivity.
Qed.

Lemma findById_eq h items es id :
  Forall2 (fun v e => exists l, v = VRef l /\ repEquipment h l e) items es ->
  exists found,
    findById items id h = Some (found, h)
    /\ match found, findEquipment id es with
       | Some l, Some e => repEquipment h l e
       | None, None => True
       | _, _ => False
       end.
Proof.
  induction 1 as [| v e items es (l & -> & Hrep) _ IH]; simpl.
  - exists None. split; reflexivity.
  - pose proof Hrep as (o & ld & Hl & (Hid & _) & _).
    erewrite bind_eq by (eapply getStr_eq; eassumption).
    unfold findEquipment. simpl.
    destruct (String.eqb (Equipment.id e) id).
    + exists (Some l). split; [reflexivity | exact Hrep].
    + exact IH.
Qed.

Lemma degradationFields_set_currentValue d o v :
  degradationFields d o ->
  degradationFields (DegradationParams.set_currentValue d v) (<["currentValue" := VNum v]> o).
Proof.
  intros (H1 & H2 & H3 & H4 & H5 & H6). unfold degradationFields. simpl.
  rewrite lookup_insert_eq, !lookup_insert_ne by done. auto 10.
Qed.

Lemma degradationFields_set_lastUpdated d o s :
  degradationFields d o ->
  degradationFields (DegradationParams.set_lastUpdated d s) (<["lastUpdated" := VStr s]> o).
Proof.
  intros (H1 & H2 & H3 & H4 & H5 & H6). unfold degradationFields. simpl.
  rewrite lookup_insert_eq, !lookup_insert_ne by done. auto 10.
Qed.

Lemma degrade_eq h ld od nd ond d amount :
  h !! ld = Some (Obj od) -> degradationFields d od ->
  h !! nd = Some (Obj ond) -> degradationFields d ond -> nd <> ld ->
  exists ond',
    degrade ld nd amount h = Some (tt, <[nd := Obj ond']> h)
    /\ degradationFields
         (if truthy amount then
            DegradationParams.set_currentValue d
              (Math_max 0 (DegradationParams.currentValue d
                           - or_default amount 0 * DegradationParams.degradationRate d))
          else d) ond'.
Proof.
  intros Hld Hod Hnd Hond Hne. unfold degrade.
  destruct (truthy amount).
  - pose proof Hod as (_ & _ & Hcur & _ & Hrate & _).
    erewrite bind_eq by (eapply getNum_eq; eassumption).
    erewrite bind_eq by (eapply getNum_eq; eassumption).
    erewrite setField_eq by eassumption.
    eexists. split; [reflexivity |].
    apply degradationFields_set_currentValue, Hond.
  - exists ond. split; [| exact Hond].
    unfold ret. rewrite insert_id by exact Hnd. reflexivity.
Qed.

Lemma calculateDegradation_eq clk h lu o ld od e usage :
  h !! lu = Some (Obj o) -> o !! "degradation" = Some (VRef ld) ->
  h !! ld = Some (Obj od) -> degradationFields (Equipment.degradation e) od ->
  exists od',
    Heap.calculateDegradation clk lu usage h
    = Some (fresh (dom h), <[fresh (dom h) := Obj od']> h)
    /\ degradationFields (calculateDegradation clk e usage) od'.
Proof.
  intros Hlu Hd Hld Hod. unfold Heap.calculateDegradation.
  erewrite bind_eq by (eapply getRef_eq; eassumption).
  erewrite bind_eq by (eapply spread_eq; eassumption).
  set (nd := fresh (dom h)). set (h1 := <[nd := Obj od]> h).
  assert (Hne : nd <> ld) by (eapply fresh_ne; eassumption).
  assert (Hld1 : h1 !! ld = Some (Obj od)).
  { unfold h1. rewrite lookup_insert_ne by exact Hne. exact Hld. }
  assert (Hnd1 : h1 !! nd = Some (Obj od)) by apply lookup_insert_eq.
  pose proof Hod as (Hty & _).
  erewrite bind_eq by (eapply getStr_eq; eassumption).
  unfold calculateDegradation.
  destruct (DegradationParams.type (Equipment.degradation e)); cbn [typeName String.eqb Ascii.eqb Bool.eqb].
  all: match goal with
       | |- context [degrade _ _ ?amount] =>
           destruct (degrade_eq h1 ld od nd od (Equipment.degradation e) amount
                       Hld1 Hod Hnd1 Hod Hne) as (ond' & Hrun & Hf)
       end.
  all: erewrite bind_eq by exact Hrun.
  all: erewrite bind_eq by (apply setField_eq, lookup_insert_eq).
  all: eexists; split;
    [ unfold ret, h1; rewrite !insert_insert_eq; reflexivity
    | apply degradationFields_set_lastUpdated, Hf ].
Qed.

Lemma equipmentFields_set_quantity e ld o v :
  equipmentFields e ld o ->
  equipmentFields (Equipment.set_quantity e v) ld (<["quantity" := VNum v]> o).
Proof.
  intros (H1 & H2 & H3 & H4). unfold equipmentFields. simpl.
  rewrite lookup_insert_eq, !lookup_insert_ne by done. auto.
Qed.

Lemma equipmentFields_set_inUse e ld o v :
  equipmentFields e ld o ->
  equipmentFields (Equipment.set_inUse e v) ld (<["inUse" := VNum v]> o).
Proof.
  intros (H1 & H2 & H3 & H4). unfold equipmentFields. simpl.
  rewrite lookup_insert_eq, !lookup_insert_ne by done. auto.
Qed.

Lemma equipmentFields_set_degradation e ld o d ld' :
  equipmentFields e ld o ->
  equipmentFields (Equipment.set_degradation e d) ld' (<["degradation" := VRef ld']> o).
Proof.
  intros (H1 & H2 & H3 & H4). unfold equipmentFields. simpl.
  rewrite lookup_insert_eq, !lookup_insert_ne by done. auto.
Qed.

Lemma repDegradation_insert h l c ld d :
  l <> ld -> repDegradation h ld d -> repDegradation (<[l := c]> h) ld d.
Proof.
  intros Hne (o & Hl & Hf). exists o. split; [| exact Hf].
  rewrite lookup_insert_ne by exact Hne. exact Hl.
Qed.

Theorem processEquipmentTransaction_refines clk tx arr es h :
  repEquipmentArray h arr es ->
  let p := processEquipmentTransaction clk tx es in
  exists r h',
    Heap.processEquipmentTransaction clk tx arr h = Some (r, h')
    /\ Heap.Result.success r = EquipmentResult.success p
    /\ Heap.Result.message r = EquipmentResult.message p
    /\ match Heap.Result.updated r, EquipmentResult.updatedEquipment p with
       | Some lu, Some e' => repEquipment h' lu e'
       | None, None => True
       | _, _ => False
       end.
Proof.
  intros (items & Harr & Hitems) p. subst p.
  unfold Heap.processEquipmentTransaction, processEquipmentTransaction.
  erewrite bind_eq by (unfold readArr; rewrite Harr; reflexivity).
  destruct (findById_eq h items es (InventoryTransaction.equipmentId tx) Hitems)
    as (found & Hfind & Hfound).
  erewrite bind_eq by exact Hfind.
  unfold findEquipment in Hfound.
  destruct found as [item |],
    (find (fun e => String.eqb (Equipment.id e) (InventoryTransaction.equipmentId tx)) es)
    as [e |]; try contradiction.
  2:{ eexists _, _. split; [reflexivity |]. simpl. auto. }
  erewrite bind_eq by (apply getInventoryStatus_eq, Hfound).
  destruct Hfound as (o & ld & Hitem & Hfields & Hdeg).
  erewrite bind_eq by (eapply spread_eq; eassumption).
  set (lu := fresh (dom h)). set (h1 := <[lu := Obj o]> h).
  assert (Hlu1 : h1 !! lu = Some (Obj o)) by apply lookup_insert_eq.
  pose proof Hdeg as (od & Hld & Hod).
  assert (Hne : lu <> ld) by (eapply fresh_ne; eassumption).
  pose proof Hfields as (Hid & Hq & Hu & Hd).
  destruct (InventoryTransaction.type tx).
  - erewrite bind_eq by (eapply getNum_eq; eassumption).
    erewrite bind_eq by (eapply setField_eq; eassumption).
    eexists _, _. split; [reflexivity |]. simpl. repeat split.
    eexists _, ld. split; [apply lookup_insert_eq |].
    split; [apply equipmentFields_set_quantity, Hfields |].
    do 2 (apply repDegradation_insert; [exact Hne |]). exact Hdeg.
  - destruct (Qltb _ _).
    { eexists _, _. split; [reflexivity |]. simpl. auto. }
    erewrite bind_eq by (eapply getNum_eq; eassumption).
    erewrite bind_eq by (eapply setField_eq; eassumption).
    eexists _, _. split; [reflexivity |]. simpl. repeat split.
    eexists _, ld. split; [apply lookup_insert_eq |].
    split; [apply equipmentFields_set_inUse, Hfields |].
    do 2 (apply repDegradation_insert; [exact Hne |]). exact Hdeg.
  - erewrite bind_eq by (eapply getNum_eq; eassumption).
    destruct (Qltb _ _).
    { eexists _, _. split; [reflexivity |]. simpl. auto. }
    erewrite bind_eq by (eapply setField_eq; eassumption).
    set (o2 := <["inUse" := VNum (Equipment.inUse e - InventoryTransaction.quantity tx)]> o).
    set (h2 := <[lu := Obj o2]> h1).
    set (e2 := Equipment.set_inUse e (Equipment.inUse e - InventoryTransaction.quantity tx)).
    assert (Hlu2 : h2 !! lu = Some (Obj o2)) by apply lookup_insert_eq.
    assert (Hld2 : h2 !! ld = Some (Obj od)).
    { unfold h2, h1. rewrite !lookup_insert_ne by exact Hne. exact Hld. }
    assert (Hd2 : o2 !! "degradation" = Some (VRef ld)).
    { unfold o2. rewrite lookup_insert_ne by done. exact Hd. }
    destruct (calculateDegradation_eq clk h2 lu o2 ld od e2
                (Usage.mk (Some 1) None None) Hlu2 Hd2 Hld2 Hod)
      as (od' & Hrun & Hod').
    erewrite bind_eq by exact Hrun.
    set (nd := fresh (dom h2)) in *.
    assert (Hnd : nd <> lu) by (eapply fresh_ne; eassumption).
    erewrite bind_eq.
    2:{ eapply setField_eq. rewrite lookup_insert_ne by exact Hnd. exact Hlu2. }
    eexists _, _. split; [reflexivity |]. simpl. repeat split.
    eexists _, nd. split; [apply lookup_insert_eq |].
    split.
    { apply equipmentFields_set_degradation with (ld := ld).
      apply equipmentFields_set_inUse, Hfields. }
    exists od'. split; [| exact Hod'].
    rewrite lookup_insert_ne by (intros E; apply Hnd; symmetry; exact E).
    apply lookup_insert_eq.
  - erewrite bind_eq by (eapply getNum_eq; eassumption).
    destruct (Qltb _ _).
    { eexists _, _. split; [reflexivity |]. simpl. auto. }
    erewrite bind_eq by (eapply setField_eq; eassumption).
    eexists _, _. split; [reflexivity |]. simpl. repeat split.
    eexists _, ld. split; [apply lookup_insert_eq |].
    split; [apply equipmentFields_set_quantity, Hfields |].
    do 2 (apply repDegradation_insert; [exact Hne |]). exact Hdeg.
Qed.

Lemma findById_consumable_eq h items cs id :
  Forall2 (fun v c => exists l, v = VRef l /\ repConsumable h l c) items cs ->
  exists found,
    findById items id h = Some (found, h)
    /\ match found, find (fun c => String.eqb (Consumable.id c) id) cs with
       | Some l, Some c => repConsumable h l c
       | None, None => True
       | _, _ => False
       end.
Proof.
  induction 1 as [| v c items cs (l & -> & Hrep) _ IH]; simpl.
  - exists None. split; reflexivity.
  - pose proof Hrep as (o & Hl & (Hid & _)).
    erewrite bind_eq by (eapply getStr_eq; eassumption).
    destruct (String.eqb (Consumable.id c) id).
    + exists (Some l). split; [reflexivity | exact Hrep].
    + exact IH.
Qed.

Lemma consumableFields_set_stockLevel c o v :
  consumableFields c o ->
  consumableFields (Consumable.set_stockLevel c v) (<["stockLevel" := VNum v]> o).
Proof.
  intros (H1 & H2 & H3 & H4 & H5 & H6 & H7). unfold consumableFields. simpl.
  rewrite lookup_insert_eq, !lookup_insert_ne by done. auto 10.
Qed.

Lemma finishConsumable_eq h lu c :
  repConsumable h lu c ->
  finishConsumable lu h
  = Some ((Heap.Result.mk true "Transaction processed successfully" (Some lu),
           if Qleb (Consumable.stockLevel c) (Consumable.reorderPoint c)
           then [triggerReorder c] else []), h).
Proof.
  intros (o & Hl & (Hid & Hname & _ & _ & Hstock & _ & Hre)). unfold finishConsumable.
  erewrite bind_eq by (eapply getNum_eq; eassumption).
  erewrite bind_eq by (eapply getNum_eq; eassumption).
  destruct (Qleb _ _).
  - erewrite bind_eq; [reflexivity |].
    erewrite bind_eq; [reflexivity |].
    unfold Heap.triggerReorder.
    erewrite bind_eq by (eapply getStr_eq; eassumption).
    erewrite bind_eq by (eapply getNum_eq; eassumption).
    erewrite bind_eq by (eapply getNum_eq; eassumption).
    reflexivity.
  - reflexivity.
Qed.

Theorem processConsumableTransaction_refines tx arr cs h :
  repConsumableArray h arr cs ->
  let p := processConsumableTransaction tx cs in
  exists r h',
    Heap.processConsumableTransaction tx arr h = Some ((r, snd p), h')
    /\ Heap.Result.success r = ConsumableResult.success (fst p)
    /\ Heap.Result.message r = ConsumableResult.message (fst p)
    /\ match Heap.Result.updated r, ConsumableResult.updatedConsumable (fst p) with
       | Some lu, Some c' => repConsumable h' lu c'
       | None, None => True
       | _, _ => False
       end.
Proof.
  intros (items & Harr & Hitems) p. subst p.
  unfold Heap.processConsumableTransaction, processConsumableTransaction.
  erewrite bind_eq by (unfold readArr; rewrite Harr; reflexivity).
  destruct (findById_consumable_eq h items cs
              (ConsumableTransaction.consumableId tx) Hitems)
    as (found & Hfind & Hfound).
  erewrite bind_eq by exact Hfind.
  destruct found as [item |],
    (find (fun c => String.eqb (Consumable.id c) (ConsumableTransaction.consumableId tx)) cs)
    as [c |]; try contradiction.
  2:{ eexists _, _. split; [reflexivity |]. simpl. auto. }
  destruct Hfound as (o & Hitem & Hfields).
  erewrite bind_eq by (eapply spread_eq; eassumption).
  set (lu := fresh (dom h)). set (h1 := <[lu := Obj o]> h).
  assert (Hlu1 : h1 !! lu = Some (Obj o)) by apply lookup_insert_eq.
  pose proof Hfields as (_ & _ & _ & _ & Hstock & _).
  erewrite bind_eq by (eapply getNum_eq; eassumption).
  assert (Hrep : forall v,
             repConsumable (<[lu := Obj (<["stockLevel" := VNum v]> o)]> h1) lu
               (Consumable.set_stockLevel c v)).
  { intros v. eexists. split; [apply lookup_insert_eq |].
    apply consumableFields_set_stockLevel, Hfields. }
  destruct (ConsumableTransaction.type tx).
  - erewrite bind_eq by (eapply setField_eq; eassumption).
    rewrite (finishConsumable_eq _ _ _ (Hrep _)).
    eexists _, _. split; [reflexivity |]. simpl. repeat split. apply Hrep.
  - destruct (Qltb _ _).
    { eexists _, _. split; [reflexivity |]. simpl. auto. }
    erewrite bind_eq by (eapply setField_eq; eassumption).
    rewrite (finishConsumable_eq _ _ _ (Hrep _)).
    eexists _, _. split; [reflexivity |]. simpl. repeat split. apply Hrep.
  - destruct (Qltb _ _).
    { eexists _, _. split; [reflexivity |]. simpl. auto. }
    erewrite bind_eq by (eapply setField_eq; eassumption).
    rewrite (finishConsumable_eq _ _ _ (Hrep _)).
    eexists _, _. split; [reflexivity |]. simpl. repeat split. apply Hrep.
Qed.

(** The sample heap holds one asset: five units, two in use, full health. *)
Example sampleHeap_represents :
  repEquipmentArray Heap.sampleHeap 1%positive
    [sampleEquipment "e1" 5 2 (sampleDegradation cycles 100 100 1)].
Proof.
  eexists. split; [reflexivity |].
  constructor; [| constructor].
  eexists. split; [reflexivity |].
  eexists _, _. split; [reflexivity |].
  split; [repeat split |].
  eexists. split; [reflexivity | repeat split].
Qed.
End HeapRefinement.

(** ** The transactions write to fresh objects only *)

Module HeapFacts.
Import Heap.

Lemma hoare_ret {A} (P : heap -> Prop) (a : A) (Q : A -> heap -> Prop) :
  (forall h, P h -> Q a h) -> hoare P (ret a) Q.
Proof. intros H h a' h' HP E. injection E as <- <-. auto. Qed.

Lemma hoare_stuck {A} (P : heap -> Prop) (Q : A -> heap -> Prop) : hoare P stuck Q.
Proof. intros h a h' _ E. discriminate. Qed.

Lemma hoare_bind {A B} (P : heap -> Prop) (m : M A) (R : A -> heap -> Prop)
    (k : A -> M B) (Q : B -> heap -> Prop) :
  hoare P m R -> (forall a, hoare (R a) (k a) Q) -> hoare P (bind m k) Q.
Proof.
  intros Hm Hk h b h' HP E. unfold bind in E.
  destruct (m h) as [[a h1] |] eqn:Em; [| discriminate].
  eapply Hk; [eapply Hm; eassumption | exact E].
Qed.

Lemma hoare_readonly {A} (P : heap -> Prop) (m : M A) :
  readonly m -> hoare P m (fun _ => P).
Proof. intros Hr h a h' HP E. apply Hr in E. subst. exact HP. Qed.

Lemma hoare_weaken {A} (P P' : heap -> Prop) (m : M A) (Q Q' : A -> heap -> Prop) :
  hoare P' m Q' -> (forall h, P h -> P' h) -> (forall a h, Q' a h -> Q a h) ->
  hoare P m Q.
Proof. intros H HP HQ h a h' Hh E. eapply HQ, H; eauto. Qed.

Lemma readonly_ret {A} (a : A) : readonly (ret a).
Proof. intros h a' h' E. injection E as _ <-. reflexivity. Qed.

Lemma readonly_stuck {A} : readonly (@stuck A).
Proof. intros h a h' E. discriminate. Qed.

Lemma readonly_bind {A B} (m : M A) (k : A -> M B) :
  readonly m -> (forall a, readonly (k a)) -> readonly (bind m k).
Proof.
  intros Hm Hk h b h' E. unfold bind in E.
  destruct (m h) as [[a h1] |] eqn:Em; [| discriminate].
  apply Hm in Em. subst h1. eapply Hk, E.
Qed.

Lemma readonly_getField l f : readonly (getField l f).
Proof.
  intros h a h' E. unfold getField in E.
  destruct (h !! l) as [[o | items] |]; try discriminate.
  injection E as _ <-. reflexivity.
Qed.

Lemma readonly_readArr l : readonly (readArr l).
Proof.
  intros h a h' E. unfold readArr in E.
  destruct (h !! l) as [[o | items] |]; try discriminate.
  injection E as _ <-. reflexivity.
Qed.

Lemma readonly_getNum l f : readonly (getNum l f).
Proof.
  apply readonly_bind; [apply readonly_getField |].
  intros []; first [apply readonly_ret | apply readonly_stuck].
Qed.

Lemma readonly_getStr l f : readonly (getStr l f).
Proof.
  apply readonly_bind; [apply readonly_getField |].
  intros []; first [apply readonly_ret | apply readonly_stuck].
Qed.

Lemma readonly_getRef l f : readonly (getRef l f).
Proof.
  apply readonly_bind; [apply readonly_getField |].
  intros []; first [apply readonly_ret | apply readonly_stuck].
Qed.

Lemma readonly_findById items id : readonly (findById items id).
Proof.
  induction items as [| v rest IH]; simpl; [apply readonly_ret |].
  destruct v; try apply readonly_stuck.
  apply readonly_bind; [apply readonly_getStr |].
  intros i. destruct (String.eqb i id); [apply readonly_ret | exact IH].
Qed.

Ltac readonly_steps :=
  repeat first
    [ apply readonly_ret
    | apply readonly_getNum
    | apply readonly_getStr
    | apply readonly_getRef
    | apply readonly_bind; [| intros ?] ].

Lemma readonly_getHealthStatus l : readonly (getHealthStatus l).
Proof. unfold getHealthStatus. readonly_steps. Qed.

Lemma readonly_getInventoryStatus l : readonly (getInventoryStatus l).
Proof.
  unfold getInventoryStatus.
  apply readonly_bind; [apply readonly_getHealthStatus | intros ?].
  readonly_steps.
Qed.

Lemma readonly_triggerReorder l : readonly (triggerReorder l).
Proof. unfold triggerReorder. readonly_steps. Qed.

Lemma readonly_finishConsumable l : readonly (finishConsumable l).
Proof.
  unfold finishConsumable.
  apply readonly_bind; [apply readonly_getNum | intros stockLevel].
  apply readonly_bind; [apply readonly_getNum | intros reorderPoint].
  apply readonly_bind; [| intros ?; apply readonly_ret].
  destruct (Qleb stockLevel reorderPoint); [| apply readonly_ret].
  apply readonly_bind; [apply readonly_triggerReorder | intros ?; apply readonly_ret].
Qed.

Lemma owned_drop h0 l L h : owned h0 (l :: L) h -> owned h0 L h.
Proof. intros [H1 H2]. split; [exact H1 |]. inversion H2; assumption. Qed.

Lemma hoare_spread h0 L l :
  hoare (owned h0 L) (spread l) (fun l' => owned h0 (l' :: L)).
Proof.
  intros h l' h' [Hinv HL] E. unfold spread in E.
  destruct (h !! l) as [[o | items] |] eqn:Hl; try discriminate.
  injection E as <- <-.
  assert (Hfresh : h !! fresh (dom h) = None).
  { apply not_elem_of_dom, is_fresh. }
  assert (Hnew : h0 !! fresh (dom h) = None).
  { destruct (h0 !! fresh (dom h)) as [c |] eqn:E0; [| reflexivity].
    apply Hinv in E0. congruence. }
  split.
  - intros l1 c Hc. rewrite lookup_insert_ne; [apply Hinv, Hc |].
    intros <-. congruence.
  - constructor.
    + split; [exact Hnew |]. exists o. apply lookup_insert_eq.
    + eapply List.Forall_impl; [| exact HL]. simpl.
      intros l1 [Hl1 [o1 Ho1]]. split; [exact Hl1 |].
      exists o1. rewrite lookup_insert_ne; [exact Ho1 |].
      intros <-. congruence.
Qed.

Lemma hoare_setField h0 L l f v :
  In l L -> hoare (owned h0 L) (setField l f v) (fun _ => owned h0 L).
Proof.
  intros Hin h [] h' [Hinv HL] E. unfold setField in E.
  destruct (h !! l) as [[o | items] |] eqn:Hl; try discriminate.
  injection E as <-.
  pose proof (proj1 (List.Forall_forall _ _) HL l Hin) as [Hl0 _].
  split.
  - intros l1 c Hc. rewrite lookup_insert_ne; [apply Hinv, Hc |].
    intros <-. congruence.
  - eapply List.Forall_impl; [| exact HL]. simpl.
    intros l1 [Hl1 [o1 Ho1]]. split; [exact Hl1 |].
    destruct (decide (l = l1)) as [<- | Hne].
    + eexists. apply lookup_insert_eq.
    + exists o1. rewrite lookup_insert_ne; assumption.
Qed.

Ltac hoare_read lem := eapply hoare_bind; [apply hoare_readonly, lem | intros ?].

Lemma hoare_degrade h0 L degradation newDegradation amount :
  In newDegradation L ->
  hoare (owned h0 L) (degrade degradation newDegradation amount)
    (fun _ => owned h0 L).
Proof.
  intros Hin. unfold degrade.
  destruct (truthy amount); [| apply hoare_ret; auto].
  hoare_read readonly_getNum. hoare_read readonly_getNum.
  apply hoare_setField, Hin.
Qed.

Lemma hoare_calculateDegradation clk h0 L equipment usage :
  hoare (owned h0 L) (calculateDegradation clk equipment usage)
    (fun d => owned h0 (d :: L)).
Proof.
  unfold calculateDegradation.
  hoare_read readonly_getRef.
  eapply hoare_bind; [apply hoare_spread | intros newDegradation].
  hoare_read readonly_getStr.
  eapply hoare_bind with (R := fun _ => owned h0 (newDegradation :: L)).
  { repeat match goal with
           | |- hoare _ (if ?b then _ else _) _ => destruct b
           end;
      first [apply hoare_degrade; left; reflexivity | apply hoare_ret; auto]. }
  intros ?.
  eapply hoare_bind; [apply hoare_setField; left; reflexivity | intros ?].
  apply hoare_ret; auto.
Qed.

Lemma owned_none h0 L h msg :
  owned h0 L h -> writesFresh h0 (Result.mk false msg None) h.
Proof.
  intros [H _]. split; [exact H |]. split; [intros lu E; discriminate | reflexivity].
Qed.

Lemma owned_some h0 L h lu msg :
  owned h0 L h -> In lu L -> writesFresh h0 (Result.mk true msg (Some lu)) h.
Proof.
  intros [H HL] Hin. split; [exact H |]. split; [| discriminate].
  intros lu' E. injection E as <-.
  exact (proj1 (List.Forall_forall _ _) HL lu Hin).
Qed.

Lemma hoare_processEquipmentTransaction clk h0 tx equipment :
  hoare (owned h0 []) (processEquipmentTransaction clk tx equipment) (writesFresh h0).
Proof.
  unfold processEquipmentTransaction.
  hoare_read readonly_readArr. hoare_read readonly_findById.
  match goal with |- hoare _ (match ?x with _ => _ end) _ => destruct x as [item |] end.
  2:{ apply hoare_ret. intros h. apply owned_none. }
  hoare_read readonly_getInventoryStatus.
  eapply hoare_bind; [apply hoare_spread | intros lu].
  assert (Hin : In lu [lu]) by (left; reflexivity).
  destruct (InventoryTransaction.type tx).
  - hoare_read readonly_getNum.
    eapply hoare_bind; [apply hoare_setField, Hin | intros ?].
    apply hoare_ret. intros h Hh. eapply owned_some; eassumption.
  - destruct (Qltb _ _).
    { apply hoare_ret. intros h. apply owned_none. }
    hoare_read readonly_getNum.
    eapply hoare_bind; [apply hoare_setField, Hin | intros ?].
    apply hoare_ret. intros h Hh. eapply owned_some; eassumption.
  - hoare_read readonly_getNum.
    destruct (Qltb _ _).
    { apply hoare_ret. intros h. apply owned_none. }
    eapply hoare_bind; [apply hoare_setField, Hin | intros ?].
    eapply hoare_bind; [apply hoare_calculateDegradation | intros d].
    eapply hoare_bind; [apply hoare_setField; right; exact Hin | intros ?].
    apply hoare_ret. intros h Hh. eapply owned_some; [exact Hh | right; exact Hin].
  - hoare_read readonly_getNum.
    destruct (Qltb _ _).
    { apply hoare_ret. intros h. apply owned_none. }
    eapply hoare_bind; [apply hoare_setField, Hin | intros ?].
    apply hoare_ret. intros h Hh. eapply owned_some; eassumption.
Qed.

Lemma hoare_finishConsumable h0 lu :
  hoare (owned h0 [lu]) (finishConsumable lu) (fun rl => writesFresh h0 (fst rl)).
Proof.
  unfold finishConsumable.
  hoare_read readonly_getNum. hoare_read readonly_getNum.
  eapply hoare_bind with (R := fun _ => owned h0 [lu]).
  { apply hoare_readonly. destruct (Qleb _ _); [| apply readonly_ret].
    apply readonly_bind; [apply readonly_triggerReorder |].
    intros ?; apply readonly_ret. }
  intros log. apply hoare_ret. intros h Hh. cbn [fst].
  eapply owned_some; [exact Hh | left; reflexivity].
Qed.

Lemma hoare_processConsumableTransaction h0 tx consumables :
  hoare (owned h0 []) (processConsumableTransaction tx consumables)
    (fun rl => writesFresh h0 (fst rl)).
Proof.
  unfold processConsumableTransaction.
  hoare_read readonly_readArr. hoare_read readonly_findById.
  match goal with |- hoare _ (match ?x with _ => _ end) _ => destruct x as [item |] end.
  2:{ apply hoare_ret. intros h. apply owned_none. }
  eapply hoare_bind; [apply hoare_spread | intros lu].
  assert (Hin : In lu [lu]) by (left; reflexivity).
  hoare_read readonly_getNum.
  destruct (ConsumableTransaction.type tx).
  - eapply hoare_bind; [apply hoare_setField, Hin | intros ?].
    apply hoare_finishConsumable.
  - destruct (Qltb _ _).
    { apply hoare_ret. intros h. apply owned_none. }
    eapply hoare_bind; [apply hoare_setField, Hin | intros ?].
    apply hoare_finishConsumable.
  - destruct (Qltb _ _).
    { apply hoare_ret. intros h. apply owned_none. }
    eapply hoare_bind; [apply hoare_setField, Hin | intros ?].
    apply hoare_finishConsumable.
Qed.

(** C9.  Whatever a transaction returns, every cell of the heap at the
    call -- the collection, its records and the objects they refer to --
    is afterwards what it was, field by field; the updated record of an
    accepted transaction is an object that did not exist at the call, and
    a rejected transaction returns none.  On a heap whose collection holds
    records of the expected shape the transaction does return. *)
Theorem C9_transactions_write_fresh_objects (clk : Clock) (h h' : heap) :
  (forall tx equipment r,
      processEquipmentTransaction clk tx equipment h = Some (r, h') ->
      (forall l c, h !! l = Some c -> h' !! l = Some c)
      /\ (forall lu, Result.updated r = Some lu ->
                     h !! lu = None /\ exists o, h' !! lu = Some (Obj o))
      /\ (Result.success r = false -> Result.updated r = None))
  /\ (forall tx consumables r log,
        processConsumableTransaction tx consumables h = Some ((r, log), h') ->
        (forall l c, h !! l = Some c -> h' !! l = Some c)
        /\ (forall lu, Result.updated r = Some lu ->
                       h !! lu = None /\ exists o, h' !! lu = Some (Obj o))
        /\ (Result.success r = false -> Result.updated r = None))
  /\ (forall tx equipment es,
        repEquipmentArray h equipment es ->
        exists r h1, processEquipmentTransaction clk tx equipment h = Some (r, h1))
  /\ (forall tx consumables cs,
        repConsumableArray h consumables cs ->
        exists rl h1, processConsumableTransaction tx consumables h = Some (rl, h1)).
Proof.
  assert (H0 : owned h [] h) by (split; [auto | constructor]).
  split; [| split; [| split]].
  - intros tx equipment r E.
    exact (hoare_processEquipmentTransaction clk h tx equipment _ _ _ H0 E).
  - intros tx consumables r log E.
    exact (hoare_processConsumableTransaction h tx consumables _ _ _ H0 E).
  - intros tx equipment es Hrep.
    destruct (HeapRefinement.processEquipmentTransaction_refines clk tx _ _ _ Hrep)
      as (r & h1 & E & _).
    exists r, h1. exact E.
  - intros tx consumables cs Hrep.
    destruct (HeapRefinement.processConsumableTransaction_refines tx _ _ _ Hrep)
      as (r & h1 & E & _).
    eexists _, h1. exact E.
Qed.

Lemma C9_transactions_write_fresh_objects_witness :
  exists r h',
    processEquipmentTransaction sampleClock (sampleTransaction return_ "e1" 1)
      1%positive sampleHeap = Some (r, h')
    /\ Result.updated r = Some 4%positive
    /\ sampleHeap !! 4%positive = None
    /\ h' !! 1%positive = Some (Arr [VRef 2%positive])
    /\ h' !! 2%positive = Some (Obj sampleEquipmentObject)
    /\ h' !! 3%positive = Some (Obj sampleDegradationObject).
Proof.
  destruct (processEquipmentTransaction sampleClock
              (sampleTransaction return_ "e1" 1) 1%positive sampleHeap)
    as [[r h'] |] eqn:E; [| vm_compute in E; discriminate].
  exists r, h'. split; [reflexivity |].
  destruct (C9_transactions_write_fresh_objects sampleClock sampleHeap h') as [He _].
  destruct (He _ _ _ E) as [Hcells [Hfresh _]].
  assert (Hr : Result.updated r = Some 4%positive).
  { vm_compute in E. injection E as <- _. reflexivity. }
  split; [exact Hr |].
  split; [exact (proj1 (Hfresh _ Hr)) |].
  repeat split; apply Hcells; reflexivity.
Defined.
End HeapFacts.

(** * Further properties of the code *)

(** ** Degradation *)

Lemma or_default_zero (o : option Q) : truthy o = false -> or_default o 0 == 0.
Proof.
  destruct o as [q |]; simpl; [| reflexivity].
  destruct (Qeq_bool q 0) eqn:E; [reflexivity | discriminate].
Qed.

Lemma Math_max_cases x y :
  (x < y /\ Math_max x y = y) \/ (y <= x /\ Math_max x y = x).
Proof.
  unfold Math_max. destruct (Qltb x y) eqn:E.
  - left. split; [apply Qltb_lt, E | reflexivity].
  - right. split; [apply Qltb_ge, E | reflexivity].
Qed.

(** The amount [calculateDegradation] subtracts is the one
    [calculateDegradationRate] computes. *)
Lemma calculateDegradation_currentValue clk e u :
  0 <= DegradationParams.currentValue (Equipment.degradation e) ->
  DegradationParams.currentValue (calculateDegradation clk e u)
  == Math_max 0 (DegradationParams.currentValue (Equipment.degradation e)
                 - calculateDegradationRate e u).
Proof.
  intros Hcv. unfold calculateDegradation, calculateDegradationRate.
  destruct (DegradationParams.type (Equipment.degradation e)).
  all: match goal with
       | |- context [truthy ?o] => destruct (truthy o) eqn:E
       end; cbn [DegradationParams.currentValue DegradationParams.set_lastUpdated
                 DegradationParams.set_currentValue]; try reflexivity.
  all: apply or_default_zero in E.
  all: match goal with
       | |- context [?a * ?r] =>
           assert (Hz : a * r == 0) by (rewrite E; ring);
           destruct (Math_max_cases 0
                       (DegradationParams.currentValue (Equipment.degradation e) - a * r))
             as [[? ->] | [? ->]]; lra
       end.
Qed.

Lemma calculateDegradation_frame clk e u :
  let d := Equipment.degradation e in
  let d' := calculateDegradation clk e u in
  DegradationParams.type d' = DegradationParams.type d
  /\ DegradationParams.maxValue d' = DegradationParams.maxValue d
  /\ DegradationParams.replacementCost d' = DegradationParams.replacementCost d
  /\ DegradationParams.degradationRate d' = DegradationParams.degradationRate d
  /\ DegradationParams.lastUpdated d' = nowISO clk.
Proof.
  cbv zeta. unfold calculateDegradation.
  destruct (DegradationParams.type (Equipment.degradation e)) eqn:Ety.
  all: match goal with
       | |- context [truthy ?o] => destruct (truthy o)
       end; cbn; rewrite ?Ety; auto.
Qed.

(** X1.  [calculateDegradation] keeps a valid degradation state valid:
    with a usage that is not negative, the new current value lies between 0
    and the old current value (over-usage is clamped at 0, never negative),
    and type, maximum value, replacement cost and rate are unchanged. *)
Theorem calculateDegradation_keeps_valid (clk : Clock) (e : Equipment.t) (u : Usage.t) :
  degradationValid (Equipment.degradation e) ->
  usageNonNegative u ->
  let d := Equipment.degradation e in
  let d' := calculateDegradation clk e u in
  degradationValid d'
  /\ DegradationParams.currentValue d' <= DegradationParams.currentValue d
  /\ DegradationParams.type d' = DegradationParams.type d
  /\ DegradationParams.maxValue d' = DegradationParams.maxValue d
  /\ DegradationParams.replacementCost d' = DegradationParams.replacementCost d
  /\ DegradationParams.degradationRate d' = DegradationParams.degradationRate d.
Proof.
  intros (Hmax & Hcv & Hle & Hrate) (Hc & Hh & Hd). cbv zeta.
  pose proof (calculateDegradation_frame clk e u) as (Hty & Hm & Hrc & Hr & _).
  cbv zeta in *.
  pose proof (calculateDegradation_currentValue clk e u Hcv) as Hnew.
  assert (Hamt : 0 <= calculateDegradationRate e u).
  { unfold calculateDegradationRate.
    destruct (DegradationParams.type (Equipment.degradation e));
      apply Qmult_le_0_compat; lra. }
  assert (Hb : 0 <= DegradationParams.currentValue (calculateDegradation clk e u)
               /\ DegradationParams.currentValue (calculateDegradation clk e u)
                  <= DegradationParams.currentValue (Equipment.degradation e)).
  { rewrite Hnew.
    destruct (Math_max_cases 0
                (DegradationParams.currentValue (Equipment.degradation e)
                 - calculateDegradationRate e u)) as [[? ->] | [? ->]]; split; lra. }
  destruct Hb as [Hb1 Hb2].
  unfold degradationValid. rewrite Hm, Hr. repeat split; auto; lra.
Qed.

Lemma calculateDegradation_keeps_valid_witness :
  let e := sampleEquipment "e1" 5 0 (sampleDegradation hours 100 10 1) in
  let d' := calculateDegradation sampleClock e (Usage.mk None (Some 40) None) in
  DegradationParams.currentValue d' == 0 /\ degradationValid d'.
Proof.
  intros e d'.
  assert (Hv : degradationValid (Equipment.degradation e)).
  { repeat split; vm_compute; congruence. }
  assert (Hu : usageNonNegative (Usage.mk None (Some 40) None)).
  { repeat split; vm_compute; congruence. }
  destruct (calculateDegradation_keeps_valid sampleClock e _ Hv Hu) as [H _].
  split; [vm_compute; reflexivity | exact H].
Defined.

(** X2.  [calculateDegradation] looks at the usage along the asset's own
    axis only: two usages that agree there give the same state, and when
    that usage is absent or zero nothing changes but [lastUpdated]. *)
Theorem calculateDegradation_own_axis_only
    (clk : Clock) (e : Equipment.t) (u u' : Usage.t) :
  let ty := DegradationParams.type (Equipment.degradation e) in
  (ownAxis ty u = ownAxis ty u' ->
   calculateDegradation clk e u = calculateDegradation clk e u')
  /\ (truthy (ownAxis ty u) = false ->
      calculateDegradation clk e u
      = DegradationParams.set_lastUpdated (Equipment.degradation e) (nowISO clk)).
Proof.
  cbv zeta. unfold calculateDegradation, ownAxis.
  destruct (DegradationParams.type (Equipment.degradation e)); split.
  all: first [ intros -> ; reflexivity | intros -> ; reflexivity ].
Qed.

Lemma calculateDegradation_own_axis_only_witness :
  let e := sampleEquipment "e1" 5 0 (sampleDegradation cycles 100 80 1) in
  calculateDegradation sampleClock e (Usage.mk (Some 0) (Some 7) (Some 30))
  = DegradationParams.set_lastUpdated (Equipment.degradation e) (nowISO sampleClock).
Proof.
  intros e.
  apply (calculateDegradation_own_axis_only sampleClock e
           (Usage.mk (Some 0) (Some 7) (Some 30)) (Usage.mk None None None)).
  reflexivity.
Defined.

Lemma or_default_some (s : Q) : or_default (Some s) 0 == s.
Proof.
  unfold or_default. destruct (Qeq_bool s 0) eqn:E; [| reflexivity].
  apply Qeq_bool_eq in E. symmetry. exact E.
Qed.

Lemma healthFraction_bounds d :
  degradationValid d -> 0 <= healthFraction d /\ healthFraction d <= 1.
Proof.
  intros (Hmax & Hcv & Hle & _). unfold healthFraction. split.
  - apply Qle_shift_div_l; [exact Hmax | lra].
  - apply Qle_shift_div_r; [exact Hmax | lra].
Qed.

Lemma calculateMaintenanceCosts_monthly_lower clk e :
  degradationValid (Equipment.degradation e) ->
  0 <= Equipment.acquisitionCost e ->
  Equipment.acquisitionCost e * (2 # 100)
  <= MaintenanceCosts.monthly (calculateMaintenanceCosts clk e).
Proof.
  intros Hv Hacq. pose proof (healthFraction_bounds _ Hv) as [H0 H1].
  unfold calculateMaintenanceCosts. cbn [MaintenanceCosts.monthly].
  fold (healthFraction (Equipment.degradation e)).
  set (f := healthFraction (Equipment.degradation e)) in *.
  set (a := Equipment.acquisitionCost e) in *.
  assert (H : 0 <= a * (2 # 100) * (1 - f)) by (apply Qmult_le_0_compat; lra).
  lra.
Qed.

(** X4.  For a valid degradation state and an acquisition cost that is
    not negative, the monthly maintenance cost lies between 2% and 4% of
    the acquisition cost, the yearly cost is twelve times the monthly one,
    and the next maintenance is due in 0 to 90 days. *)
Theorem calculateMaintenanceCosts_bounds (clk : Clock) (e : Equipment.t) :
  degradationValid (Equipment.degradation e) ->
  0 <= Equipment.acquisitionCost e ->
  let m := calculateMaintenanceCosts clk e in
  Equipment.acquisitionCost e * (2 # 100) <= MaintenanceCosts.monthly m
  /\ MaintenanceCosts.monthly m <= Equipment.acquisitionCost e * (4 # 100)
  /\ MaintenanceCosts.yearly m == 12 * MaintenanceCosts.monthly m
  /\ exists days : Z,
       (0 <= days <= 90)%Z /\ MaintenanceCosts.nextMaintenance m = isoAfterDays clk days.
Proof.
  intros Hv Hacq m. pose proof (healthFraction_bounds _ Hv) as [H0 H1].
  unfold m, calculateMaintenanceCosts. cbn [MaintenanceCosts.monthly
    MaintenanceCosts.yearly MaintenanceCosts.nextMaintenance].
  fold (healthFraction (Equipment.degradation e)).
  set (f := healthFraction (Equipment.degradation e)) in *.
  set (a := Equipment.acquisitionCost e) in *.
  clearbody f a. clear m.
  repeat split.
  - assert (H : 0 <= a * (2 # 100) * (1 - f)) by (apply Qmult_le_0_compat; lra).
    lra.
  - assert (H : 0 <= a * (2 # 100) * f) by (apply Qmult_le_0_compat; lra).
    lra.
  - ring.
  - exists (Qfloor (f * 90)). split; [| reflexivity]. split.
    + assert (H : (Qfloor 0 <= Qfloor (f * 90))%Z) by (apply Qfloor_resp_le; lra).
      exact H.
    + assert (H : (Qfloor (f * 90) <= Qfloor 90)%Z) by (apply Qfloor_resp_le; lra).
      exact H.
Qed.

Lemma calculateMaintenanceCosts_bounds_witness :
  let e := sampleEquipment "e1" 5 0 (sampleDegradation cycles 100 20 1) in
  MaintenanceCosts.monthly (calculateMaintenanceCosts sampleClock e) == 36
  /\ MaintenanceCosts.monthly (calculateMaintenanceCosts sampleClock e)
     <= Equipment.acquisitionCost e * (4 # 100).
Proof.
  intros e.
  assert (Hv : degradationValid (Equipment.degradation e))
    by (repeat split; vm_compute; congruence).
  assert (Ha : 0 <= Equipment.acquisitionCost e) by (vm_compute; congruence).
  destruct (calculateMaintenanceCosts_bounds sampleClock e Hv Ha) as (_ & H & _).
  split; [vm_compute; reflexivity | exact H].
Defined.

Lemma healthPercentage_scaled e :
  0 < DegradationParams.maxValue (Equipment.degradation e) ->
  DegradationParams.currentValue (Equipment.degradation e) * 100
  == healthPercentage e * DegradationParams.maxValue (Equipment.degradation e).
Proof.
  intros Hmax. unfold healthPercentage. field. lra.
Qed.

Lemma recommendations_of_report (clk : Clock) (e : Equipment.t) :
  0 < DegradationParams.maxValue (Equipment.degradation e) ->
  let report := generateMaintenanceReport clk e in
  let r := MaintenanceReport.recommendations report in
  (In "Schedule immediate maintenance check" r
   <-> HealthStatus.needsMaintenance (getHealthStatus e) = true)
  /\ (In "Consider preventive maintenance to extend equipment life" r ->
      In "Schedule immediate maintenance check" r)
  /\ (r = []
      <-> HealthStatus.needsMaintenance (getHealthStatus e) = false
          /\ (30 <= Replacement.daysUntilReplacement (predictReplacement clk e))%Z)
  /\ MaintenanceReport.status report
     = healthLevelName (HealthStatus.status (getHealthStatus e)).
Proof.
  intros Hmax report r. subst r report. unfold generateMaintenanceReport.
  cbn [MaintenanceReport.recommendations MaintenanceReport.status].
  pose proof (healthPercentage_scaled e Hmax) as Hp.
  assert (Hhalf : HealthStatus.needsMaintenance (getHealthStatus e) = false ->
                  Qltb (DegradationParams.currentValue (Equipment.degradation e))
                       (DegradationParams.maxValue (Equipment.degradation e) * (5 # 10))
                  = false).
  { intros Hn. apply Qltb_ge.
    pose proof (getHealthStatus_cases e) as H. cbv zeta in H.
    destruct H as [[H1 H2]|[[H1 H2]|[[H1 H2]|[H1 H2]]]];
      rewrite H2 in Hn; try discriminate;
      assert (Hpos : 0 < (healthPercentage e - 50)
                         * DegradationParams.maxValue (Equipment.degradation e))
        by (apply Qmult_lt_0_compat; lra);
      lra. }
  destruct (HealthStatus.needsMaintenance (getHealthStatus e)) eqn:En;
    [| rewrite (Hhalf eq_refl)];
    destruct (_ <? 30)%Z eqn:Ed;
    try (destruct (Qltb _ _) eqn:Eh);
    try apply Z.ltb_lt in Ed; try apply Z.ltb_ge in Ed;
    cbn [app In];
    repeat split; intros;
    repeat match goal with
           | H : _ \/ _ |- _ => destruct H
           | H : _ /\ _ |- _ => destruct H
           end;
    try congruence; try contradiction; try lia; tauto.
Qed.

(** X5.  [generateMaintenanceReport] returns a report exactly when the
    date of the next maintenance and the replacement date are valid dates,
    and throws otherwise.  In a report it returns, the immediate check is
    recommended exactly when the asset needs maintenance; whenever
    preventive maintenance is recommended (current value below half the
    maximum) so is the immediate check; and the list is empty exactly when
    the asset needs no maintenance and the replacement was predicted at
    least 30 days ahead. *)
Theorem generateMaintenanceReport_recommendations (clk : Clock) (e : Equipment.t) :
  0 < DegradationParams.maxValue (Equipment.degradation e) ->
  ((exists report, Raising.generateMaintenanceReport clk e = Ok report)
   <-> maintenanceDated clk e = true /\ replacementDated clk e = true)
  /\ (forall report prediction,
        Raising.generateMaintenanceReport clk e = Ok report ->
        Raising.predictReplacement clk e = Ok prediction ->
        let r := MaintenanceReport.recommendations report in
        (In "Schedule immediate maintenance check" r
         <-> HealthStatus.needsMaintenance (getHealthStatus e) = true)
        /\ (In "Consider preventive maintenance to extend equipment life" r ->
            In "Schedule immediate maintenance check" r)
        /\ (r = []
            <-> HealthStatus.needsMaintenance (getHealthStatus e) = false
                /\ (30 <= Replacement.daysUntilReplacement prediction)%Z)
        /\ MaintenanceReport.status report
           = healthLevelName (HealthStatus.status (getHealthStatus e))).
Proof.
  intros Hmax.
  rewrite generateMaintenanceReport_raises, predictReplacement_raises. split.
  - destruct (maintenanceDated clk e), (replacementDated clk e); cbn [andb];
      split; try (intros [report H]; discriminate H); try (intros [H1 H2]; discriminate);
      intros _; try (eexists; reflexivity); split; reflexivity.
  - intros report prediction Hr Hp.
    destruct (replacementDated clk e); [| discriminate Hp].
    destruct (maintenanceDated clk e); [| discriminate Hr].
    cbn [andb] in Hr. injection Hr as <-. injection Hp as <-.
    exact (recommendations_of_report clk e Hmax).
Qed.

Lemma generateMaintenanceReport_recommendations_witness :
  let e := sampleEquipment "e1" 5 0 (sampleDegradation cycles 100 40 1) in
  option_map MaintenanceReport.recommendations
    (match Raising.generateMaintenanceReport sampleClock e with
     | Ok report => Some report
     | Throw _ => None
     end)
  = Some ["Schedule immediate maintenance check";
          "Consider preventive maintenance to extend equipment life"]
  /\ HealthStatus.needsMaintenance (getHealthStatus e) = true
  /\ Raising.generateMaintenanceReport sampleClock farFutureAsset
     = Throw invalidTimeValue.
Proof.
  intros e.
  assert (Hm : 0 < DegradationParams.maxValue (Equipment.degradation e))
    by (vm_compute; reflexivity).
  destruct (generateMaintenanceReport_recommendations sampleClock e Hm) as [_ H].
  destruct (H (generateMaintenanceReport sampleClock e) (predictReplacement sampleClock e)
              eq_refl eq_refl) as [[Hin _] _].
  split; [reflexivity |]. split; [| reflexivity]. apply Hin. left. reflexivity.
Defined.

(** X7.  An asset in critical health (at most 25% of its maximum value)
    is due for maintenance in zero or fewer days, has maintenance priority
    [high] whatever the usage pattern, and is put into the budgeted plan
    whenever the remaining budget covers its acquisition cost. *)
Theorem critical_asset_is_planned
    (clk : Clock) (randomUUID : nat -> string) (showNumber : Q -> string)
    (e : Equipment.t) (usagePattern : UsagePattern.t)
    (needs : list ProcurementNeed.t) (remainingBudget : Q) :
  degradationValid (Equipment.degradation e) ->
  0 < or_default (UsagePattern.cyclesPerDay usagePattern) 1 ->
  0 < or_default (UsagePattern.hoursPerDay usagePattern) 8 ->
  HealthStatus.status (getHealthStatus e) = critical ->
  let m := predictMaintenanceNeeds clk e usagePattern in
  (MaintenanceNeeds.daysUntilMaintenance m <= 0)%Z
  /\ MaintenanceNeeds.priority m = high
  /\ (Equipment.acquisitionCost e <= remainingBudget ->
      let st := planEquipmentStep clk randomUUID showNumber (needs, remainingBudget) e in
      snd st = remainingBudget - Equipment.acquisitionCost e
      /\ exists n, fst st = (needs ++ [n])%list
                   /\ ProcurementNeed.itemId n = Equipment.id e
                   /\ ProcurementNeed.priority n = high
                   /\ ProcurementNeed.estimatedCost n = Equipment.acquisitionCost e).
Proof.
  intros Hv Hc Hh Hcrit m.
  pose proof Hv as (Hmax & Hcv & Hle & Hrate).
  pose proof (healthPercentage_scaled e Hmax) as Hp.
  assert (Hlow : DegradationParams.currentValue (Equipment.degradation e)
                 - DegradationParams.maxValue (Equipment.degradation e) * (25 # 100) <= 0).
  { pose proof (getHealthStatus_cases e) as H. cbv zeta in H.
    destruct H as [[H1 H2]|[[H1 H2]|[[H1 H2]|[H1 H2]]]];
      rewrite H2 in Hcrit; try discriminate; nra. }
  assert (Hdays : forall up,
             0 < or_default (UsagePattern.cyclesPerDay up) 1 ->
             0 < or_default (UsagePattern.hoursPerDay up) 8 ->
             (MaintenanceNeeds.daysUntilMaintenance (predictMaintenanceNeeds clk e up) <= 0)%Z).
  { intros up Hc' Hh'. unfold predictMaintenanceNeeds.
    cbn [MaintenanceNeeds.daysUntilMaintenance].
    assert (Hfl : forall k, 0 < k ->
              (Qfloor ((DegradationParams.currentValue (Equipment.degradation e)
                        - DegradationParams.maxValue (Equipment.degradation e) * (25 # 100))
                       / k) <= 0)%Z).
    { intros k Hk.
      assert (H : (Qfloor ((DegradationParams.currentValue (Equipment.degradation e)
                        - DegradationParams.maxValue (Equipment.degradation e) * (25 # 100))
                       / k) <= Qfloor 0)%Z).
      { apply Qfloor_resp_le. apply Qle_shift_div_r; [exact Hk | lra]. }
      exact H. }
    destruct (DegradationParams.type (Equipment.degradation e)); apply Hfl;
      try exact Hrate; apply Qmult_lt_0_compat; assumption. }
  assert (Hprio : forall up,
             (MaintenanceNeeds.daysUntilMaintenance (predictMaintenanceNeeds clk e up) <= 0)%Z ->
             MaintenanceNeeds.priority (predictMaintenanceNeeds clk e up) = high).
  { intros up Hd. unfold predictMaintenanceNeeds in *.
    cbn [MaintenanceNeeds.daysUntilMaintenance MaintenanceNeeds.priority] in *.
    match goal with |- context [(?z <=? 7)%Z] => destruct (Z.leb_spec z 7) end;
      [reflexivity | lia]. }
  split; [apply Hdays; assumption |].
  split; [apply Hprio, Hdays; assumption |].
  intros Hbudget st. subst st. unfold planEquipmentStep.
  assert (Hempty : MaintenanceNeeds.priority
                     (predictMaintenanceNeeds clk e UsagePattern.empty) = high).
  { apply Hprio, Hdays; vm_compute; reflexivity. }
  rewrite Hempty.
  apply Qleb_le in Hbudget. unfold Qgeb. unfold Qleb in Hbudget. rewrite Hbudget.
  cbn [fst snd]. split; [reflexivity |].
  eexists. split; [reflexivity |]. repeat split.
Qed.

Lemma critical_asset_is_planned_witness :
  let e := sampleEquipment "e1" 5 0 (sampleDegradation hours 100 20 1) in
  let st := planEquipmentStep sampleClock (fun _ => "id") (fun _ => "n") ([], 2500) e in
  HealthStatus.status (getHealthStatus e) = critical
  /\ Equipment.acquisitionCost e <= 2500
  /\ MaintenanceNeeds.priority
       (predictMaintenanceNeeds sampleClock e UsagePattern.empty) = high
  /\ snd st = 2500 - Equipment.acquisitionCost e
  /\ exists n, fst st = [n]
               /\ ProcurementNeed.itemId n = "e1"
               /\ ProcurementNeed.priority n = high
               /\ ProcurementNeed.estimatedCost n = 1000.
Proof.
  intros e st.
  assert (Hv : degradationValid (Equipment.degradation e))
    by (repeat split; vm_compute; congruence).
  assert (H1 : 0 < or_default (UsagePattern.cyclesPerDay UsagePattern.empty) 1)
    by (vm_compute; reflexivity).
  assert (H2 : 0 < or_default (UsagePattern.hoursPerDay UsagePattern.empty) 8)
    by (vm_compute; reflexivity).
  assert (H3 : HealthStatus.status (getHealthStatus e) = critical) by reflexivity.
  assert (H4 : Equipment.acquisitionCost e <= 2500) by (vm_compute; discriminate).
  destruct (critical_asset_is_planned sampleClock (fun _ => "id") (fun _ => "n")
              e UsagePattern.empty [] 2500 Hv H1 H2 H3) as (_ & Hprio & Hplan).
  destruct (Hplan H4) as (Hbudget & n & Hfst & Hid & Hp & Hcost).
  split; [exact H3 |]. split; [exact H4 |]. split; [exact Hprio |].
  split; [exact Hbudget |].
  exists n. split; [exact Hfst |]. split; [exact Hid |]. split; [exact Hp | exact Hcost].
Defined.

(** ** Combination costs *)

Lemma map_exc_ok {A B} (f : A -> Exc B) l ys :
  map_exc f l = Ok ys -> Forall2 (fun x y => f x = Ok y) l ys.
Proof.
  revert ys. induction l as [| x l IH]; simpl; intros ys H.
  - injection H as <-. constructor.
  - destruct (f x) as [y | msg] eqn:Ex; simpl in H; [| discriminate].
    destruct (map_exc f l) as [ys' | msg]; simpl in H; [| discriminate].
    injection H as <-. constructor; [exact Ex | apply IH; reflexivity].
Qed.

Lemma map_exc_all_ok {A B} (f : A -> Exc B) l :
  Forall (fun x => exists y, f x = Ok y) l -> exists ys, map_exc f l = Ok ys.
Proof.
  induction 1 as [| x l [y Hy] _ [ys IH]]; simpl.
  - eexists; reflexivity.
  - rewrite Hy, IH. simpl. eexists; reflexivity.
Qed.

Lemma map_exc_first_throw {A B} (f : A -> Exc B) pre x post msg :
  Forall (fun x => exists y, f x = Ok y) pre ->
  f x = Throw msg ->
  map_exc f (pre ++ x :: post) = Throw msg.
Proof.
  intros Hpre Hx. induction Hpre as [| p pre [y Hy] _ IH]; simpl.
  - rewrite Hx. reflexivity.
  - rewrite Hy, IH. reflexivity.
Qed.

Lemma combinationItemCost_resolves clk equipment item :
  resolves equipment item <-> exists y, combinationItemCost clk equipment item = Ok y.
Proof.
  unfold resolves, combinationItemCost.
  destruct (findEquipment (CombinationItem.id item) equipment).
  - split; [intros _; eexists; reflexivity | intros _; discriminate].
  - split; [intros H; congruence | intros [y H]; discriminate].
Qed.

(** X8.  [calculateCombinationCosts] returns when every line item
    resolves to an asset, and otherwise throws
    [Equipment <id> not found] for the first line item that does not. *)
Theorem calculateCombinationCosts_errors
    (clk : Clock) (combination : EquipmentCombination.t) (equipment : list Equipment.t) :
  (Forall (resolves equipment) (EquipmentCombination.equipment combination) ->
   exists r, calculateCombinationCosts clk combination equipment = Ok r)
  /\ (forall pre item post,
        EquipmentCombination.equipment combination = (pre ++ item :: post)%list ->
        Forall (resolves equipment) pre ->
        ~ resolves equipment item ->
        calculateCombinationCosts clk combination equipment
        = Throw ("Equipment " ++ CombinationItem.id item ++ " not found")).
Proof.
  split.
  - intros Hall. unfold calculateCombinationCosts.
    destruct (map_exc_all_ok (combinationItemCost clk equipment)
                (EquipmentCombination.equipment combination)) as [ys Hys].
    { eapply List.Forall_impl; [| exact Hall].
      intros item. apply combinationItemCost_resolves. }
    rewrite Hys. simpl. eexists; reflexivity.
  - intros pre item post Heq Hpre Hitem. unfold calculateCombinationCosts.
    rewrite Heq.
    rewrite (map_exc_first_throw (combinationItemCost clk equipment) pre item post
               ("Equipment " ++ CombinationItem.id item ++ " not found")).
    + reflexivity.
    + eapply List.Forall_impl; [| exact Hpre].
      intros i. apply combinationItemCost_resolves.
    + unfold combinationItemCost. unfold resolves in Hitem.
      destruct (findEquipment (CombinationItem.id item) equipment);
        [exfalso; apply Hitem; discriminate | reflexivity].
Qed.

Lemma calculateCombinationCosts_errors_witness :
  let combination :=
    sampleCombination [CombinationItem.mk "e1" 1; CombinationItem.mk "zz" 2;
                       CombinationItem.mk "yy" 1] in
  calculateCombinationCosts sampleClock combination [scenarioAsset]
  = Throw "Equipment zz not found".
Proof.
  intros combination.
  destruct (calculateCombinationCosts_errors sampleClock combination [scenarioAsset])
    as [_ Hthrow].
  apply (Hthrow [CombinationItem.mk "e1" 1] (CombinationItem.mk "zz" 2)
           [CombinationItem.mk "yy" 1]).
  - reflexivity.
  - constructor; [| constructor]. vm_compute. discriminate.
  - intros H. apply H. reflexivity.
Defined.

(** X9.  The details of the cost breakdown of a combination: there is one
    itemized entry per line item, in the order of the line items; the cost
    of an entry is the total of the costs of the line item's asset times
    the line item's quantity; and every entry is named [Unknown] with
    category [unknown], because the lookup compares asset ids with an [id]
    the entries do not have.  The personnel breakdown is at the monthly
    rate, and the consumables are those of
    [calculateCombinationConsumables]. *)
Theorem calculateCombinationCosts_itemized
    (clk : Clock) (combination : EquipmentCombination.t) (equipment : list Equipment.t)
    (r : CostBreakdown.t) :
  calculateCombinationCosts clk combination equipment = Ok r ->
  exists d,
    CostBreakdown.details r = Some d
    /\ Forall2 (fun item i =>
                  ItemizedCost.name i = "Unknown"
                  /\ ItemizedCost.category i = "unknown"
                  /\ exists e,
                       findEquipment (CombinationItem.id item) equipment = Some e
                       /\ ItemizedCost.cost i
                          = CostBreakdown.total (calculateEquipmentCosts clk e)
                            * CombinationItem.quantity item)
         (EquipmentCombination.equipment combination) (CostDetails.itemizedCosts d)
    /\ PersonnelBreakdown.costPerPerson (CostDetails.personnelBreakdown d)
       = PERSONNEL_COST_PER_MONTH
    /\ CostDetails.consumablesBreakdown d
       = calculateCombinationConsumables combination equipment.
Proof.
  unfold calculateCombinationCosts.
  destruct (map_exc (combinationItemCost clk equipment)
              (EquipmentCombination.equipment combination)) as [ys | msg] eqn:E;
    simpl; [| discriminate].
  intros H. injection H as <-. cbn [CostBreakdown.details].
  pose proof (map_exc_ok _ _ _ E) as Hys.
  eexists. split; [reflexivity |].
  cbn [CostDetails.personnelBreakdown PersonnelBreakdown.costPerPerson
       CostDetails.itemizedCosts CostDetails.consumablesBreakdown].
  split; [| split; reflexivity].
  assert (Hf : find (fun _ : Equipment.t => false) equipment = None).
  { clear. induction equipment as [| e l IH]; simpl; [reflexivity | exact IH]. }
  clear E. induction Hys as [| item y items ys Hy _ IH]; cbn [map]; constructor;
    [| exact IH].
  cbv beta zeta.
  change (fun e : Equipment.t => idEquals (Equipment.id e) None)
    with (fun _ : Equipment.t => false).
  rewrite Hf. split; [reflexivity |]. split; [reflexivity |].
  unfold combinationItemCost in Hy.
  destruct (findEquipment (CombinationItem.id item) equipment) as [e |];
    [| discriminate].
  injection Hy as <-. exists e. split; reflexivity.
Qed.

Lemma calculateCombinationCosts_itemized_witness :
  let combination :=
    sampleCombination [CombinationItem.mk "e1" 2; CombinationItem.mk "e1" 1] in
  exists r d,
    calculateCombinationCosts sampleClock combination [scenarioAsset] = Ok r
    /\ CostBreakdown.details r = Some d
    /\ map ItemizedCost.name (CostDetails.itemizedCosts d) = ["Unknown"; "Unknown"].
Proof.
  intros combination.
  destruct (calculateCombinationCosts sampleClock combination [scenarioAsset])
    as [r | msg] eqn:E; [| vm_compute in E; discriminate].
  destruct (calculateCombinationCosts_itemized sampleClock combination
              [scenarioAsset] r E) as (d & Hd & Hitems & _).
  exists r, d. split; [reflexivity |]. split; [exact Hd |].
  inversion Hitems as [| i1 y1 l1 ys1 (Hn1 & _) Hrest1 Ei1 Ey1]; subst.
  inversion Hrest1 as [| i2 y2 l2 ys2 (Hn2 & _) Hrest2 Ei2 Ey2]; subst.
  inversion Hrest2; subst.
  cbn [map]. rewrite Hn1, Hn2. reflexivity.
Defined.

(** ** Consumables of a combination *)

Lemma units_get_in m id : units_get m id <> None <-> In id (map fst m).
Proof.
  induction m as [| [k v] m IH]; simpl.
  - split; [congruence | tauto].
  - destruct (String.eqb k id) eqn:E.
    + apply String.eqb_eq in E. split; [auto | discriminate].
    + apply String.eqb_neq in E. rewrite IH. split; [auto | intros [H | H]; congruence].
Qed.

Lemma units_add_keys m id units : map fst (units_add m id units) = map fst m.
Proof.
  induction m as [| [k [u c]] m IH]; simpl; [reflexivity |].
  destruct (String.eqb k id); simpl; [reflexivity | rewrite IH; reflexivity].
Qed.

Lemma units_of_add m id units id' :
  units_get m id <> None ->
  units_of (units_add m id units) id'
  == units_of m id' + (if String.eqb id id' then units else 0).
Proof.
  unfold units_of. induction m as [| [k [u c]] m IH]; simpl; [congruence |].
  intros Hin. destruct (String.eqb k id) eqn:E; simpl.
  - apply String.eqb_eq in E. subst k.
    destruct (String.eqb id id'); ring.
  - destruct (String.eqb k id') eqn:E'.
    + apply String.eqb_eq in E'. subst k.
      rewrite (String.eqb_sym id id'), E. ring.
    + apply IH, Hin.
Qed.

Lemma units_of_app_new m id v id' :
  units_get m id = None ->
  units_of (m ++ [(id, v)])%list id'
  == units_of m id' + (if String.eqb id id' then fst v else 0).
Proof.
  unfold units_of. induction m as [| [k [u c]] m IH]; simpl.
  - intros _. destruct v as [u c]. destruct (String.eqb id id'); simpl; ring.
  - destruct (String.eqb k id) eqn:E; [discriminate |].
    intros Hn. destruct (String.eqb k id') eqn:E'.
    + apply String.eqb_eq in E'. subst k.
      rewrite (String.eqb_sym id id'), E. ring.
    + apply IH, Hn.
Qed.

Lemma units_add_costs m id units :
  Forall (fun kv : string * (Q * Q) => snd (snd kv) = CONSUMABLE_BASE_COST) m ->
  Forall (fun kv : string * (Q * Q) => snd (snd kv) = CONSUMABLE_BASE_COST)
    (units_add m id units).
Proof.
  induction 1 as [| [k [u c]] m H Hm IH]; simpl; [constructor |].
  destruct (String.eqb k id); constructor; auto.
Qed.

Lemma NoDup_snoc {A} (l : list A) x :
  List.NoDup l -> ~ In x l -> List.NoDup (l ++ [x]).
Proof.
  induction 1 as [| y l Hy Hl IH]; simpl; intros Hx.
  - constructor; [intros [] | constructor].
  - constructor.
    + rewrite in_app_iff. simpl. intros [H | [H | []]]; [auto |].
      apply Hx. left. symmetry. exact H.
    + apply IH. intros H. apply Hx. right. exact H.
Qed.

Lemma consumableUnitsStep_spec q m c :
  unitsWellFormed m ->
  let m' := consumableUnitsStep q m c in
  unitsWellFormed m'
  /\ (forall id, units_of m' id
                 == units_of m id
                    + (if String.eqb (ConsumableLink.id c) id
                       then ConsumableLink.unitsPerUse c * q else 0))
  /\ (forall id, In id (map fst m')
                 <-> In id (map fst m) \/ id = ConsumableLink.id c).
Proof.
  intros [Hnd Hc]. unfold consumableUnitsStep.
  destruct (units_get m (ConsumableLink.id c)) as [v |] eqn:E; cbv zeta.
  - assert (Hin : units_get m (ConsumableLink.id c) <> None) by congruence.
    split; [| split].
    + split; [rewrite units_add_keys; exact Hnd | apply units_add_costs, Hc].
    + intros id. apply units_of_add, Hin.
    + intros id. rewrite units_add_keys. split; [auto |].
      intros [H | ->]; [exact H | apply units_get_in, Hin].
  - split; [| split].
    + split.
      * rewrite map_app. simpl. apply NoDup_snoc; [exact Hnd |].
        intros Hx. apply units_get_in in Hx. congruence.
      * apply Forall_app. split; [exact Hc | constructor; [reflexivity | constructor]].
    + intros id. apply (units_of_app_new m _ (_, _) id E).
    + intros id. rewrite map_app, in_app_iff. simpl. split.
      * intros [H | [<- | []]]; auto.
      * intros [H | ->]; auto.
Qed.

Lemma linksFold_spec q links :
  forall m,
    unitsWellFormed m ->
    let m' := fold_left (consumableUnitsStep q) links m in
    unitsWellFormed m'
    /\ (forall id,
          units_of m' id
          == units_of m id
             + sumQ (map (fun c => ConsumableLink.unitsPerUse c * q)
                       (List.filter (fun c => String.eqb (ConsumableLink.id c) id) links)))
    /\ (forall id, In id (map fst m')
                   <-> In id (map fst m) \/ In id (map ConsumableLink.id links)).
Proof.
  induction links as [| c links IH]; intros m Hwf; simpl.
  - split; [exact Hwf |]. split; [intros id; ring | intros id; tauto].
  - destruct (consumableUnitsStep_spec q m c Hwf) as (Hwf1 & Hu1 & Hk1).
    destruct (IH _ Hwf1) as (Hwf2 & Hu2 & Hk2). cbv zeta in *.
    split; [exact Hwf2 |]. split.
    + intros id. rewrite Hu2, Hu1.
      destruct (String.eqb (ConsumableLink.id c) id); simpl; ring.
    + intros id. rewrite Hk2, Hk1. intuition auto.
Qed.

Lemma itemsFold_spec equipment items :
  forall m,
    unitsWellFormed m ->
    let m' :=
      fold_left
        (fun m item =>
           match findEquipment (CombinationItem.id item) equipment with
           | None => m
           | Some equipmentItem =>
               fold_left (consumableUnitsStep (CombinationItem.quantity item))
                 (Equipment.consumables equipmentItem) m
           end) items m in
    unitsWellFormed m'
    /\ (forall id, units_of m' id == units_of m id + requiredUnits id equipment items)
    /\ (forall id,
          In id (map fst m')
          <-> In id (map fst m)
              \/ exists item e link,
                   In item items
                   /\ findEquipment (CombinationItem.id item) equipment = Some e
                   /\ In link (Equipment.consumables e)
                   /\ ConsumableLink.id link = id).
Proof.
  induction items as [| item items IH]; intros m Hwf; simpl.
  - split; [exact Hwf |]. split.
    + intros id. unfold requiredUnits. simpl. ring.
    + intros id. split; [auto |]. intros [H | (i & _ & _ & [] & _)]. exact H.
  - destruct (findEquipment (CombinationItem.id item) equipment) as [e |] eqn:Ef.
    + destruct (linksFold_spec (CombinationItem.quantity item)
                  (Equipment.consumables e) m Hwf) as (Hwf1 & Hu1 & Hk1).
      destruct (IH _ Hwf1) as (Hwf2 & Hu2 & Hk2). cbv zeta in *.
      split; [exact Hwf2 |]. split.
      * intros id. rewrite Hu2, Hu1. unfold requiredUnits. simpl. rewrite Ef. ring.
      * intros id. rewrite Hk2, Hk1. split.
        -- intros [[H | H] | (i & e' & l & Hi & He & Hl & Hid)].
           ++ left. exact H.
           ++ right. apply in_map_iff in H. destruct H as (l & Hid & Hl).
              exists item, e, l. auto.
           ++ right. exists i, e', l. auto.
        -- intros [H | (i & e' & l & [<- | Hi] & He & Hl & Hid)].
           ++ auto.
           ++ left. right. rewrite Ef in He. injection He as <-.
              apply in_map_iff. exists l. auto.
           ++ right. exists i, e', l. auto.
    + destruct (IH _ Hwf) as (Hwf2 & Hu2 & Hk2). cbv zeta in *.
      split; [exact Hwf2 |]. split.
      * intros id. rewrite Hu2. unfold requiredUnits. simpl. rewrite Ef. ring.
      * intros id. rewrite Hk2. split.
        -- intros [H | (i & e' & l & Hi & He & Hl & Hid)]; [auto |].
           right. exists i, e', l. auto.
        -- intros [H | (i & e' & l & [<- | Hi] & He & Hl & Hid)]; [auto | congruence |].
           right. exists i, e', l. auto.
Qed.

Lemma units_of_entry m k u c :
  List.NoDup (map fst m) -> In (k, (u, c)) m -> units_of m k = u.
Proof.
  unfold units_of. induction m as [| [k' [u' c']] m IH]; simpl; [tauto |].
  intros Hnd [H | H].
  - injection H as -> -> ->. rewrite String.eqb_refl. reflexivity.
  - inversion Hnd as [| ? ? Hnotin Hnd']; subst.
    destruct (String.eqb k' k) eqn:E; [| apply IH; assumption].
    apply String.eqb_eq in E. subst k'. exfalso. apply Hnotin.
    apply in_map_iff. exists (k, (u, c)). auto.
Qed.

(** X10.  The consumables of a combination are aggregated by id: each
    consumable id linked from a resolved line item appears exactly once,
    with the sum over those items of units per use times quantity, at the
    base cost of 100 per unit; a line item whose asset is unknown is
    skipped without an error. *)
Theorem calculateCombinationConsumables_aggregates
    (combination : EquipmentCombination.t) (equipment : list Equipment.t) :
  let items := EquipmentCombination.equipment combination in
  let r := calculateCombinationConsumables combination equipment in
  List.NoDup (map ConsumableCost.id r)
  /\ Forall (fun c => ConsumableCost.units c
                      == requiredUnits (ConsumableCost.id c) equipment items
                      /\ ConsumableCost.costPerUnit c = CONSUMABLE_BASE_COST
                      /\ ConsumableCost.totalCost c
                         = ConsumableCost.units c * ConsumableCost.costPerUnit c) r
  /\ (forall id,
        In id (map ConsumableCost.id r)
        <-> exists item e link,
              In item items
              /\ findEquipment (CombinationItem.id item) equipment = Some e
              /\ In link (Equipment.consumables e)
              /\ ConsumableLink.id link = id).
Proof.
  intros items r.
  assert (Hwf0 : unitsWellFormed []) by (split; constructor).
  pose proof (itemsFold_spec equipment items [] Hwf0) as Hspec.
  change (let m' := combinationConsumableUnits combination equipment in
          unitsWellFormed m'
          /\ (forall id, units_of m' id == units_of [] id + requiredUnits id equipment items)
          /\ (forall id,
                In id (map fst m')
                <-> In id (map fst (@nil (string * (Q * Q))))
                    \/ exists item e link,
                         In item items
                         /\ findEquipment (CombinationItem.id item) equipment = Some e
                         /\ In link (Equipment.consumables e)
                         /\ ConsumableLink.id link = id)) in Hspec.
  set (m := combinationConsumableUnits combination equipment) in *.
  destruct Hspec as ((Hnd & Hc) & Hu & Hk).
  assert (Hids : map ConsumableCost.id r = map fst m).
  { unfold r, calculateCombinationConsumables. fold m. rewrite map_map.
    apply map_ext. intros [k [u c]]. reflexivity. }
  split; [rewrite Hids; exact Hnd |]. split.
  - unfold r, calculateCombinationConsumables. fold m.
    apply Forall_map. apply List.Forall_forall. intros [k [u c]] Hin.
    cbn [ConsumableCost.units ConsumableCost.id ConsumableCost.costPerUnit
         ConsumableCost.totalCost].
    split; [| split; [| reflexivity]].
    + rewrite <- (units_of_entry m k u c Hnd Hin).
      eapply Qeq_trans; [apply Hu |]. unfold units_of. simpl. ring.
    + exact (proj1 (List.Forall_forall _ _) Hc _ Hin).
  - intros id. rewrite Hids, Hk. simpl. tauto.
Qed.

Lemma calculateCombinationConsumables_aggregates_witness :
  let withLinks (id : string) (links : list ConsumableLink.t) :=
    Equipment.mk id platform "Platform A" "" "" "" 1000 5 0 links
      (sampleDegradation cycles 100 100 1) 2 "2024-01-01T00:00:00.000Z" None [] [] in
  let equipment := [withLinks "e1" [ConsumableLink.mk "helium" 2];
                    withLinks "e2" [ConsumableLink.mk "helium" 1;
                                    ConsumableLink.mk "fuel" 3]] in
  let combination :=
    sampleCombination [CombinationItem.mk "e1" 2; CombinationItem.mk "zz" 9;
                       CombinationItem.mk "e2" 1] in
  map (fun c => (ConsumableCost.id c, ConsumableCost.units c))
    (calculateCombinationConsumables combination equipment)
  = [("helium", 5); ("fuel", 3)]
  /\ In "helium" (map ConsumableCost.id
                    (calculateCombinationConsumables combination equipment)).
Proof.
  intros withLinks equipment combination.
  destruct (calculateCombinationConsumables_aggregates combination equipment)
    as (_ & _ & Hk).
  split; [reflexivity |].
  apply Hk. exists (CombinationItem.mk "e1" 2), (withLinks "e1" [ConsumableLink.mk "helium" 2]),
    (ConsumableLink.mk "helium" 2).
  repeat split; left; reflexivity.
Defined.

(** ** Cost projections *)

Lemma quarters_concat {A} (l : list A) :
  forall k, (length l <= 3 * k)%nat ->
            concat (map (fun index => firstn 3 (skipn (index * 3) l)) (seq 0 k)) = l.
Proof.
  intros k. revert l. induction k as [| k IH]; intros l Hlen.
  - destruct l; [reflexivity | simpl in Hlen; lia].
  - cbn [seq map concat]. rewrite <- seq_shift, map_map.
    change (skipn (0 * 3) l) with l.
    transitivity (firstn 3 l ++ skipn 3 l)%list; [| apply firstn_skipn].
    f_equal.
    etransitivity; [| apply (IH (skipn 3 l)); rewrite length_skipn; lia].
    f_equal. apply map_ext. intros i. rewrite skipn_skipn.
    replace (i * 3 + 3)%nat with (S i * 3)%nat by lia. reflexivity.
Qed.

(** X11.  The shape of a projection: there are [months] monthly breakdowns,
    the one of month [i] dated [i] months from now; there is one quarterly
    breakdown for every started quarter, the aggregate of the quarter's
    months; the quarters are consecutive runs of at most three months that
    together are all the months, each once; and the yearly breakdown is
    the aggregate of all the months. *)
Theorem projectCosts_shape
    (clk : Clock) (equipment : list Equipment.t) (months : nat) :
  let p := projectCosts clk equipment months in
  let quarters :=
    map (fun index => firstn 3 (skipn (index * 3) (ProjectedCosts.monthly p)))
      (seq 0 ((months + 2) / 3)) in
  length (ProjectedCosts.monthly p) = months
  /\ ProjectedCosts.monthly p = map Projection.costs (ProjectedCosts.projections p)
  /\ map Projection.date (ProjectedCosts.projections p)
     = map (isoAfterMonths clk) (seq 0 months)
  /\ length (ProjectedCosts.quarterly p) = ((months + 2) / 3)%nat
  /\ ProjectedCosts.quarterly p = map aggregateCosts quarters
  /\ concat quarters = ProjectedCosts.monthly p
  /\ Forall (fun quarter => (length quarter <= 3)%nat) quarters
  /\ ProjectedCosts.yearly p = aggregateCosts (ProjectedCosts.monthly p).
Proof.
  intros p quarters. unfold quarters, p, projectCosts.
  cbn [ProjectedCosts.monthly ProjectedCosts.quarterly ProjectedCosts.yearly
       ProjectedCosts.projections].
  set (ms := map (monthlyProjection clk equipment) (seq 0 months)).
  assert (Hlen : length ms = months)
    by (unfold ms; rewrite length_map, length_seq; reflexivity).
  split; [rewrite length_map; exact Hlen |].
  split; [reflexivity |].
  split; [unfold ms; rewrite map_map; reflexivity |].
  split; [rewrite length_map, length_seq; reflexivity |].
  split.
  { rewrite map_map. apply map_ext. intros index.
    rewrite skipn_map, firstn_map. reflexivity. }
  split.
  { apply quarters_concat. rewrite length_map, Hlen.
    pose proof (Nat.div_mod_eq (months + 2) 3) as Hd.
    pose proof (Nat.mod_upper_bound (months + 2) 3) as Hm. lia. }
  split; [| reflexivity].
  apply Forall_map. apply List.Forall_forall. intros index _.
  rewrite length_firstn. lia.
Qed.

Lemma monthlyStep_fixed clk i j equipment :
  forall acc acc',
    CostBreakdown.acquisition acc = CostBreakdown.acquisition acc' ->
    CostBreakdown.personnel acc = CostBreakdown.personnel acc' ->
    CostBreakdown.consumables acc = CostBreakdown.consumables acc' ->
    let r := fold_left (monthlyStep clk i) equipment acc in
    let r' := fold_left (monthlyStep clk j) equipment acc' in
    CostBreakdown.acquisition r = CostBreakdown.acquisition r'
    /\ CostBreakdown.personnel r = CostBreakdown.personnel r'
    /\ CostBreakdown.consumables r = CostBreakdown.consumables r'.
Proof.
  induction equipment as [| e l IH]; intros acc acc' Ha Hp Hc.
  - cbn [fold_left]. cbv zeta. repeat split; assumption.
  - cbn [fold_left]. apply IH; unfold monthlyStep;
      cbn [CostBreakdown.acquisition CostBreakdown.personnel CostBreakdown.consumables];
      congruence.
Qed.

(** X12.  The acquisition, personnel and consumables components of a
    monthly breakdown are the same in every month of a projection: the
    index of the month enters a breakdown through the degradation factor
    only, which these three components do not use. *)
Theorem projectCosts_fixed_components
    (clk : Clock) (equipment : list Equipment.t) (i j : nat) :
  let m := Projection.costs (monthlyProjection clk equipment i) in
  let m' := Projection.costs (monthlyProjection clk equipment j) in
  CostBreakdown.acquisition m = CostBreakdown.acquisition m'
  /\ CostBreakdown.personnel m = CostBreakdown.personnel m'
  /\ CostBreakdown.consumables m = CostBreakdown.consumables m'.
Proof.
  intros m m'. subst m m'. unfold monthlyProjection.
  cbn [Projection.costs]. unfold CostBreakdown.set_total.
  cbn [CostBreakdown.acquisition CostBreakdown.personnel CostBreakdown.consumables].
  apply monthlyStep_fixed; reflexivity.
Qed.

Lemma degradationFactor_currentValue clk item index :
  0 <= DegradationParams.currentValue (Equipment.degradation item) ->
  degradationFactor clk item index
  == Math_max 0 (DegradationParams.currentValue (Equipment.degradation item)
                 - calculateDegradationRate item
                     (Usage.mk None None (Some (30 * inject_Z (Z.of_nat index)))))
     / DegradationParams.maxValue (Equipment.degradation item).
Proof.
  intros Hcv. unfold degradationFactor.
  pose proof (calculateDegradation_frame clk item
                (Usage.mk None None (Some (30 * inject_Z (Z.of_nat index)))))
    as (_ & Hm & _). cbv zeta in Hm. rewrite Hm.
  rewrite (calculateDegradation_currentValue clk item _ Hcv). reflexivity.
Qed.

Lemma Math_max_zero_mono x y : x <= y -> Math_max 0 x <= Math_max 0 y.
Proof.
  intros H.
  destruct (Math_max_cases 0 x) as [[? ->] | [? ->]];
    destruct (Math_max_cases 0 y) as [[? ->] | [? ->]]; lra.
Qed.

(** X13.  Over the months of a projection a valid asset only loses
    health: its degradation factor stays between 0 and 1 and never
    increases from one month to the next, so what it adds to the
    operational cost never increases and what it adds to the maintenance
    cost never decreases. *)
Theorem projectCosts_monotone
    (clk : Clock) (item : Equipment.t) (index : nat) (total : CostBreakdown.t) :
  degradationValid (Equipment.degradation item) ->
  0 <= Equipment.acquisitionCost item ->
  let f := degradationFactor clk item in
  0 <= f (S index)
  /\ f (S index) <= f index
  /\ f index <= 1
  /\ CostBreakdown.operational (monthlyStep clk (S index) total item)
     <= CostBreakdown.operational (monthlyStep clk index total item)
  /\ CostBreakdown.maintenance (monthlyStep clk index total item)
     <= CostBreakdown.maintenance (monthlyStep clk (S index) total item).
Proof.
  intros Hv Hacq f. pose proof Hv as (Hmax & Hcv & Hle & Hrate).
  assert (Hamt : forall i,
             0 <= calculateDegradationRate item
                    (Usage.mk None None (Some (30 * inject_Z (Z.of_nat i))))).
  { intros i. unfold calculateDegradationRate.
    destruct (DegradationParams.type (Equipment.degradation item));
      cbn [Usage.cycles Usage.hours Usage.days or_default];
      try (apply Qmult_le_0_compat; lra).
    pose proof (or_default_some (30 * inject_Z (Z.of_nat i))) as Hs.
    apply Qmult_le_0_compat; [| lra]. rewrite Hs.
    apply Qmult_le_0_compat; [lra |]. change 0 with (inject_Z 0).
    rewrite <- Zle_Qle. lia. }
  assert (Hmono : calculateDegradationRate item
                    (Usage.mk None None (Some (30 * inject_Z (Z.of_nat index))))
                  <= calculateDegradationRate item
                       (Usage.mk None None (Some (30 * inject_Z (Z.of_nat (S index)))))).
  { unfold calculateDegradationRate.
    destruct (DegradationParams.type (Equipment.degradation item));
      cbn [Usage.cycles Usage.hours Usage.days]; try lra.
    rewrite !or_default_some. apply Qmult_le_compat_r; [| lra].
    apply Qmult_le_l; [lra |]. rewrite <- Zle_Qle. lia. }
  assert (Hf : forall i, 0 <= f i /\ f i <= 1).
  { intros i. unfold f. rewrite (degradationFactor_currentValue clk item i Hcv).
    specialize (Hamt i).
    destruct (Math_max_cases 0
                (DegradationParams.currentValue (Equipment.degradation item)
                 - calculateDegradationRate item
                     (Usage.mk None None (Some (30 * inject_Z (Z.of_nat i))))))
      as [[? ->] | [? ->]]; split;
      first [apply Qle_shift_div_l; [exact Hmax | lra]
            | apply Qle_shift_div_r; [exact Hmax | lra]]. }
  assert (Hdec : f (S index) <= f index).
  { unfold f. rewrite !(degradationFactor_currentValue clk item _ Hcv).
    apply Qmult_le_compat_r; [| apply Qinv_le_0_compat; lra].
    apply Math_max_zero_mono. lra. }
  destruct (Hf index) as [_ H1]. destruct (Hf (S index)) as [H0 _].
  split; [exact H0 |]. split; [exact Hdec |]. split; [exact H1 |].
  unfold monthlyStep. cbn [CostBreakdown.operational CostBreakdown.maintenance].
  fold (f index) (f (S index)).
  assert (Hop : 0 <= CostBreakdown.operational (calculateEquipmentCosts clk item)).
  { simpl. unfold calculateOperationalCost.
    destruct (HealthStatus.status (getHealthStatus item));
      apply Qmult_le_0_compat; lra. }
  assert (Hmt : 0 <= CostBreakdown.maintenance (calculateEquipmentCosts clk item)).
  { pose proof (calculateMaintenanceCosts_monthly_lower clk item Hv Hacq) as Hlo. cbn [calculateEquipmentCosts CostBreakdown.maintenance]. lra. }
  set (op := CostBreakdown.operational (calculateEquipmentCosts clk item)) in *.
  set (mt := CostBreakdown.maintenance (calculateEquipmentCosts clk item)) in *.
  clearbody op mt.
  assert (H2 : 0 <= op * (f index - f (S index))) by (apply Qmult_le_0_compat; lra).
  assert (H3 : 0 <= mt * (f index - f (S index))) by (apply Qmult_le_0_compat; lra).
  split; lra.
Qed.

Lemma projectCosts_monotone_witness :
  let item := sampleEquipment "e2" 5 0 (sampleDegradation time 100 80 1) in
  degradationFactor sampleClock item 3 == 0
  /\ degradationFactor sampleClock item 3 <= degradationFactor sampleClock item 2.
Proof.
  intros item.
  assert (Hv : degradationValid (Equipment.degradation item))
    by (repeat split; vm_compute; congruence).
  assert (Ha : 0 <= Equipment.acquisitionCost item) by (vm_compute; congruence).
  destruct (projectCosts_monotone sampleClock item 2 CostBreakdown.zero Hv Ha)
    as (_ & H & _).
  split; [vm_compute; reflexivity | exact H].
Defined.

(** ** The inventory report *)

Lemma reportEquipmentStep_app alerts entries eq :
  reportEquipmentStep (alerts, entries) eq
  = ((alerts ++ fst (reportEquipmentStep ([], []) eq))%list,
     (entries ++ snd (reportEquipmentStep ([], []) eq))%list).
Proof.
  unfold reportEquipmentStep.
  destruct (Qltb _ 2), (HealthStatus.needsMaintenance _); cbn [fst snd app];
    rewrite <- ?app_assoc, ?app_nil_r; reflexivity.
Qed.

Lemma reportEquipment_fold eqs :
  forall alerts entries,
    fold_left reportEquipmentStep eqs (alerts, entries)
    = ((alerts ++ flat_map (fun eq => fst (reportEquipmentStep ([], []) eq)) eqs)%list,
       (entries ++ flat_map (fun eq => snd (reportEquipmentStep ([], []) eq)) eqs)%list).
Proof.
  induction eqs as [| eq eqs IH]; intros alerts entries; cbn [fold_left flat_map].
  - rewrite !app_nil_r. reflexivity.
  - rewrite reportEquipmentStep_app, IH, <- !app_assoc. reflexivity.
Qed.

Lemma reportConsumableStep_app equipment alerts entries c :
  reportConsumableStep equipment (alerts, entries) c
  = ((alerts ++ fst (reportConsumableStep equipment ([], []) c))%list,
     (entries ++ snd (reportConsumableStep equipment ([], []) c))%list).
Proof.
  unfold reportConsumableStep.
  destruct (Qleb _ _); cbn [fst snd app]; rewrite ?app_nil_r; reflexivity.
Qed.

Lemma reportConsumable_fold equipment cs :
  forall alerts entries,
    fold_left (reportConsumableStep equipment) cs (alerts, entries)
    = ((alerts ++ flat_map (fun c => fst (reportConsumableStep equipment ([], []) c)) cs)%list,
       (entries ++ flat_map (fun c => snd (reportConsumableStep equipment ([], []) c)) cs)%list).
Proof.
  induction cs as [| c cs IH]; intros alerts entries; cbn [fold_left flat_map].
  - rewrite !app_nil_r. reflexivity.
  - rewrite reportConsumableStep_app, IH, <- !app_assoc. reflexivity.
Qed.

Lemma generateInventoryReport_unfold clk equipment consumables :
  generateInventoryReport clk equipment consumables
  = InventoryReport.mk (nowISO clk)
      (flat_map (fun eq => snd (reportEquipmentStep ([], []) eq)) equipment)
      (flat_map (fun c => snd (reportConsumableStep equipment ([], []) c)) consumables)
      (flat_map (fun eq => fst (reportEquipmentStep ([], []) eq)) equipment
       ++ flat_map (fun c => fst (reportConsumableStep equipment ([], []) c)) consumables).
Proof.
  unfold generateInventoryReport.
  rewrite reportEquipment_fold. cbn [app].
  rewrite reportConsumable_fold. reflexivity.
Qed.

Lemma flat_map_singleton {A B} (g : A -> list B) (h : A -> B) l :
  (forall a, g a = [h a]) -> flat_map g l = map h l.
Proof.
  intros H. induction l as [| a l IH]; simpl; [reflexivity |].
  rewrite H, IH. reflexivity.
Qed.

Lemma reportEquipmentStep_entry eq :
  snd (reportEquipmentStep ([], []) eq)
  = [EquipmentEntry.mk eq (availableUnits eq) (Equipment.inUse eq)
       (InventoryStatus.maintenance (getInventoryStatus eq))
       (InventoryStatus.degradationStatus (getInventoryStatus eq))].
Proof.
  unfold reportEquipmentStep.
  destruct (Qltb _ 2), (HealthStatus.needsMaintenance _); reflexivity.
Qed.

Lemma reportConsumableStep_entry equipment c :
  snd (reportConsumableStep equipment ([], []) c)
  = [ConsumableEntry.mk c (Consumable.stockLevel c) 0
       (calculateProjectedConsumableUsage (Consumable.id c) equipment)].
Proof.
  unfold reportConsumableStep. destruct (Qleb _ _); reflexivity.
Qed.

(** The report lists the assets and the consumables it was given, in
    order, each with its own figures. *)
Lemma generateInventoryReport_entries clk equipment consumables :
  let r := generateInventoryReport clk equipment consumables in
  map EquipmentEntry.equipment (InventoryReport.equipment r) = equipment
  /\ map ConsumableEntry.consumable (InventoryReport.consumables r) = consumables
  /\ Forall (fun en => EquipmentEntry.available en
                       = availableUnits (EquipmentEntry.equipment en)
                       /\ EquipmentEntry.deployed en
                          = Equipment.inUse (EquipmentEntry.equipment en))
       (InventoryReport.equipment r)
  /\ Forall (fun en => ConsumableEntry.currentStock en
                       = Consumable.stockLevel (ConsumableEntry.consumable en)
                       /\ ConsumableEntry.projectedUsage en
                          = calculateProjectedConsumableUsage
                              (Consumable.id (ConsumableEntry.consumable en)) equipment)
       (InventoryReport.consumables r).
Proof.
  cbv zeta. rewrite generateInventoryReport_unfold.
  cbn [InventoryReport.equipment InventoryReport.consumables].
  rewrite (flat_map_singleton _ _ equipment reportEquipmentStep_entry).
  rewrite (flat_map_singleton _ _ consumables (reportConsumableStep_entry equipment)).
  rewrite !map_map. cbn [EquipmentEntry.equipment ConsumableEntry.consumable].
  rewrite !map_id. repeat split.
  - apply Forall_map. apply List.Forall_forall. intros e _. split; reflexivity.
  - apply Forall_map. apply List.Forall_forall. intros c _. split; reflexivity.
Qed.

Lemma countIf_app {A} (f : A -> bool) l1 l2 :
  countIf f (l1 ++ l2) = (countIf f l1 + countIf f l2)%nat.
Proof. unfold countIf. rewrite List.filter_app, length_app. reflexivity. Qed.

Lemma countIf_flat_map {A B} (f : B -> bool) (g : A -> list B) (p : A -> bool) l :
  (forall a, countIf f (g a) = if p a then 1%nat else 0%nat) ->
  countIf f (flat_map g l) = countIf p l.
Proof.
  intros H. induction l as [| a l IH]; simpl; [reflexivity |].
  rewrite countIf_app, IH, H. unfold countIf. simpl.
  destruct (p a); reflexivity.
Qed.

Lemma countIf_flat_map_zero {A B} (f : B -> bool) (g : A -> list B) l :
  (forall a, countIf f (g a) = 0%nat) -> countIf f (flat_map g l) = 0%nat.
Proof.
  intros H. induction l as [| a l IH]; simpl; [reflexivity |].
  rewrite countIf_app, IH, H. reflexivity.
Qed.

(** X14.  The alerts of an inventory report: there is one
    maintenance alert for each asset that needs maintenance, one low-stock
    alert for each asset with fewer than two available units and each
    consumable at or below its minimum stock, and never a replacement
    alert.  An alert of severity [high] means exactly zero available units,
    exactly zero stock, or critical health; no alert has severity [low]. *)
Theorem generateInventoryReport_alerts
    (clk : Clock) (equipment : list Equipment.t) (consumables : list Consumable.t) :
  let alerts := InventoryReport.alerts (generateInventoryReport clk equipment consumables) in
  countIf (isAlert maintenance_needed) alerts
  = countIf (fun eq => HealthStatus.needsMaintenance (getHealthStatus eq)) equipment
  /\ countIf (isAlert low_stock) alerts
     = (countIf (fun eq => Qltb (availableUnits eq) 2) equipment
        + countIf (fun c => Qleb (Consumable.stockLevel c) (Consumable.minimumStock c))
            consumables)%nat
  /\ countIf (isAlert replacement_needed) alerts = 0%nat
  /\ Forall (fun a =>
               Alert.severity a <> low
               /\ (Alert.severity a = high ->
                   (exists eq, In eq equipment /\ Alert.itemId a = Equipment.id eq
                               /\ ((Alert.type a = low_stock /\ availableUnits eq == 0)
                                   \/ (Alert.type a = maintenance_needed
                                       /\ HealthStatus.status (getHealthStatus eq)
                                          = critical)))
                   \/ (exists c, In c consumables /\ Alert.itemId a = Consumable.id c
                                 /\ Alert.type a = low_stock
                                 /\ Consumable.stockLevel c == 0)))
       alerts.
Proof.
  cbv zeta. rewrite generateInventoryReport_unfold. cbn [InventoryReport.alerts].
  split; [| split; [| split]].
  - rewrite countIf_app.
    rewrite (countIf_flat_map _ _
               (fun eq => HealthStatus.needsMaintenance (getHealthStatus eq))).
    + rewrite countIf_flat_map_zero; [lia |].
      intros c. unfold reportConsumableStep. destruct (Qleb _ _); reflexivity.
    + intros eq. unfold reportEquipmentStep. rewrite getInventoryStatus_available.
      destruct (Qltb _ 2), (HealthStatus.needsMaintenance _); reflexivity.
  - rewrite countIf_app. f_equal.
    + apply countIf_flat_map. intros eq. unfold reportEquipmentStep.
      rewrite getInventoryStatus_available.
      destruct (Qltb _ 2), (HealthStatus.needsMaintenance _); reflexivity.
    + apply countIf_flat_map. intros c. unfold reportConsumableStep.
      destruct (Qleb _ _); reflexivity.
  - rewrite countIf_app, !countIf_flat_map_zero; [reflexivity | |].
    + intros c. unfold reportConsumableStep. destruct (Qleb _ _); reflexivity.
    + intros eq. unfold reportEquipmentStep.
      destruct (Qltb _ 2), (HealthStatus.needsMaintenance _); reflexivity.
  - apply Forall_app. split.
    + apply Forall_flat_map. apply List.Forall_forall. intros eq Hin.
      unfold reportEquipmentStep. rewrite getInventoryStatus_available.
      assert (Hlow : Forall (fun a =>
                 Alert.severity a <> low
                 /\ (Alert.severity a = high ->
                     Alert.itemId a = Equipment.id eq
                     /\ ((Alert.type a = low_stock /\ availableUnits eq == 0)
                         \/ (Alert.type a = maintenance_needed
                             /\ HealthStatus.status (getHealthStatus eq) = critical))))
               (fst (let alerts : list Alert.t := [] in
                     (if Qltb (availableUnits eq) 2
                      then (alerts ++ [Alert.mk low_stock
                                         (if Qeq_bool (availableUnits eq) 0
                                          then high else medium)
                                         ("Low stock for " ++ Equipment.name eq)
                                         (Equipment.id eq)])%list
                      else alerts)
                     ++ (if HealthStatus.needsMaintenance (getHealthStatus eq)
                         then [Alert.mk maintenance_needed
                                 (match HealthStatus.status (getHealthStatus eq) with
                                  | critical => high
                                  | _ => medium
                                  end)
                                 ("Maintenance required for " ++ Equipment.name eq)
                                 (Equipment.id eq)]
                         else []), tt)%list)).
      { cbn [fst app]. apply Forall_app. split.
        - destruct (Qltb _ 2); [| constructor]. constructor; [| constructor].
          cbn [Alert.severity Alert.itemId Alert.type].
          destruct (Qeq_bool (availableUnits eq) 0) eqn:E.
          + apply Qeq_bool_eq in E. split; [discriminate | auto].
          + split; [discriminate | discriminate].
        - destruct (HealthStatus.needsMaintenance _); [| constructor].
          constructor; [| constructor].
          cbn [Alert.severity Alert.itemId Alert.type].
          destruct (HealthStatus.status (getHealthStatus eq)); split;
            try discriminate; auto. }
      cbn [fst app] in Hlow.
      destruct (Qltb (availableUnits eq) 2), (HealthStatus.needsMaintenance _);
        cbn [fst app] in *;
        (eapply List.Forall_impl; [| exact Hlow]);
        intros a [H1 H2]; (split; [exact H1 |]); intros Hh; left; exists eq;
        destruct (H2 Hh) as [Hid Hc]; auto.
    + apply Forall_flat_map. apply List.Forall_forall. intros c Hin.
      unfold reportConsumableStep.
      destruct (Qleb _ _); cbn [fst app]; [| constructor].
      constructor; [| constructor]. cbn [Alert.severity Alert.itemId Alert.type].
      destruct (Qeq_bool (Consumable.stockLevel c) 0) eqn:E.
      * apply Qeq_bool_eq in E. split; [discriminate |].
        intros _. right. exists c. auto.
      * split; discriminate.
Qed.

Lemma generateInventoryReport_alerts_witness :
  let worn := sampleEquipment "e1" 3 3 (sampleDegradation cycles 100 40 1) in
  let alerts := InventoryReport.alerts
                  (generateInventoryReport sampleClock [worn]
                     [sampleConsumable "c1" 0 10 20]) in
  availableUnits worn == -1
  /\ map (fun a => (Alert.type a, Alert.severity a, Alert.itemId a)) alerts
     = [(low_stock, medium, "e1"); (maintenance_needed, medium, "e1");
        (low_stock, high, "c1")]
  /\ Forall (fun a => Alert.severity a <> low) alerts.
Proof.
  intros worn alerts.
  destruct (generateInventoryReport_alerts sampleClock [worn]
              [sampleConsumable "c1" 0 10 20]) as (_ & _ & _ & H).
  split; [vm_compute; reflexivity |]. split; [reflexivity |].
  eapply List.Forall_impl; [| exact H]. intros a [Ha _]. exact Ha.
Defined.

(** ** Availability of a combination *)

Lemma availabilityStep_app equipment missing item :
  availabilityStep equipment missing item
  = (missing ++ availabilityStep equipment [] item)%list.
Proof.
  unfold availabilityStep. destruct (findEquipment _ _); [| reflexivity].
  cbv zeta. destruct (Qltb _ _); [reflexivity | rewrite app_nil_r; reflexivity].
Qed.

Lemma availability_fold equipment items :
  forall missing,
    fold_left (availabilityStep equipment) items missing
    = (missing ++ flat_map (availabilityStep equipment []) items)%list.
Proof.
  induction items as [| item items IH]; intros missing; cbn [fold_left flat_map].
  - rewrite app_nil_r. reflexivity.
  - rewrite availabilityStep_app, IH, <- app_assoc. reflexivity.
Qed.

Lemma availabilityStep_cases equipment item :
  (servable equipment item = true /\ availabilityStep equipment [] item = [])
  \/ (servable equipment item = false
      /\ exists m, availabilityStep equipment [] item = [m]
                   /\ MissingEquipment.id m = CombinationItem.id item
                   /\ MissingEquipment.required m = CombinationItem.quantity item).
Proof.
  unfold servable, availabilityStep.
  destruct (findEquipment _ _) as [e |].
  - rewrite getInventoryStatus_available. cbv zeta.
    destruct (Qltb (availableUnits e) (CombinationItem.quantity item)) eqn:E.
    + right. split; [| eexists; repeat split].
      apply Qltb_lt in E. apply Qleb_gt. exact E.
    + left. split; [| reflexivity]. apply Qltb_ge in E. apply Qleb_le. exact E.
  - right. split; [reflexivity | eexists; repeat split].
Qed.

(** X15.  [validateCombinationAvailability] reports a combination
    available exactly when every line item, taken on its own, names a
    known asset with at least the requested units available; the missing
    list then is empty, and otherwise it names the failing line items in
    order.  For an available combination the deployment of any single line
    item is accepted by [processEquipmentTransaction]. *)
Theorem validateCombinationAvailability_spec
    (clk : Clock) (combination : EquipmentCombination.t) (equipment : list Equipment.t) :
  let items := EquipmentCombination.equipment combination in
  let r := validateCombinationAvailability combination equipment in
  (Availability.available r = true
   <-> Forall (fun item => servable equipment item = true) items)
  /\ map MissingEquipment.id (Availability.missingEquipment r)
     = map CombinationItem.id
         (List.filter (fun item => negb (servable equipment item)) items)
  /\ (Availability.available r = true ->
      forall item tx,
        In item items ->
        InventoryTransaction.type tx = deployment ->
        InventoryTransaction.equipmentId tx = CombinationItem.id item ->
        InventoryTransaction.quantity tx = CombinationItem.quantity item ->
        EquipmentResult.success (processEquipmentTransaction clk tx equipment) = true).
Proof.
  intros items r. unfold r, validateCombinationAvailability.
  cbn [Availability.available Availability.missingEquipment].
  rewrite availability_fold. cbn [app]. fold items.
  assert (Hmissing : map MissingEquipment.id
                       (flat_map (availabilityStep equipment []) items)
                     = map CombinationItem.id
                         (List.filter (fun item => negb (servable equipment item)) items)).
  { induction items as [| item l IH]; [reflexivity |].
    cbn [flat_map List.filter]. rewrite map_app, IH.
    destruct (availabilityStep_cases equipment item)
      as [[-> ->] | [-> (m & -> & Hid & _)]]; simpl; [reflexivity |].
    rewrite Hid. reflexivity. }
  assert (Hiff : Nat.eqb (length (flat_map (availabilityStep equipment []) items)) 0 = true
                 <-> Forall (fun item => servable equipment item = true) items).
  { clear Hmissing. rewrite Nat.eqb_eq.
    induction items as [| item l IH]; cbn [flat_map].
    - split; [constructor | reflexivity].
    - rewrite length_app.
      destruct (availabilityStep_cases equipment item)
        as [[Hs ->] | [Hs (m & -> & _)]]; simpl.
      + split.
        * intros H. constructor; [exact Hs | apply IH; exact H].
        * intros H. inversion H; subst. apply IH. assumption.
      + split; [discriminate |]. intros H. inversion H; subst. congruence. }
  split; [exact Hiff |]. split; [exact Hmissing |].
  intros Hav item tx Hin Hty Hid Hq.
  apply Hiff in Hav.
  pose proof (proj1 (List.Forall_forall _ _) Hav item Hin) as Hs.
  unfold servable in Hs.
  destruct (findEquipment (CombinationItem.id item) equipment) as [e |] eqn:Ef;
    [| discriminate].
  apply Qleb_le in Hs.
  unfold processEquipmentTransaction. unfold findEquipment in Ef.
  rewrite Hid, Ef, Hty, getInventoryStatus_available, Hq.
  destruct (Qltb (availableUnits e) (CombinationItem.quantity item)) eqn:E;
    [| reflexivity].
  apply Qltb_lt in E. exfalso. lra.
Qed.

Lemma validateCombinationAvailability_spec_witness :
  let combination :=
    sampleCombination [CombinationItem.mk "e1" 3; CombinationItem.mk "e1" 3] in
  Availability.available (validateCombinationAvailability combination [scenarioAsset])
  = true
  /\ EquipmentResult.success
       (processEquipmentTransaction sampleClock (sampleTransaction deployment "e1" 3)
          [scenarioAsset]) = true.
Proof.
  intros combination.
  destruct (validateCombinationAvailability_spec sampleClock combination [scenarioAsset])
    as (_ & _ & H).
  split; [reflexivity |].
  apply (H eq_refl (CombinationItem.mk "e1" 3)); try reflexivity. left. reflexivity.
Defined.

(** ** Order and shape of the procurement needs *)

Lemma insert_by_front {A} (cmp : A -> A -> Q) x l :
  Forall (fun y => cmp x y <= 0) l -> insert_by cmp x l = x :: l.
Proof.
  destruct 1 as [| y l Hy _]; cbn [insert_by]; [reflexivity |].
  apply Qleb_le in Hy. rewrite Hy. reflexivity.
Qed.

Lemma insert_by_skip {A} (cmp : A -> A -> Q) x l1 l2 :
  Forall (fun y => 0 < cmp x y) l1 ->
  insert_by cmp x (l1 ++ l2) = (l1 ++ insert_by cmp x l2)%list.
Proof.
  induction 1 as [| y l Hy _ IH]; cbn [app insert_by]; [reflexivity |].
  apply Qleb_gt in Hy. rewrite Hy, IH. reflexivity.
Qed.

Lemma Forall_filter {A} (f : A -> bool) (P : A -> Prop) l :
  (forall x, f x = true -> P x) -> Forall P (List.filter f l).
Proof.
  intros H. apply List.Forall_forall. intros x Hx.
  apply filter_In in Hx. apply H, Hx.
Qed.

Lemma needHasPriority_iff p n :
  needHasPriority p n = true <-> ProcurementNeed.priority n = p.
Proof.
  unfold needHasPriority, hasPriority, needKey. cbn [snd].
  destruct (ProcurementNeed.priority n), p; split; congruence.
Qed.

Lemma needHasPriority_own n : needHasPriority (ProcurementNeed.priority n) n = true.
Proof. apply needHasPriority_iff. reflexivity. Qed.

Lemma needHasPriority_other p n :
  ProcurementNeed.priority n <> p -> needHasPriority p n = false.
Proof.
  intros H. apply not_true_is_false. intros E. apply needHasPriority_iff in E. auto.
Qed.

(** A stable sort on the priority rank lists the high needs, then the
    medium ones, then the low ones, each group in its original order. *)
Lemma sort_by_priority (l : list ProcurementNeed.t) :
  sort_by (fun a b => priorityOrder (ProcurementNeed.priority a)
                      - priorityOrder (ProcurementNeed.priority b)) l
  = (List.filter (needHasPriority high) l
     ++ List.filter (needHasPriority medium) l
     ++ List.filter (needHasPriority low) l)%list.
Proof.
  induction l as [| x l IH]; [reflexivity |].
  unfold sort_by in *. cbn [fold_right]. rewrite IH. clear IH. cbn [List.filter].
  assert (Hrank : forall p, Forall (fun y => ProcurementNeed.priority y = p)
                              (List.filter (needHasPriority p) l)).
  { intros p. apply Forall_filter. intros y. apply needHasPriority_iff. }
  pose proof (Hrank high) as Hh. pose proof (Hrank medium) as Hm.
  pose proof (Hrank low) as Hl. clear Hrank.
  destruct (ProcurementNeed.priority x) eqn:Hx;
    pose proof (needHasPriority_own x) as Hown; rewrite Hx in Hown; rewrite Hown;
    rewrite !needHasPriority_other by congruence.
  - cbn [app]. apply insert_by_front.
    apply List.Forall_forall. intros y _. rewrite Hx.
    destruct (ProcurementNeed.priority y); cbn; lra.
  - rewrite insert_by_skip.
    + f_equal. cbn [app]. apply insert_by_front.
      apply Forall_app. split;
        [eapply List.Forall_impl; [| exact Hm] | eapply List.Forall_impl; [| exact Hl]];
        intros y Hy; cbv beta; rewrite Hx, Hy; cbn; lra.
    + eapply List.Forall_impl; [| exact Hh].
      intros y Hy; cbv beta; rewrite Hx, Hy; cbn; lra.
  - rewrite app_assoc, insert_by_skip.
    + rewrite <- app_assoc. do 2 f_equal. apply insert_by_front.
      eapply List.Forall_impl; [| exact Hl].
      intros y Hy; cbv beta; rewrite Hx, Hy; cbn; lra.
    + apply Forall_app. split;
        [eapply List.Forall_impl; [| exact Hh] | eapply List.Forall_impl; [| exact Hm]];
        intros y Hy; cbv beta; rewrite Hx, Hy; cbn; lra.
Qed.

Lemma equipmentNeedStep_all_keys clk uuid (equipment : list Equipment.t) :
  forall needs,
    map needKey (fold_left (equipmentNeedStep clk uuid) equipment needs)
    = (map needKey needs
       ++ map (equipmentNeedKey clk) (List.filter (needsProcurement clk) equipment))%list.
Proof.
  induction equipment as [| e l IH]; intros needs; cbn [fold_left List.filter map].
  - rewrite app_nil_r. reflexivity.
  - rewrite IH. unfold equipmentNeedStep, needsProcurement.
    rewrite getInventoryStatus_available. cbv zeta.
    destruct (_ || _); [| reflexivity].
    rewrite map_app, <- app_assoc. reflexivity.
Qed.

Lemma filter_map_needKey p (l : list ProcurementNeed.t) :
  map needKey (List.filter (needHasPriority p) l)
  = List.filter (hasPriority p) (map needKey l).
Proof.
  induction l as [| n l IH]; cbn [List.filter map]; [reflexivity |].
  unfold needHasPriority at 1. destruct (hasPriority p (needKey n)); cbn [map];
    rewrite IH; reflexivity.
Qed.

Lemma raisedNeedKeys_never_low clk equipment consumables :
  List.filter (hasPriority low) (raisedNeedKeys clk equipment consumables) = [].
Proof.
  unfold raisedNeedKeys. rewrite List.filter_app.
  assert (H : forall A (f : A -> ItemType * string * Q * Priority) (l : list A),
             (forall a, hasPriority low (f a) = false) ->
             List.filter (hasPriority low) (map f l) = []).
  { intros A f l Hf. induction l as [| a l IH]; cbn [map List.filter]; [reflexivity |].
    rewrite Hf. exact IH. }
  rewrite !H; [reflexivity | |].
  - intros c. unfold consumableNeedKey, hasPriority. cbn [snd].
    destruct (Qleb _ _); reflexivity.
  - intros e. unfold equipmentNeedKey, hasPriority. cbn [snd].
    destruct (Qeq_bool _ _); reflexivity.
Qed.

Lemma generateProcurementNeeds_keys
    (clk : Clock) (randomUUID : nat -> string)
    (equipment : list Equipment.t) (consumables : list Consumable.t) :
  let raised := raisedNeedKeys clk equipment consumables in
  map needKey (generateProcurementNeeds clk randomUUID equipment consumables)
  = (List.filter (hasPriority high) raised ++ List.filter (hasPriority medium) raised)%list.
Proof.
  intros raised. unfold generateProcurementNeeds.
  rewrite sort_by_priority, !map_app, !filter_map_needKey.
  rewrite consumableNeedStep_keys, equipmentNeedStep_all_keys. cbn [map app].
  fold (raisedNeedKeys clk equipment consumables). fold raised.
  unfold raised. rewrite raisedNeedKeys_never_low, app_nil_r. reflexivity.
Qed.

(** X16.  The list [generateProcurementNeeds] returns holds, in this
    order, the needs of priority high and then those of priority medium,
    and no need of priority low.  Within each group the needs of assets
    precede those of consumables: at most one need for an asset, in the
    order of the assets, and one for each consumable whose stock is at or
    below the reorder point, in the order of the consumables. *)
Theorem generateProcurementNeeds_ordered
    (clk : Clock) (randomUUID : nat -> string)
    (equipment : list Equipment.t) (consumables : list Consumable.t)
    (needs : list ProcurementNeed.t) :
  Raising.generateProcurementNeeds clk randomUUID equipment consumables = Ok needs ->
  exists (chosen : Equipment.t -> bool) (assetKeys : list (ItemType * string * Q * Priority)),
    let raised :=
      (assetKeys
       ++ map consumableNeedKey
            (List.filter
               (fun c => Qleb (Consumable.stockLevel c) (Consumable.reorderPoint c))
               consumables))%list in
    map needKey needs
    = (List.filter (hasPriority high) raised
       ++ List.filter (hasPriority medium) raised)%list
    /\ map keyItemId assetKeys = map Equipment.id (List.filter chosen equipment)
    /\ Forall (fun k => isConsumableNeed k = false) assetKeys
    /\ Forall (fun n => ProcurementNeed.priority n <> low) needs.
Proof.
  rewrite generateProcurementNeeds_raises.
  destruct (forallb (replacementDated clk) equipment); [| discriminate].
  intros [= <-].
  exists (needsProcurement clk),
    (map (equipmentNeedKey clk) (List.filter (needsProcurement clk) equipment)).
  cbv zeta. split; [apply generateProcurementNeeds_keys |].
  split; [rewrite map_map; reflexivity |]. split.
  - apply List.Forall_forall. intros k Hk. apply in_map_iff in Hk.
    destruct Hk as (e & <- & _). reflexivity.
  - pose proof (generateProcurementNeeds_keys clk randomUUID equipment consumables) as H.
    cbv zeta in H.
    assert (Hk : Forall (fun k => snd k <> low)
                   (map needKey
                      (generateProcurementNeeds clk randomUUID equipment consumables))).
    { rewrite H. apply Forall_app. split; apply Forall_filter; intros k;
        unfold hasPriority; destruct (snd k); congruence. }
    apply List.Forall_forall. intros n Hn.
    apply (proj1 (List.Forall_forall _ _) Hk (needKey n)).
    apply in_map. exact Hn.
Qed.

Lemma generateProcurementNeeds_ordered_witness :
  let worn := sampleEquipment "e1" 3 3 (sampleDegradation cycles 100 40 1) in
  let equipment := [worn; scenarioAsset] in
  let consumables := [sampleConsumable "c1" 15 10 20; sampleConsumable "c2" 5 10 20] in
  exists needs,
    Raising.generateProcurementNeeds sampleClock (fun _ => "id") equipment consumables
    = Ok needs
    /\ map needKey needs
       = [(it_consumable, "c2", 35, high); (it_equipment, "e1", 3, medium);
          (it_consumable, "c1", 25, medium)]
    /\ Forall (fun n => ProcurementNeed.priority n <> low) needs.
Proof.
  intros worn equipment consumables. eexists. split; [reflexivity |].
  split; [vm_compute; reflexivity |].
  destruct (generateProcurementNeeds_ordered sampleClock (fun _ => "id")
              equipment consumables _ eq_refl) as (chosen & keys & _ & _ & _ & H).
  exact H.
Defined.

Lemma equipmentNeedStep_sound clk uuid equipment consumables needs eq :
  In eq equipment ->
  Forall (soundNeed equipment consumables) needs ->
  Forall (soundNeed equipment consumables) (equipmentNeedStep clk uuid needs eq).
Proof.
  intros Hin Hall. unfold equipmentNeedStep.
  rewrite getInventoryStatus_available. cbv zeta.
  destruct (Qltb (availableUnits eq) 2
            || (Replacement.daysUntilReplacement (predictReplacement clk eq) <? 30)%Z)
    eqn:E; [| exact Hall].
  apply Forall_app. split; [exact Hall |]. constructor; [| constructor].
  unfold soundNeed. cbn [ProcurementNeed.quantity ProcurementNeed.status].
  split; [| split; [reflexivity |]].
  - pose proof (Math_max_spec (2 - availableUnits eq) 0) as [H1 H2].
    destruct (Qltb (availableUnits eq) 2) eqn:Ea.
    + apply Qltb_lt in Ea.
      destruct (Replacement.daysUntilReplacement _ <? 30)%Z; lra.
    + cbn [orb] in E. rewrite E. lra.
  - left. split; [reflexivity |]. exists eq. repeat split. exact Hin.
Qed.

Lemma consumableNeedStep_sound clk uuid equipment consumables needs c :
  In c consumables ->
  0 < Consumable.reorderPoint c ->
  Forall (soundNeed equipment consumables) needs ->
  Forall (soundNeed equipment consumables) (consumableNeedStep clk uuid needs c).
Proof.
  intros Hin Hpos Hall. unfold consumableNeedStep.
  destruct (Qleb (Consumable.stockLevel c) (Consumable.reorderPoint c)) eqn:E;
    [| exact Hall].
  apply Qleb_le in E. cbv zeta.
  apply Forall_app. split; [exact Hall |]. constructor; [| constructor].
  unfold soundNeed. cbn [ProcurementNeed.quantity ProcurementNeed.status].
  split; [lra | split; [reflexivity |]].
  right. split; [reflexivity |]. exists c. repeat split. exact Hin.
Qed.

(** X17.  When every consumable has a positive reorder point, every need
    [generateProcurementNeeds] returns asks for a positive quantity, is
    pending, and names an item of the input: an asset, with the price of
    one unit as estimated cost whatever the quantity, or a consumable, with
    quantity times unit cost. *)
Theorem generateProcurementNeeds_sound
    (clk : Clock) (randomUUID : nat -> string)
    (equipment : list Equipment.t) (consumables : list Consumable.t) :
  Forall (fun c => 0 < Consumable.reorderPoint c) consumables ->
  Forall (soundNeed equipment consumables)
    (generateProcurementNeeds clk randomUUID equipment consumables).
Proof.
  intros Hpos. unfold generateProcurementNeeds.
  eapply Permutation_Forall; [symmetry; apply sort_by_perm |].
  apply (fold_left_invariant_in _ _ consumables); [| auto |].
  - intros needs c Hin. apply consumableNeedStep_sound; [exact Hin |].
    exact (proj1 (List.Forall_forall _ _) Hpos c Hin).
  - apply (fold_left_invariant_in _ _ equipment); [| auto | constructor].
    intros needs eq Hin. apply equipmentNeedStep_sound. exact Hin.
Qed.

Lemma generateProcurementNeeds_sound_witness :
  let worn := sampleEquipment "e1" 3 3 (sampleDegradation cycles 100 40 1) in
  let stock := sampleConsumable "c1" 5 10 20 in
  Forall (soundNeed [worn] [stock])
    (generateProcurementNeeds sampleClock (fun _ => "id") [worn] [stock])
  /\ map needKey (generateProcurementNeeds sampleClock (fun _ => "id") [worn] [stock])
     = [(it_consumable, "c1", 35, high); (it_equipment, "e1", 3, medium)].
Proof.
  intros worn stock. split; [| vm_compute; reflexivity].
  apply (generateProcurementNeeds_sound sampleClock (fun _ => "id") [worn] [stock]).
  constructor; [| constructor]. reflexivity.
Defined.

(** ** Consumable transactions *)

(** X18.  For a tracked consumable with non-negative stock and a
    transaction of non-negative quantity, [processConsumableTransaction]
    accepts a purchase always and a use or disposal exactly when the
    quantity does not exceed the stock.  A rejected transaction returns no
    consumable and logs nothing; an accepted one returns the consumable
    with only its stock level changed, by the quantity, and the new stock
    is again non-negative. *)
Theorem processConsumableTransaction_stock
    (tx : ConsumableTransaction.t) (consumables : list Consumable.t) (c : Consumable.t) :
  findConsumable (ConsumableTransaction.consumableId tx) consumables = Some c ->
  0 <= Consumable.stockLevel c ->
  0 <= ConsumableTransaction.quantity tx ->
  let q := ConsumableTransaction.quantity tx in
  let r := fst (processConsumableTransaction tx consumables) in
  (ConsumableResult.success r = true
   <-> ConsumableTransaction.type tx = purchase \/ q <= Consumable.stockLevel c)
  /\ (ConsumableResult.success r = false ->
      ConsumableResult.updatedConsumable r = None
      /\ snd (processConsumableTransaction tx consumables) = [])
  /\ (ConsumableResult.success r = true ->
      exists u,
        ConsumableResult.updatedConsumable r = Some u
        /\ u = Consumable.set_stockLevel c (Consumable.stockLevel u)
        /\ Consumable.stockLevel u
           == Consumable.stockLevel c
              + (match ConsumableTransaction.type tx with purchase => q | _ => - q end)
        /\ 0 <= Consumable.stockLevel u).
Proof.
  intros Hfind Hstock Hq q r. subst q r. unfold processConsumableTransaction.
  unfold findConsumable in Hfind. rewrite Hfind. cbv zeta.
  set (q := ConsumableTransaction.quantity tx) in *.
  destruct (ConsumableTransaction.type tx) eqn:Hty.
  - cbn [fst snd ConsumableResult.success ConsumableResult.updatedConsumable].
    split; [split; auto |]. split; [discriminate |]. intros _.
    eexists. split; [reflexivity |].
    cbn [Consumable.stockLevel Consumable.set_stockLevel]. repeat split; lra.
  - destruct (Qltb (Consumable.stockLevel c) q) eqn:E;
      cbn [fst snd ConsumableResult.success ConsumableResult.updatedConsumable].
    + apply Qltb_lt in E. split; [split; [discriminate |] |].
      * intros [H | H]; [discriminate | lra].
      * split; [auto | discriminate].
    + apply Qltb_ge in E. split; [split; auto |]. split; [discriminate |]. intros _.
      eexists. split; [reflexivity |].
      cbn [Consumable.stockLevel Consumable.set_stockLevel]. repeat split; lra.
  - destruct (Qltb (Consumable.stockLevel c) q) eqn:E;
      cbn [fst snd ConsumableResult.success ConsumableResult.updatedConsumable].
    + apply Qltb_lt in E. split; [split; [discriminate |] |].
      * intros [H | H]; [discriminate | lra].
      * split; [auto | discriminate].
    + apply Qltb_ge in E. split; [split; auto |]. split; [discriminate |]. intros _.
      eexists. split; [reflexivity |].
      cbn [Consumable.stockLevel Consumable.set_stockLevel]. repeat split; lra.
Qed.

Lemma processConsumableTransaction_stock_witness :
  let c := sampleConsumable "c1" 30 10 20 in
  let tx := sampleConsumableTransaction use "c1" 12 in
  ConsumableResult.success (fst (processConsumableTransaction tx [c])) = true
  /\ exists u,
       ConsumableResult.updatedConsumable (fst (processConsumableTransaction tx [c]))
       = Some u
       /\ Consumable.stockLevel u == 18.
Proof.
  intros c tx.
  destruct (processConsumableTransaction_stock tx [c] c) as (Hacc & _ & Hupd);
    [reflexivity | vm_compute; discriminate | vm_compute; discriminate |].
  assert (Hs : ConsumableResult.success (fst (processConsumableTransaction tx [c])) = true).
  { apply Hacc. right. vm_compute. discriminate. }
  split; [exact Hs |].
  destruct (Hupd Hs) as (u & Hu & _ & Hlevel & _).
  exists u. split; [exact Hu |].
  eapply Qeq_trans; [exact Hlevel |]. reflexivity.
Defined.

(** X19.  An accepted consumable transaction logs a reorder exactly when
    [generateProcurementNeeds], run on the updated consumable, raises a
    need for it, and the quantity the log suggests is the quantity of that
    need. *)
Theorem processConsumableTransaction_reorder
    (clk : Clock) (randomUUID : nat -> string)
    (tx : ConsumableTransaction.t) (consumables : list Consumable.t) (u : Consumable.t) :
  ConsumableResult.updatedConsumable (fst (processConsumableTransaction tx consumables))
  = Some u ->
  map (fun l => (ReorderLog.currentStock l, ReorderLog.suggestedOrderQuantity l))
    (snd (processConsumableTransaction tx consumables))
  = map (fun n => (Consumable.stockLevel u, ProcurementNeed.quantity n))
      (generateProcurementNeeds clk randomUUID [] [u]).
Proof.
  assert (Hneeds : forall v : Consumable.t,
             map (fun l => (ReorderLog.currentStock l, ReorderLog.suggestedOrderQuantity l))
               (if Qleb (Consumable.stockLevel v) (Consumable.reorderPoint v)
                then [triggerReorder v] else [])
             = map (fun n => (Consumable.stockLevel v, ProcurementNeed.quantity n))
                 (generateProcurementNeeds clk randomUUID [] [v])).
  { intros v. unfold generateProcurementNeeds. cbn [fold_left].
    unfold consumableNeedStep.
    destruct (Qleb (Consumable.stockLevel v) (Consumable.reorderPoint v));
      reflexivity. }
  unfold processConsumableTransaction.
  destruct (find _ consumables) as [c |]; [| discriminate]. cbv zeta.
  destruct (ConsumableTransaction.type tx);
    try destruct (Qltb (Consumable.stockLevel c) (ConsumableTransaction.quantity tx));
    cbn [fst snd ConsumableResult.updatedConsumable]; try discriminate;
    intros [= <-]; apply Hneeds.
Qed.

Lemma processConsumableTransaction_reorder_witness :
  let c := sampleConsumable "c1" 30 10 20 in
  let tx := sampleConsumableTransaction use "c1" 12 in
  map ReorderLog.suggestedOrderQuantity (snd (processConsumableTransaction tx [c]))
  = [22]
  /\ map (fun l => (ReorderLog.currentStock l, ReorderLog.suggestedOrderQuantity l))
       (snd (processConsumableTransaction tx [c]))
     = map (fun n => (18, ProcurementNeed.quantity n))
         (generateProcurementNeeds sampleClock (fun _ => "id") []
            [sampleConsumable "c1" 18 10 20]).
Proof.
  intros c tx. split; [vm_compute; reflexivity |].
  exact (processConsumableTransaction_reorder sampleClock (fun _ => "id") tx [c]
           (sampleConsumable "c1" 18 10 20) eq_refl).
Defined.

(** ** Equipment transactions *)

(** X20.  [processEquipmentTransaction] rejects a transaction exactly when
    no asset has its id, or it is a deployment of more than the available
    units, a return of more than the units in use, or a disposal of more
    than the owned quantity; an acquisition for a tracked asset is always
    accepted.  The result carries an updated asset exactly when it is
    accepted, and that asset has the id the transaction names. *)
Theorem processEquipmentTransaction_rejections
    (clk : Clock) (tx : InventoryTransaction.t) (equipment : list Equipment.t) :
  let q := InventoryTransaction.quantity tx in
  let r := processEquipmentTransaction clk tx equipment in
  (EquipmentResult.success r = false
   <-> match findEquipment (InventoryTransaction.equipmentId tx) equipment with
       | None => True
       | Some e =>
           match InventoryTransaction.type tx with
           | acquisition => False
           | deployment => availableUnits e < q
           | return_ => Equipment.inUse e < q
           | disposal => Equipment.quantity e < q
           end
       end)
  /\ match EquipmentResult.updatedEquipment r with
     | Some u => EquipmentResult.success r = true
                 /\ Equipment.id u = InventoryTransaction.equipmentId tx
     | None => EquipmentResult.success r = false
     end.
Proof.
  intros q r. subst q r. unfold processEquipmentTransaction, findEquipment.
  destruct (find _ equipment) as [e |] eqn:Hfind.
  - apply find_some in Hfind. destruct Hfind as [_ Hid]. apply String.eqb_eq in Hid.
    rewrite getInventoryStatus_available. cbv zeta.
    set (q := InventoryTransaction.quantity tx) in *.
    destruct (InventoryTransaction.type tx).
    + cbn. split; [split; [discriminate | contradiction] | auto].
    + destruct (Qltb (availableUnits e) q) eqn:E; cbn.
      * apply Qltb_lt in E. split; [split; auto | reflexivity].
      * apply Qltb_ge in E. split; [split; [discriminate | lra] | auto].
    + destruct (Qltb (Equipment.inUse e) q) eqn:E; cbn.
      * apply Qltb_lt in E. split; [split; auto | reflexivity].
      * apply Qltb_ge in E. split; [split; [discriminate | lra] | auto].
    + destruct (Qltb (Equipment.quantity e) q) eqn:E; cbn.
      * apply Qltb_lt in E. split; [split; auto | reflexivity].
      * apply Qltb_ge in E. split; [split; [discriminate | lra] | auto].
  - cbn. split; [split; auto | reflexivity].
Qed.

Lemma processEquipmentTransaction_rejections_witness :
  EquipmentResult.success
    (processEquipmentTransaction sampleClock (sampleTransaction acquisition "e1" (-7))
       [scenarioAsset]) = true
  /\ EquipmentResult.success
       (processEquipmentTransaction sampleClock (sampleTransaction return_ "e1" 50)
          [scenarioAsset]) = false.
Proof.
  split; [reflexivity |].
  apply (proj1 (processEquipmentTransaction_rejections sampleClock
                  (sampleTransaction return_ "e1" 50) [scenarioAsset])).
  vm_compute. reflexivity.
Defined.

(** ** The stores *)

Lemma find_replace_same {A} (key : A -> string) id (u : A) l c :
  key u = id ->
  find (fun x => String.eqb (key x) id) l = Some c ->
  find (fun x => String.eqb (key x) id)
    (map (fun x => if String.eqb (key x) id then u else x) l) = Some u.
Proof.
  intros Hu. induction l as [| x l IH]; cbn [find map]; [discriminate |].
  destruct (String.eqb (key x) id) eqn:E.
  - intros _. rewrite Hu, String.eqb_refl. reflexivity.
  - rewrite E. exact IH.
Qed.

Lemma find_replace_other {A} (key : A -> string) id id' (u : A) l :
  key u = id -> id' <> id ->
  find (fun x => String.eqb (key x) id')
    (map (fun x => if String.eqb (key x) id then u else x) l)
  = find (fun x => String.eqb (key x) id') l.
Proof.
  intros Hu Hne. induction l as [| x l IH]; cbn [find map]; [reflexivity |].
  destruct (String.eqb (key x) id) eqn:E.
  - apply String.eqb_eq in E.
    assert (E1 : String.eqb (key u) id' = false)
      by (apply String.eqb_neq; congruence).
    assert (E2 : String.eqb (key x) id' = false)
      by (apply String.eqb_neq; congruence).
    rewrite E1, E2. exact IH.
  - destruct (String.eqb (key x) id'); [reflexivity | exact IH].
Qed.

Lemma find_replace_none {A} (key : A -> string) id (u : A) l :
  find (fun x => String.eqb (key x) id) l = None ->
  map (fun x => if String.eqb (key x) id then u else x) l = l.
Proof.
  induction l as [| x l IH]; cbn [find map]; [reflexivity |].
  destruct (String.eqb (key x) id); [discriminate |].
  intros H. rewrite IH by exact H. reflexivity.
Qed.

Lemma Forall_replace {A} (P : A -> Prop) (f : A -> bool) (u : A) l :
  P u -> Forall P l -> Forall P (map (fun x => if f x then u else x) l).
Proof.
  intros Hu. induction 1 as [| x l Hx _ IH]; cbn [map]; constructor; [| exact IH].
  destruct (f x); assumption.
Qed.

(** X21.  [updateStock] never leaves a negative stock level, whatever the
    sign of the quantity, and never changes the equipment.  For an unknown
    id, or when the new level would be negative, it only stores the error
    message.  Otherwise the stock the store reports for the id has changed
    by the quantity and one transaction of that quantity is appended; the
    needs are then those [generateProcurementNeeds] returns for the new
    stock, with the error cleared, or, when that call throws, the needs as
    they were, with the error of the failed generation. *)
Theorem updateStock_outcome
    (clk : Clock) (randomUUID transactionUUID : nat -> string)
    (id : string) (quantity : Q) (type : StockChange) (w : Stores.t) :
  let w' := InventoryStore.updateStock clk randomUUID transactionUUID id quantity type w in
  let change := match type with increment => quantity | decrement => - quantity end in
  (stocksNonNegative (storedConsumables w) -> stocksNonNegative (storedConsumables w'))
  /\ storedEquipment w' = storedEquipment w
  /\ (findConsumable id (storedConsumables w) = None ->
      w' = InventoryStore.setError "Consumable not found" w)
  /\ (forall c,
        findConsumable id (storedConsumables w) = Some c ->
        Consumable.stockLevel c + change < 0 ->
        w' = InventoryStore.setError "Insufficient stock" w)
  /\ (forall c,
        findConsumable id (storedConsumables w) = Some c ->
        0 <= Consumable.stockLevel c + change ->
        InventoryStore.getConsumableStock id w'
        == InventoryStore.getConsumableStock id w + change
        /\ (exists t,
               storedTransactions w' = (storedTransactions w ++ [OfConsumable t])%list
               /\ ConsumableTransaction.consumableId t = id
               /\ ConsumableTransaction.quantity t = quantity
               /\ ConsumableTransaction.type t
                  = match type with increment => purchase | decrement => use end)
        /\ match Raising.generateProcurementNeeds clk randomUUID (storedEquipment w)
                   (storedConsumables w') with
           | Ok needs => storedNeeds w' = needs /\ storeError w' = None
           | Throw _ =>
               storedNeeds w' = storedNeeds w
               /\ storeError w' = Some "Failed to generate procurement needs"
           end).
Proof.
  intros w' change. subst w'.
  unfold InventoryStore.updateStock, InventoryStore.getConsumableStock,
    InventoryStore.refreshProcurementNeeds,
    storedConsumables, storedTransactions, storedNeeds, storedEquipment, storeError,
    findConsumable, stocksNonNegative.
  destruct w as [es s]. cbn [Stores.inventoryStore Stores.equipmentStore].
  destruct (find _ (InventoryState.consumables s)) as [c |] eqn:Hfind.
  - cbv zeta.
    set (newStock := match type with
                     | increment => Consumable.stockLevel c + quantity
                     | decrement => Consumable.stockLevel c - quantity
                     end).
    assert (Hnew : newStock == Consumable.stockLevel c + change)
      by (unfold newStock, change; destruct type; ring).
    destruct (Qltb newStock 0) eqn:E.
    + apply Qltb_lt in E. cbn.
      split; [auto |]. split; [reflexivity |]. split; [discriminate |].
      split; [reflexivity |]. intros c' [= <-] H. exfalso. lra.
    + apply Qltb_ge in E.
      cbn [Stores.inventoryStore Stores.equipmentStore Stores.set_inventoryStore
           InventoryState.consumables InventoryState.transactions
           InventoryState.procurementNeeds InventoryState.error].
      set (updated := map _ (InventoryState.consumables s)).
      assert (Hupdated : Forall (fun c => 0 <= Consumable.stockLevel c)
                           (InventoryState.consumables s) ->
                         Forall (fun c => 0 <= Consumable.stockLevel c) updated).
      { intros H. apply Forall_replace; [exact E | exact H]. }
      assert (Hstock : find (fun c => String.eqb (Consumable.id c) id) updated
                       = Some (Consumable.set_stockLevel c newStock)).
      { pose proof (find_some _ _ Hfind) as [_ Hid]. apply String.eqb_eq in Hid.
        exact (find_replace_same Consumable.id id
                 (Consumable.set_stockLevel c newStock) _ c Hid Hfind). }
      destruct (Raising.generateProcurementNeeds clk randomUUID
                  (EquipmentState.equipment es) updated) as [needs | msg] eqn:Eneeds;
        cbn [Stores.inventoryStore Stores.equipmentStore Stores.set_inventoryStore
             InventoryStore.setError InventoryState.set_error
             InventoryState.consumables InventoryState.transactions
             InventoryState.procurementNeeds InventoryState.error];
        fold updated; rewrite Eneeds;
        (split; [exact Hupdated |]); (split; [reflexivity |]);
        (split; [discriminate |]);
        (split; [intros c' [= <-] H; exfalso; lra |]);
        intros c' [= <-] _; rewrite Hstock;
        (split; [exact Hnew |]);
        (split; [eexists; split; [reflexivity |]; cbn; auto |]);
        split; reflexivity.
  - cbn. split; [auto |]. split; [reflexivity |]. split; [intros _; reflexivity |].
    split; intros c H; discriminate H.
Qed.

Lemma updateStock_outcome_witness :
  let w := sampleStores [farFutureAsset] [sampleConsumable "c1" 5 10 20] [] [] in
  let w' := InventoryStore.updateStock sampleClock (fun _ => "id") (fun _ => "tx")
              "c1" 3 decrement w in
  InventoryStore.getConsumableStock "c1" w' == 2
  /\ length (storedTransactions w') = 1%nat
  /\ storeError w' = Some "Failed to generate procurement needs"
  /\ stocksNonNegative (storedConsumables w').
Proof.
  intros w w'.
  destruct (updateStock_outcome sampleClock (fun _ => "id") (fun _ => "tx")
              "c1" 3 decrement w) as (Hkeep & _ & _ & _ & Hdone).
  destruct (Hdone (sampleConsumable "c1" 5 10 20) eq_refl) as (Hstock & _ & _).
  { vm_compute. discriminate. }
  split; [eapply Qeq_trans; [exact Hstock | reflexivity] |].
  split; [reflexivity |]. split; [reflexivity |].
  apply Hkeep. constructor; [| constructor]. vm_compute. discriminate.
Defined.

(** X22.  [removeConsumable] removes the consumable and the needs that
    name it.  From the transaction history it removes the transactions of
    that consumable and, with them, every equipment transaction: only
    consumable transactions of other consumables remain. *)
Theorem removeConsumable_history (id : string) (w : Stores.t) :
  let w' := InventoryStore.removeConsumable id w in
  (forall t, ~ In (OfEquipment t) (storedTransactions w'))
  /\ (forall t, In (OfConsumable t) (storedTransactions w')
                <-> In (OfConsumable t) (storedTransactions w)
                    /\ ConsumableTransaction.consumableId t <> id)
  /\ findConsumable id (storedConsumables w') = None
  /\ (forall c, In c (storedConsumables w')
                <-> In c (storedConsumables w) /\ Consumable.id c <> id)
  /\ Forall (fun n => ProcurementNeed.itemId n <> id) (storedNeeds w')
  /\ storedEquipment w' = storedEquipment w.
Proof.
  intros w'. subst w'.
  unfold InventoryStore.removeConsumable, storedTransactions, storedConsumables,
    storedNeeds, storedEquipment, findConsumable.
  cbn [Stores.inventoryStore Stores.set_inventoryStore Stores.equipmentStore
       InventoryState.transactions InventoryState.consumables
       InventoryState.procurementNeeds].
  repeat split.
  - intros t H. apply filter_In in H. destruct H as [_ H]. discriminate.
  - apply filter_In in H. apply H.
  - apply filter_In in H. destruct H as [_ H].
    apply negb_true_iff, String.eqb_neq in H. exact H.
  - intros [H1 H2]. apply filter_In. split; [exact H1 |].
    apply negb_true_iff, String.eqb_neq. exact H2.
  - destruct (find _ _) as [c |] eqn:E; [| reflexivity].
    apply find_some in E. destruct E as [E1 E2]. apply filter_In in E1.
    destruct E1 as [_ E1]. rewrite E2 in E1. discriminate.
  - apply filter_In in H. apply H.
  - apply filter_In in H. destruct H as [_ H].
    apply negb_true_iff, String.eqb_neq in H. exact H.
  - intros [H1 H2]. apply filter_In. split; [exact H1 |].
    apply negb_true_iff, String.eqb_neq. exact H2.
  - apply Forall_filter. intros n H.
    apply negb_true_iff, String.eqb_neq in H. exact H.
Qed.

Lemma removeConsumable_history_witness :
  let deployed := OfEquipment (sampleTransaction deployment "e1" 1) in
  let used := OfConsumable (sampleConsumableTransaction use "c2" 1) in
  let w := sampleStores [scenarioAsset]
             [sampleConsumable "c1" 5 10 20; sampleConsumable "c2" 5 10 20]
             [deployed; used] [] in
  In deployed (storedTransactions w)
  /\ ~ In deployed (storedTransactions (InventoryStore.removeConsumable "c1" w))
  /\ storedTransactions (InventoryStore.removeConsumable "c1" w) = [used].
Proof.
  intros deployed used w. split; [left; reflexivity |]. split; [| reflexivity].
  exact (proj1 (removeConsumable_history "c1" w) (sampleTransaction deployment "e1" 1)).
Defined.

Lemma processEquipmentTransaction_updated clk tx equipment u :
  EquipmentResult.updatedEquipment (processEquipmentTransaction clk tx equipment) = Some u ->
  EquipmentResult.success (processEquipmentTransaction clk tx equipment) = true
  /\ Equipment.id u = InventoryTransaction.equipmentId tx
  /\ exists e, findEquipment (InventoryTransaction.equipmentId tx) equipment = Some e
               /\ u = applyTransaction clk e tx.
Proof.
  intros Hu.
  destruct (findEquipment (InventoryTransaction.equipmentId tx) equipment)
    as [e |] eqn:Hfind.
  - pose proof (processEquipmentTransaction_found clk tx equipment e Hfind) as Heq.
    assert (Happ : u = applyTransaction clk e tx).
    { unfold applyTransaction. rewrite <- Heq, Hu. reflexivity. }
    split; [| split; [| exists e; split; [reflexivity | exact Happ]]].
    + revert Hu. unfold processEquipmentTransaction. unfold findEquipment in Hfind.
      rewrite Hfind. cbv zeta.
      destruct (InventoryTransaction.type tx);
        try destruct (Qltb _ _); cbn; try discriminate; reflexivity.
    + apply find_some in Hfind. destruct Hfind as [_ Hid].
      apply String.eqb_eq in Hid. revert Hu. unfold processEquipmentTransaction.
      destruct (find _ equipment) as [e' |] eqn:Hfind'; [| discriminate].
      apply find_some in Hfind'. destruct Hfind' as [_ Hid'].
      apply String.eqb_eq in Hid'. cbv zeta.
      destruct (InventoryTransaction.type tx);
        try destruct (Qltb _ _); cbn; try discriminate;
        intros [= <-]; exact Hid'.
  - revert Hu. unfold processEquipmentTransaction. unfold findEquipment in Hfind.
    rewrite Hfind. discriminate.
Qed.

Lemma processEquipmentTransaction_rejected clk tx equipment :
  EquipmentResult.updatedEquipment (processEquipmentTransaction clk tx equipment) = None ->
  EquipmentResult.success (processEquipmentTransaction clk tx equipment) = false.
Proof.
  unfold processEquipmentTransaction.
  destruct (find _ equipment) as [e |]; [| reflexivity]. cbv zeta.
  destruct (InventoryTransaction.type tx);
    try destruct (Qltb _ _); cbn; try discriminate; reflexivity.
Qed.

(** X23.  [addTransaction] of an equipment transaction appends it to the
    history exactly when [processEquipmentTransaction] accepts it.  An
    accepted transaction makes the asset found under its id the updated
    asset and leaves what is found under every other id as it was; a
    rejected one leaves the equipment as it was.  The consumables are not
    touched and the store is no longer loading. *)
Theorem addTransaction_equipment
    (clk : Clock) (t : InventoryTransaction.t) (w : Stores.t) :
  let r := processEquipmentTransaction clk t (storedEquipment w) in
  let w' := InventoryStore.addTransaction clk (OfEquipment t) w in
  storedTransactions w'
  = (if EquipmentResult.success r
     then (storedTransactions w ++ [OfEquipment t])%list else storedTransactions w)
  /\ storedConsumables w' = storedConsumables w
  /\ InventoryState.loading (Stores.inventoryStore w') = false
  /\ match EquipmentResult.updatedEquipment r with
     | Some u =>
         findEquipment (InventoryTransaction.equipmentId t) (storedEquipment w') = Some u
         /\ (forall id, id <> InventoryTransaction.equipmentId t ->
                        findEquipment id (storedEquipment w')
                        = findEquipment id (storedEquipment w))
     | None => storedEquipment w' = storedEquipment w
     end.
Proof.
  intros r w'. subst r w'.
  unfold InventoryStore.addTransaction, InventoryStore.processTransaction,
    storedTransactions, storedConsumables, storedEquipment.
  destruct w as [es s].
  cbn [Stores.inventoryStore Stores.equipmentStore InventoryStore.setLoading
       Stores.set_inventoryStore].
  destruct (EquipmentResult.updatedEquipment
              (processEquipmentTransaction clk t (EquipmentState.equipment es)))
    as [u |] eqn:Hu.
  - destruct (processEquipmentTransaction_updated _ _ _ _ Hu) as (Hs & Hid & e & He & _).
    rewrite Hs. cbn. repeat split.
    + unfold findEquipment in *. rewrite <- Hid.
      apply (find_replace_same Equipment.id (Equipment.id u) u _ e eq_refl).
      rewrite Hid. exact He.
    + intros id Hne. unfold findEquipment.
      apply (find_replace_other Equipment.id (Equipment.id u) id u _ eq_refl).
      congruence.
  - rewrite (processEquipmentTransaction_rejected _ _ _ Hu). cbn. auto.
Qed.

Lemma addTransaction_equipment_witness :
  let w := sampleStores [scenarioAsset] [] [] [] in
  let w' := InventoryStore.addTransaction sampleClock
              (OfEquipment (sampleTransaction deployment "e1" 2)) w in
  findEquipment "e2" (storedEquipment w') = findEquipment "e2" (storedEquipment w)
  /\ option_map Equipment.inUse (findEquipment "e1" (storedEquipment w')) = Some 2.
Proof.
  intros w w'. split; [| reflexivity].
  destruct (addTransaction_equipment sampleClock (sampleTransaction deployment "e1" 2) w)
    as (_ & _ & _ & H).
  cbn in H. destruct H as [_ H]. apply H. discriminate.
Defined.

Lemma processConsumableTransaction_updated tx consumables u :
  ConsumableResult.updatedConsumable (fst (processConsumableTransaction tx consumables))
  = Some u ->
  ConsumableResult.success (fst (processConsumableTransaction tx consumables)) = true
  /\ exists c,
       In c consumables
       /\ (0 <= Consumable.stockLevel c -> 0 <= ConsumableTransaction.quantity tx ->
           0 <= Consumable.stockLevel u).
Proof.
  unfold processConsumableTransaction.
  destruct (find _ consumables) as [c |] eqn:Hfind; [| discriminate].
  apply find_some in Hfind. destruct Hfind as [Hin _]. cbv zeta.
  destruct (ConsumableTransaction.type tx);
    try (destruct (Qltb _ _) eqn:E; [discriminate | apply Qltb_ge in E]);
    cbn [fst ConsumableResult.updatedConsumable ConsumableResult.success];
    intros [= <-]; (split; [reflexivity |]); exists c; (split; [exact Hin |]);
    cbn [Consumable.stockLevel Consumable.set_stockLevel]; intros; lra.
Qed.

(** X24.  [addTransaction] keeps the quantity invariants of the stores:
    if every asset has [0 <= inUse <= quantity] and every consumable a
    non-negative stock, they still do after a transaction of non-negative
    quantity, provided a disposal from the asset the transaction names
    takes only units of it that are not in use. *)
Theorem addTransaction_keeps_invariants
    (clk : Clock) (tx : Transaction) (w : Stores.t) :
  Forall inventoryInvariant (storedEquipment w) ->
  stocksNonNegative (storedConsumables w) ->
  match tx with
  | OfEquipment t =>
      forall e, findEquipment (InventoryTransaction.equipmentId t) (storedEquipment w) = Some e ->
                keepsUnitsInUse e t
  | OfConsumable t => 0 <= ConsumableTransaction.quantity t
  end ->
  let w' := InventoryStore.addTransaction clk tx w in
  Forall inventoryInvariant (storedEquipment w')
  /\ stocksNonNegative (storedConsumables w').
Proof.
  intros Heq Hst Htx w'. subst w'.
  unfold InventoryStore.addTransaction, InventoryStore.processTransaction,
    storedConsumables, storedEquipment, stocksNonNegative in *.
  destruct w as [es s].
  cbn [Stores.inventoryStore Stores.equipmentStore InventoryStore.setLoading
       Stores.set_inventoryStore] in *.
  destruct tx as [t | t].
  - destruct (EquipmentResult.updatedEquipment
                (processEquipmentTransaction clk t (EquipmentState.equipment es)))
      as [u |] eqn:Hu.
    + destruct (processEquipmentTransaction_updated _ _ _ _ Hu)
        as (Hs & _ & e & He & ->).
      rewrite Hs. cbn. split; [| exact Hst].
      pose proof (Htx e He) as Hkeeps.
      apply find_some in He. destruct He as [Hin _].
      apply Forall_replace; [| exact Heq].
      apply inventoryInvariant_step; [| exact Hkeeps].
      exact (proj1 (List.Forall_forall _ _) Heq e Hin).
    + rewrite (processEquipmentTransaction_rejected _ _ _ Hu). cbn. auto.
  - cbn [InventoryState.consumables InventoryState.set_loading].
    destruct (ConsumableResult.updatedConsumable
                (fst (processConsumableTransaction t (InventoryState.consumables s))))
      as [u |] eqn:Hu.
    + destruct (processConsumableTransaction_updated _ _ _ Hu) as (Hs & c & Hin & Hc).
      rewrite Hs. cbn. split; [exact Heq |].
      apply Forall_replace; [| exact Hst].
      apply Hc; [| exact Htx].
      exact (proj1 (List.Forall_forall _ _) Hst c Hin).
    + destruct (ConsumableResult.success _); cbn; auto.
Qed.

Lemma addTransaction_keeps_invariants_witness :
  let free := sampleEquipment "e1" 5 0 (sampleDegradation cycles 100 100 1) in
  let busy := sampleEquipment "e2" 1 1 (sampleDegradation cycles 100 100 1) in
  let w := sampleStores [free; busy] [sampleConsumable "c1" 5 10 20] [] [] in
  let w' := InventoryStore.addTransaction sampleClock
              (OfEquipment (sampleTransaction disposal "e1" 1)) w in
  option_map Equipment.quantity (findEquipment "e1" (storedEquipment w')) = Some 4
  /\ Forall inventoryInvariant (storedEquipment w')
  /\ stocksNonNegative (storedConsumables w').
Proof.
  intros free busy w w'. split; [reflexivity |].
  apply (addTransaction_keeps_invariants sampleClock
           (OfEquipment (sampleTransaction disposal "e1" 1)) w).
  - constructor; [| constructor; [| constructor]]; split; vm_compute; discriminate.
  - constructor; [| constructor]. vm_compute. discriminate.
  - intros e He. injection He as <-.
    split; [vm_compute; discriminate | intros _; vm_compute; discriminate].
Defined.

(** X25.  [syncInventory] changes no stock: the consumables, the
    transactions and the equipment are as before.  The needs are replaced
    by those [generateProcurementNeeds] returns, with the error cleared;
    when that call throws, the needs stay as they were and the error of
    the failed generation is stored. *)
Theorem syncInventory_keeps_stock
    (clk : Clock) (randomUUID : nat -> string) (w : Stores.t) :
  let w' := InventoryStore.syncInventory clk randomUUID w in
  storedConsumables w' = storedConsumables w
  /\ storedTransactions w' = storedTransactions w
  /\ storedEquipment w' = storedEquipment w
  /\ match Raising.generateProcurementNeeds clk randomUUID (storedEquipment w)
             (storedConsumables w) with
     | Ok needs => storedNeeds w' = needs /\ storeError w' = None
     | Throw _ =>
         storedNeeds w' = storedNeeds w
         /\ storeError w' = Some "Failed to generate procurement needs"
     end.
Proof.
  intros w'. subst w'.
  unfold InventoryStore.syncInventory, InventoryStore.refreshProcurementNeeds,
    storedConsumables, storedTransactions, storedEquipment, storedNeeds, storeError.
  destruct w as [es s].
  cbn [Stores.inventoryStore Stores.equipmentStore Stores.set_inventoryStore
       InventoryState.consumables InventoryState.transactions
       InventoryState.procurementNeeds InventoryState.error].
  destruct (generateInventoryReport_entries clk (EquipmentState.equipment es)
              (InventoryState.consumables s)) as (_ & Hc & _).
  cbv zeta in Hc. rewrite Hc.
  destruct (Raising.generateProcurementNeeds clk randomUUID
              (EquipmentState.equipment es) (InventoryState.consumables s));
    cbn; auto.
Qed.

(** X26.  [fulfillProcurement] of a need for an asset, or for a
    consumable the store does not hold, adds no stock anywhere: the
    consumables, the equipment and the transactions are as before.  The
    need is nevertheless marked received, and the error is cleared, also
    the one [updateStock] has just set for the unknown consumable. *)
Theorem fulfillProcurement_without_stock
    (clk : Clock) (randomUUID transactionUUID : nat -> string)
    (id : string) (w : Stores.t) (need : ProcurementNeed.t) :
  find (fun n => String.eqb (ProcurementNeed.id n) id) (storedNeeds w) = Some need ->
  ProcurementNeed.itemType need = it_equipment
  \/ findConsumable (ProcurementNeed.itemId need) (storedConsumables w) = None ->
  let w' := InventoryStore.fulfillProcurement clk randomUUID transactionUUID id w in
  storeError w' = None
  /\ storedConsumables w' = storedConsumables w
  /\ storedEquipment w' = storedEquipment w
  /\ storedTransactions w' = storedTransactions w
  /\ map needKey (storedNeeds w') = map needKey (storedNeeds w)
  /\ Forall (fun n => ProcurementNeed.id n = id -> ProcurementNeed.status n = received)
       (storedNeeds w').
Proof.
  intros Hfind Hcase w'. subst w'.
  unfold InventoryStore.fulfillProcurement, storedNeeds, storedConsumables,
    storedEquipment, storedTransactions, storeError, findConsumable in *.
  destruct w as [es s]. cbn [Stores.inventoryStore Stores.equipmentStore] in *.
  rewrite Hfind.
  assert (Hw : (match ProcurementNeed.itemType need with
                | it_equipment => Stores.mk es s
                | it_consumable =>
                    InventoryStore.updateStock clk randomUUID transactionUUID
                      (ProcurementNeed.itemId need) (ProcurementNeed.quantity need)
                      increment (Stores.mk es s)
                end)
               = Stores.mk es s
               \/ (match ProcurementNeed.itemType need with
                   | it_equipment => Stores.mk es s
                   | it_consumable =>
                       InventoryStore.updateStock clk randomUUID transactionUUID
                         (ProcurementNeed.itemId need) (ProcurementNeed.quantity need)
                         increment (Stores.mk es s)
                   end)
                  = InventoryStore.setError "Consumable not found" (Stores.mk es s)).
  { destruct (ProcurementNeed.itemType need); [left; reflexivity |].
    destruct Hcase as [Hcase | Hcase]; [discriminate |].
    right. unfold InventoryStore.updateStock. cbn [Stores.inventoryStore].
    rewrite Hcase. reflexivity. }
  assert (Hmap : forall l : list ProcurementNeed.t,
             map needKey
               (map (fun n =>
                       if String.eqb (ProcurementNeed.id n) id then
                         ProcurementNeed.mk
                           (ProcurementNeed.id n) (ProcurementNeed.itemType n)
                           (ProcurementNeed.itemId n) (ProcurementNeed.quantity n)
                           (ProcurementNeed.estimatedCost n) (ProcurementNeed.priority n)
                           (ProcurementNeed.reason n) (ProcurementNeed.requestDate n)
                           received
                       else n) l)
             = map needKey l
             /\ Forall (fun n => ProcurementNeed.id n = id ->
                                 ProcurementNeed.status n = received)
                  (map (fun n =>
                          if String.eqb (ProcurementNeed.id n) id then
                            ProcurementNeed.mk
                              (ProcurementNeed.id n) (ProcurementNeed.itemType n)
                              (ProcurementNeed.itemId n) (ProcurementNeed.quantity n)
                              (ProcurementNeed.estimatedCost n) (ProcurementNeed.priority n)
                              (ProcurementNeed.reason n) (ProcurementNeed.requestDate n)
                              received
                          else n) l)).
  { induction l as [| n l [IH1 IH2]]; cbn [map]; [split; [reflexivity | constructor] |].
    split.
    - rewrite IH1. destruct (String.eqb (ProcurementNeed.id n) id); reflexivity.
    - constructor; [| exact IH2].
      destruct (String.eqb (ProcurementNeed.id n) id) eqn:E; [reflexivity |].
      apply String.eqb_neq in E. intros H. contradiction. }
  cbv zeta.
  destruct Hw as [-> | ->]; cbn;
    destruct (Hmap (InventoryState.procurementNeeds s)) as [H1 H2]; auto 10.
Qed.

Lemma fulfillProcurement_without_stock_witness :
  let need := ProcurementNeed.mk "n1" it_consumable "c9" 4 8 high ""
                "2024-06-01T00:00:00.000Z" pending in
  let w := sampleStores [] [sampleConsumable "c1" 5 10 20] [] [need] in
  let w' := InventoryStore.fulfillProcurement sampleClock (fun _ => "id") (fun _ => "tx")
              "n1" w in
  storeError w' = None
  /\ map ProcurementNeed.status (storedNeeds w') = [received]
  /\ storedConsumables w' = storedConsumables w.
Proof.
  intros need w w'.
  destruct (fulfillProcurement_without_stock sampleClock (fun _ => "id") (fun _ => "tx")
              "n1" w need eq_refl (or_intror eq_refl)) as (He & Hc & _).
  split; [exact He |]. split; [reflexivity | exact Hc].
Defined.

(** X27.  The status views of the equipment store against the ledger:
    an asset with [0 <= inUse <= quantity] is listed as available exactly
    when it is listed neither as deployed nor as in maintenance, and then
    all its units are available; listed as in maintenance, one unit beyond
    those in use is unavailable; listed as deployed, fewer units than it
    has are available. *)
Theorem filterEquipmentByStatus_views (state : EquipmentState.t) (e : Equipment.t) :
  In e (EquipmentState.equipment state) ->
  inventoryInvariant e ->
  let listed status := In e (EquipmentStore.filterEquipmentByStatus status state) in
  (listed sf_available <-> ~ listed sf_deployed /\ ~ listed sf_maintenance)
  /\ (listed sf_available -> availableUnits e == Equipment.quantity e)
  /\ (listed sf_maintenance ->
      availableUnits e == Equipment.quantity e - Equipment.inUse e - 1)
  /\ (listed sf_deployed -> availableUnits e < Equipment.quantity e).
Proof.
  intros Hin [H0 H1] listed. subst listed. cbv beta.
  unfold EquipmentStore.filterEquipmentByStatus. rewrite !filter_In.
  unfold availableUnits. cbv zeta.
  destruct (HealthStatus.needsMaintenance (getHealthStatus e));
    destruct (Qgtb (Equipment.inUse e) 0) eqn:E;
    try (apply Qgtb_gt in E); try (apply Qgtb_le in E); cbn [negb andb];
    intuition (try discriminate; try reflexivity; try lra).
Qed.

Lemma filterEquipmentByStatus_views_witness :
  let state := EquipmentState.mk [scenarioAsset] [] None None false None in
  In scenarioAsset (EquipmentStore.filterEquipmentByStatus sf_available state)
  /\ availableUnits scenarioAsset == 5.
Proof.
  intros state.
  assert (Hin : In scenarioAsset (EquipmentState.equipment state))
    by (left; reflexivity).
  assert (Hinv : inventoryInvariant scenarioAsset)
    by (split; vm_compute; discriminate).
  destruct (filterEquipmentByStatus_views state scenarioAsset Hin Hinv) as (_ & H & _).
  assert (Hl : In scenarioAsset (EquipmentStore.filterEquipmentByStatus sf_available state))
    by (left; reflexivity).
  split; [exact Hl |].
  eapply Qeq_trans; [exact (H Hl) |]. reflexivity.
Defined.

(** ** Scores and statistics of the helpers *)

Lemma sum_fold_shift (l : list Q) (a : Q) :
  fold_left (fun sum num => sum + num) l a
  == a + fold_left (fun sum num => sum + num) l 0.
Proof.
  revert a. induction l as [| x l IH]; intros a; cbn [fold_left]; [ring |].
  rewrite (IH (a + x)), (IH (0 + x)). ring.
Qed.

Lemma sum_fold_nonneg (l : list Q) :
  Forall (fun x => 0 <= x) l -> 0 <= fold_left (fun sum num => sum + num) l 0.
Proof.
  induction 1 as [| x l Hx _ IH]; cbn [fold_left]; [lra |].
  rewrite sum_fold_shift. lra.
Qed.

Lemma length_positive {A} (l : list A) : l <> [] -> 0 < inject_Z (Z.of_nat (length l)).
Proof.
  destruct l as [| x l]; [congruence |]. intros _.
  change 0 with (inject_Z 0). rewrite <- Zlt_Qlt. cbn [length]. lia.
Qed.

(** X28.  The variance [calculateVariance] computes for a non-empty list
    is not negative. *)
Theorem calculateVariance_nonneg (numbers : list Q) :
  numbers <> [] ->
  0 <= Helpers.calculateVariance numbers.
Proof.
  intros Hne. pose proof (length_positive numbers Hne) as Hn.
  unfold Helpers.calculateVariance. cbv zeta.
  apply Qle_shift_div_l; [exact Hn |]. rewrite Qmult_0_l.
  apply sum_fold_nonneg. apply List.Forall_forall. intros y Hy.
  apply in_map_iff in Hy. destruct Hy as (x & <- & _).
  change ((x - ?m) ^ 2) with ((x - m) * (x - m)).
  set (d := x - _). nra.
Qed.

Lemma calculateVariance_nonneg_witness :
  0 <= Helpers.calculateVariance [2; 4; 9].
Proof.
  apply (calculateVariance_nonneg [2; 4; 9]). discriminate.
Defined.

(** X29.  For an asset with a positive price, a positive quantity,
    [0 <= inUse <= quantity] and a valid degradation record, the
    efficiency score [calculateEfficiencyScore] computes lies between 80/3
    and 290/3: it never reaches 100. *)
Theorem calculateEfficiencyScore_bounds (e : Equipment.t) :
  0 < Equipment.acquisitionCost e ->
  0 < Equipment.quantity e ->
  inventoryInvariant e ->
  degradationValid (Equipment.degradation e) ->
  80 # 3 <= Helpers.calculateEfficiencyScore e <= 290 # 3.
Proof.
  intros Hcost Hq [H0 H1] Hd.
  set (f := healthFraction (Equipment.degradation e)).
  destruct (healthFraction_bounds _ Hd) as [Hf0 Hf1]. fold f in Hf0, Hf1.
  assert (Hscore : Helpers.calculateEfficiencyScore e
                   == (Equipment.inUse e / Equipment.quantity e * 100 + 110 * f + 80) / 3).
  { unfold Helpers.calculateEfficiencyScore, Helpers.calculateOperationalCost.
    cbv zeta. fold (healthFraction (Equipment.degradation e)). fold f.
    assert (Hc : 100 - Equipment.acquisitionCost e * (1 # 10) * (2 - f)
                       / Equipment.acquisitionCost e * 100
                 == 80 + 10 * f) by (field; lra).
    destruct (Math_max_cases 0 (100 - Equipment.acquisitionCost e * (1 # 10) * (2 - f)
                                      / Equipment.acquisitionCost e * 100))
      as [[_ ->] | [Hle _]]; [| lra].
    rewrite Hc. field. lra. }
  assert (Hu0 : 0 <= Equipment.inUse e / Equipment.quantity e)
    by (apply Qle_shift_div_l; [exact Hq | lra]).
  assert (Hu1 : Equipment.inUse e / Equipment.quantity e <= 1)
    by (apply Qle_shift_div_r; [exact Hq | lra]).
  rewrite Hscore. split.
  - apply Qle_shift_div_l; lra.
  - apply Qle_shift_div_r; lra.
Qed.

Lemma calculateEfficiencyScore_bounds_witness :
  let e := sampleEquipment "e1" 5 2 (sampleDegradation cycles 100 44 1) in
  80 # 3 <= Helpers.calculateEfficiencyScore e <= 290 # 3.
Proof.
  intros e.
  assert (H : 0 < Equipment.acquisitionCost e /\ 0 < Equipment.quantity e
              /\ inventoryInvariant e /\ degradationValid (Equipment.degradation e)).
  { repeat split; vm_compute; congruence. }
  destruct H as (Hc & Hq & Hi & Hd).
  exact (calculateEfficiencyScore_bounds e Hc Hq Hi Hd).
Defined.
